(** * Terrain navigation-display rendering core of the local API

    A shallow embedding of the terrain map handler
    ([terrain/processing/maphandler.ts]), of the A32NX navigation-display
    colorizer kernel ([a32nxRenderNavigationDisplay] and its helpers) and of
    the local elevation-map kernel ([createLocalElevationMap]).

    Number model.  A JavaScript [number] is modelled by an exact rational
    ([Q]); comparisons are the boolean tests on [Q], [Math.floor] is
    [Qfloor] and [Math.round] is [Qfloor (x + 1/2)].  The three
    transcendental calls of the sources ([Math.atan], [Math.sqrt],
    [Math.acos]) are taken in the real numbers.  Rounding error of the
    floating-point operations is not part of the model, and neither are
    the infinities and NaN of a division by zero ([x / 0] is [0] in [Q]):
    the sources divide by the size of a tile, by the height of the
    display and, behind a test, by a positive distance or a positive
    total frequency.  The one [NaN] of the model is the number of an
    object that a launch hands to a kernel parameter. *)

From Stdlib Require Import QArith Qround Qminmax ZArith List Bool String.
From Stdlib Require Import Reals Ratan Qreals Factorial.
From Stdlib Require Import Lia Lra Lqa.
Import ListNotations.

(** [lra] decides linear arithmetic over the rationals, [rlra] over the
    real numbers. *)
Ltac rlra := Lra.lra.

Local Open Scope Q_scope.

(** * Part I. The embedding *)

(** ** JavaScript numbers *)

Module Js.

Definition number := Q.

Definition leb (a b : number) : bool := Qle_bool a b.
Definition ltb (a b : number) : bool := negb (Qle_bool b a).
Definition geb (a b : number) : bool := Qle_bool b a.
Definition gtb (a b : number) : bool := negb (Qle_bool a b).
Definition eqb (a b : number) : bool := Qeq_bool a b.

(** [Math.floor] and [Math.round] (halves are rounded up). *)
Definition floor (a : number) : Z := Qfloor a.
Definition round (a : number) : Z := Qfloor (a + (1 # 2)).

(** A value read out of a CPU-side array: a number, or [undefined] when
    the index is not an element index of the array. *)
Inductive value : Type :=
| Num (q : number)
| Undefined.

(** [a[i]] on a typed array. *)
Definition get (a : list number) (i : Z) : value :=
  if (i <? 0)%Z then Undefined
  else match nth_error a (Z.to_nat i) with
       | Some q => Num q
       | None => Undefined
       end.

(** [v !== q] for a number [q]. *)
Definition strict_neq (v : value) (q : number) : bool :=
  match v with
  | Num p => negb (eqb p q)
  | Undefined => true
  end.

End Js.

Abbreviation number := Js.number.

Declare Scope js_scope.
Delimit Scope js_scope with js.
Infix "<=?" := Js.leb (at level 70, no associativity) : js_scope.
Infix "<?" := Js.ltb (at level 70, no associativity) : js_scope.
Infix ">=?" := Js.geb (at level 70, no associativity) : js_scope.
Infix ">?" := Js.gtb (at level 70, no associativity) : js_scope.
Infix "=?" := Js.eqb (at level 70, no associativity) : js_scope.
Local Open Scope js_scope.

(** ** Constants of the map handler *)

(* map grid creation *)
Definition InvalidElevation : number := 32767.
Definition UnknownElevation : number := 32766.
Definition WaterElevation : number := -1.

(* histogram parameters *)
Definition HistogramBinRange : number := 100.
Definition HistogramMinimumElevation : number := -500.
Definition HistogramMaximumElevation : number := 29040.
Definition HistogramBinCount : Z :=
  Qceiling ((HistogramMaximumElevation - HistogramMinimumElevation + 1)
            / HistogramBinRange).

(* rendering parameters *)
Definition RenderingLowerPercentile : number := 0.85.
Definition RenderingUpperPercentile : number := 0.95.
Definition RenderingFlatEarthThreshold : number := 100.
Definition RenderingNormalModeLowDensityGreenOffset : number := 2000.
Definition RenderingNormalModeHighDensityGreenOffset : number := 1000.
Definition RenderingNormalModeHighDensityYellowOffset : number := 1000.
Definition RenderingNormalModeHighDensityRedOffset : number := 2000.
Definition RenderingGearDownOffset : number := 250.
Definition RenderingNonGearDownOffset : number := 500.

(** The constants a navigation-display kernel is created with
    ([setConstants<NavigationDisplayConstants>]); only the fields the
    kernel functions below read are kept. *)
Record NavigationDisplayConstants : Type := {
  histogramBinRange : number;
  histogramMinElevation : number;
  histogramBinCount : Z;
  lowerPercentile : number;
  upperPercentile : number;
  flatEarthThreshold : number;
  invalidElevation : number;
  unknownElevation : number;
  waterElevation : number;
  normalModeLowDensityGreenOffset : number;
  normalModeHighDensityGreenOffset : number;
  normalModeHighDensityYellowOffset : number;
  normalModeHighDensityRedOffset : number
}.

Definition navigationDisplayConstants : NavigationDisplayConstants := {|
  histogramBinRange := HistogramBinRange;
  histogramMinElevation := HistogramMinimumElevation;
  histogramBinCount := HistogramBinCount;
  lowerPercentile := RenderingLowerPercentile;
  upperPercentile := RenderingUpperPercentile;
  flatEarthThreshold := RenderingFlatEarthThreshold;
  invalidElevation := InvalidElevation;
  unknownElevation := UnknownElevation;
  waterElevation := WaterElevation;
  normalModeLowDensityGreenOffset := RenderingNormalModeLowDensityGreenOffset;
  normalModeHighDensityGreenOffset := RenderingNormalModeHighDensityGreenOffset;
  normalModeHighDensityYellowOffset := RenderingNormalModeHighDensityYellowOffset;
  normalModeHighDensityRedOffset := RenderingNormalModeHighDensityRedOffset
|}.

(** ** The navigation-display colorizer kernel *)

Section Colorizer.

Variable this : NavigationDisplayConstants.

Definition a32nxCalculateNormalModeGreenThresholds
    (referenceAltitude minimumElevation flatEarth lowerPercentile
     halfElevation : number) : number * number :=
  let lowDensityGreen :=
    if referenceAltitude - normalModeLowDensityGreenOffset this <=? minimumElevation
    then minimumElevation + 200
    else referenceAltitude - normalModeLowDensityGreenOffset this in
  let highDensityGreen :=
    if referenceAltitude - normalModeHighDensityGreenOffset this <=? minimumElevation
    then minimumElevation + 200
    else referenceAltitude - normalModeHighDensityGreenOffset this in
  let lowDensityGreen :=
    if flatEarth >=? 0 then
      if (halfElevation <=? lowerPercentile) && (lowDensityGreen >? halfElevation)
      then halfElevation
      else if (halfElevation >? lowerPercentile) && (lowDensityGreen >? lowerPercentile)
      then lowerPercentile
      else lowDensityGreen
    else lowDensityGreen in
  (lowDensityGreen, highDensityGreen).

Definition a32nxCalculateNormalModeWarningThresholds
    (referenceAltitude minimumElevation gearDownAltitudeOffset : number)
    : number * number * number :=
  let lowDensityYellow := referenceAltitude - gearDownAltitudeOffset in
  let highDensityYellow :=
    referenceAltitude + normalModeHighDensityYellowOffset this in
  let highDensityRed :=
    referenceAltitude + normalModeHighDensityRedOffset this in
  let lowDensityYellow :=
    if lowDensityYellow <=? minimumElevation
    then minimumElevation + 200
    else lowDensityYellow in
  (lowDensityYellow, highDensityYellow, highDensityRed).

Definition a32nxCalculatePeaksModeThresholds
    (lowerPercentile upperPercentile halfElevation minimumElevation
     maximumElevation : number) : number * number * number :=
  let lowerDensity := Qmin lowerPercentile halfElevation in
  let higherDensity :=
    Qmin upperPercentile
         ((maximumElevation - minimumElevation) * 0.65 + minimumElevation) in
  let solidDensity :=
    (maximumElevation - minimumElevation) * 0.95 + minimumElevation in
  if (lowerDensity >=? higherDensity) || (lowerDensity >=? solidDensity)
     || (higherDensity >=? solidDensity)
     || (lowerPercentile >=? upperPercentile)
     || (lowerPercentile >=? solidDensity)
     || (upperPercentile >=? solidDensity)
  then (lowerDensity, maximumElevation + 100, maximumElevation + 100)
  else (lowerDensity, higherDensity, solidDensity).

(** An RGBA quadruple, and the read [color[colorChannel]]. *)
Definition Color : Type := (number * number * number * number)%type.

Definition channel (color : Color) (colorChannel : Z) : number :=
  let '(r, g, b, a) := color in
  match colorChannel with
  | 0%Z => r
  | 1%Z => g
  | 2%Z => b
  | _ => a
  end.

(** The position of the GPU thread, [this.thread]. *)
Record Thread : Type := { thread_x : Z; thread_y : Z }.

(** The stipple functions are not part of the colorizer file; they are
    imported from [./highdensitypixel], [./lowdensitypixel] and
    [./waterpixel]. *)
Variable a32nxDrawHighDensityPixel : Color -> Z -> Z -> number -> Color.
Variable a32nxDrawLowDensityPixel : Color -> Z -> Z -> number -> Color.
Variable a32nxDrawWaterDensityPixel : Color -> Z -> Z -> number -> number -> Color.

Definition a32nxRenderNormalMode (thread : Thread)
    (elevation : number) (pixelX pixelY : Z)
    (height centerCoordinateX referenceAltitude minimumElevation maximumElevation
     flatEarth gearDownAltitudeOffset lowerPercentile halfElevation
     absoluteCutOffAltitude : number) : Color :=
  let '(lowDensityYellow, highDensityYellow, highDensityRed) :=
    a32nxCalculateNormalModeWarningThresholds
      referenceAltitude minimumElevation gearDownAltitudeOffset in
  let '(lowDensityGreen, highDensityGreen) :=
    a32nxCalculateNormalModeGreenThresholds
      referenceAltitude minimumElevation flatEarth lowerPercentile
      halfElevation in
  (* store statistics in the last row as some metadata *)
  if inject_Z (thread_y thread) >=? height then
    if (thread_x thread <? 4)%Z then
      (0, minimumElevation, maximumElevation, highDensityRed)
    else if (thread_x thread <? 8)%Z then
      (highDensityYellow, lowDensityYellow, highDensityGreen, lowDensityGreen)
    else (0, 0, 0, 0)
  else if negb (elevation =? invalidElevation this)
          && negb (elevation =? unknownElevation this)
          && negb (elevation =? waterElevation this)
          && (elevation >=? absoluteCutOffAltitude) then
    if elevation >=? highDensityRed then
      a32nxDrawHighDensityPixel (255, 0, 0, 255) pixelX pixelY centerCoordinateX
    else if elevation >=? highDensityYellow then
      a32nxDrawHighDensityPixel (255, 255, 50, 255) pixelX pixelY centerCoordinateX
    else if (elevation >=? highDensityGreen) && (elevation <? lowDensityYellow) then
      a32nxDrawHighDensityPixel (0, 255, 0, 255) pixelX pixelY centerCoordinateX
    else if (elevation >=? lowDensityYellow) && (elevation <? highDensityYellow) then
      a32nxDrawLowDensityPixel (255, 255, 50, 255) pixelX pixelY centerCoordinateX
    else if (elevation >=? lowDensityGreen) && (elevation <? highDensityGreen) then
      a32nxDrawLowDensityPixel (0, 255, 0, 255) pixelX pixelY centerCoordinateX
    else (0, 0, 0, 0)
  else if elevation =? waterElevation this then
    a32nxDrawWaterDensityPixel (0, 255, 255, 255) pixelX pixelY height
      centerCoordinateX
  else if elevation =? unknownElevation this then
    a32nxDrawHighDensityPixel (255, 148, 255, 255) pixelX pixelY centerCoordinateX
  else (0, 0, 0, 0).

Definition a32nxRenderPeaksMode (thread : Thread)
    (elevation : number) (pixelX pixelY : Z)
    (height centerCoordinateX lowerPercentile upperPercentile halfElevation
     minimumElevation maximumElevation : number) : Color :=
  let '(lowerDensity, higherDensity, solidDensity) :=
    a32nxCalculatePeaksModeThresholds
      lowerPercentile upperPercentile halfElevation minimumElevation
      maximumElevation in
  (* store statistics in the last row as some metadata *)
  if inject_Z (thread_y thread) >=? height then
    if (thread_x thread <? 4)%Z then
      (1, minimumElevation, maximumElevation, solidDensity)
    else if (thread_x thread <? 8)%Z then
      (higherDensity, lowerDensity, 0, 0)
    else (0, 0, 0, 0)
  else if negb (elevation =? invalidElevation this)
          && negb (elevation =? unknownElevation this)
          && negb (elevation =? waterElevation this) then
    if solidDensity <=? elevation then (0, 255, 0, 255)
    else if higherDensity <=? elevation then
      a32nxDrawHighDensityPixel (0, 255, 0, 255) pixelX pixelY centerCoordinateX
    else if lowerDensity <=? elevation then
      a32nxDrawLowDensityPixel (0, 255, 0, 255) pixelX pixelY centerCoordinateX
    else (0, 0, 0, 0)
  else if elevation =? waterElevation this then
    a32nxDrawWaterDensityPixel (0, 255, 255, 255) pixelX pixelY height
      centerCoordinateX
  else if elevation =? unknownElevation this then
    a32nxDrawHighDensityPixel (255, 148, 255, 255) pixelX pixelY centerCoordinateX
  else (0, 0, 0, 0).

(** [histogram[bin]].  The histogram has one entry per bin; the loops
    below start at the bin of the cut-off altitude, which is never below
    the lowest bin. *)
Definition histogramAt (histogram : list number) (bin : Z) : number :=
  nth (Z.to_nat bin) histogram 0.

(** The bins [first, first + 1, ..., last - 1] a [for] loop runs over. *)
Definition binRange (first last : Z) : list Z :=
  map (fun k => (first + Z.of_nat k)%Z) (seq 0 (Z.to_nat (last - first))).

(** The variables the second loop of the kernel updates. *)
Record Percentiles : Type := {
  currentPercentile : number;
  lowerBin : Z;
  upperBin : Z;
  minElevationBin : Z;
  maxElevationBin : Z
}.

Definition percentileStep (histogram : list number) (totalFrequency : number)
    (acc : Percentiles) (bin : Z) : Percentiles :=
  let acc :=
    if totalFrequency >? 0 then
      let currentPercentile :=
        currentPercentile acc + histogramAt histogram bin / totalFrequency in
      {| currentPercentile := currentPercentile;
         lowerBin :=
           if (lowerBin acc =? -1)%Z && (currentPercentile >=? lowerPercentile this)
           then bin else lowerBin acc;
         upperBin :=
           if (upperBin acc =? -1)%Z && (currentPercentile >=? upperPercentile this)
           then bin else upperBin acc;
         minElevationBin := minElevationBin acc;
         maxElevationBin := maxElevationBin acc |}
    else acc in
  if histogramAt histogram bin >? 0 then
    {| currentPercentile := currentPercentile acc;
       lowerBin := lowerBin acc;
       upperBin := upperBin acc;
       minElevationBin :=
         if (minElevationBin acc <? 0)%Z then bin else minElevationBin acc;
       maxElevationBin := bin |}
  else acc.

(** The statistics [a32nxRenderNavigationDisplay] derives from the
    histogram before it selects the rendering mode. *)
Record Statistics : Type := {
  referenceAltitude : number;
  lowerPercentileElevation : number;
  upperPercentileElevation : number;
  minElevation : number;
  maxElevation : number;
  flatEarth : number;
  halfElevation : number
}.

Definition statistics (histogram : list number)
    (altitude verticalSpeed cutOffAltitude : number) : Statistics :=
  (* calculate the bin of the cut off altitude *)
  let cutOffAltitudeBin :=
    Js.floor ((cutOffAltitude - histogramMinElevation this)
              / histogramBinRange this) in
  (* predict 30 seconds -> half of the vertical speed (feet per minute) *)
  let referenceAltitude :=
    altitude + (if verticalSpeed <=? -1000 then verticalSpeed * 0.5 else 0) in
  (* calculate the total frequency to collect the statistics *)
  let totalFrequency :=
    fold_left (fun total bin => total + histogramAt histogram bin)
      (binRange cutOffAltitudeBin (histogramBinCount this)) 0 in
  let loop :=
    fold_left (percentileStep histogram totalFrequency)
      (binRange cutOffAltitudeBin (histogramBinCount this))
      {| currentPercentile := 0; lowerBin := -1; upperBin := -1;
         minElevationBin := -1; maxElevationBin := -1 |} in
  let lowerBin :=
    if (lowerBin loop >? histogramBinCount this)%Z
    then (histogramBinCount this - 1)%Z else lowerBin loop in
  let upperBin :=
    if (upperBin loop <? 0)%Z
    then (histogramBinCount this - 1)%Z else upperBin loop in
  let lowerPercentileElevation :=
    inject_Z lowerBin * histogramBinRange this + histogramMinElevation this in
  let upperPercentileElevation :=
    inject_Z upperBin * histogramBinRange this + histogramMinElevation this in
  let minElevation :=
    if (minElevationBin loop >=? 0)%Z
    then inject_Z (minElevationBin loop) * histogramBinRange this
         + histogramMinElevation this
    else -1 in
  let maxElevation :=
    if (maxElevationBin loop >=? 0)%Z
    then inject_Z (maxElevationBin loop + 1) * histogramBinRange this
         + histogramMinElevation this
    else 0 in
  (* define some rendering thresholds *)
  {| referenceAltitude := referenceAltitude;
     lowerPercentileElevation := lowerPercentileElevation;
     upperPercentileElevation := upperPercentileElevation;
     minElevation := minElevation;
     maxElevation := maxElevation;
     flatEarth := flatEarthThreshold this - (maxElevation - minElevation);
     halfElevation := maxElevation * 0.5 |}.

(** The elevation grid is a GPU texture, read as
    [elevationGrid[y][pixelX]]. *)
Definition Texture : Type := Z -> Z -> number.

Definition a32nxRenderNavigationDisplay (thread : Thread)
    (elevationGrid : Texture) (histogram : list number)
    (width height altitude verticalSpeed gearDownAltitudeOffset
     cutOffAltitude : number) : number :=
  let s := statistics histogram altitude verticalSpeed cutOffAltitude in
  let centerCoordinateX := width / 2 in
  let pixelX := (thread_x thread / 4)%Z in
  let colorChannel := (thread_x thread mod 4)%Z in
  (* fallback for metadata block *)
  let pixelElevation :=
    if inject_Z (thread_y thread) <? height
    then elevationGrid (thread_y thread) pixelX else 0 in
  if maxElevation s >=? referenceAltitude s - gearDownAltitudeOffset then
    channel
      (a32nxRenderNormalMode thread pixelElevation pixelX (thread_y thread)
         height centerCoordinateX (referenceAltitude s) (minElevation s)
         (maxElevation s) (flatEarth s) gearDownAltitudeOffset
         (lowerPercentileElevation s) (halfElevation s) cutOffAltitude)
      colorChannel
  else
    channel
      (a32nxRenderPeaksMode thread pixelElevation pixelX (thread_y thread)
         height centerCoordinateX (lowerPercentileElevation s)
         (upperPercentileElevation s) (halfElevation s) (minElevation s)
         (maxElevation s))
      colorChannel.

End Colorizer.

(** ** The local elevation-map kernel *)

(** The kernel computes a square root, an arc cosine and a projection on
    the WGS-84 sphere: its numbers are real numbers. *)

Definition Rgtb (a b : R) : bool := if Rgt_dec a b then true else false.
Definition Rltb (a b : R) : bool := if Rlt_dec a b then true else false.
Definition Reqb (a b : R) : bool := if Req_dec_T a b then true else false.

(** [Math.floor] on a real number. *)
Definition Rfloor (a : R) : Z := Int_part a.

Record LocalElevationMapConstants : Type := {
  lem_unknownElevation : R;
  lem_invalidElevation : R
}.

Definition localElevationMapConstants : LocalElevationMapConstants := {|
  lem_unknownElevation := Q2R UnknownElevation;
  lem_invalidElevation := Q2R InvalidElevation
|}.

(** TypeScript does not check the launch of a kernel, and its parameter
    types are gone at run time: a parameter holds what the call hands
    over at its position.  The launch of the map handler hands a number
    to every parameter but three; those three are values here. *)
Inductive KernelValue : Type :=
| KNumber (number : R)
| KBoolean (boolean : bool)
| KTexture (texture : Z -> Z -> R).

(** The number of a value in arithmetic and in a comparison; [None] is
    [NaN], the number of an object. *)
Definition toNumber (value : KernelValue) : option R :=
  match value with
  | KNumber number => Some number
  | KBoolean boolean => Some (if boolean then 1 else 0)%R
  | KTexture _ => None
  end.

(** [value === true]. *)
Definition isTrue (value : KernelValue) : bool :=
  match value with
  | KBoolean true => true
  | _ => false
  end.

(** [a < b] and [a > b]: a comparison with [NaN] is false. *)
Definition lessThan (a b : option R) : bool :=
  match a, b with
  | Some a, Some b => Rltb a b
  | _, _ => false
  end.

Definition greaterThan (a b : option R) : bool :=
  match a, b with
  | Some a, Some b => Rgtb a b
  | _, _ => false
  end.

(** What a kernel thread ends with: a number, [undefined], or a
    [TypeError]. *)
Inductive KernelResult : Type :=
| Returned (number : R)
| ReturnedUndefined
| Thrown.

(** [worldMap[y][x]].  A number has no row: the read of [x] in
    [undefined] throws.  So does the read in the row [NaN] of a texture;
    the column [NaN] of a row is [undefined]. *)
Definition worldMapAt (worldMap : KernelValue) (y x : option Z)
    : KernelResult :=
  match worldMap with
  | KTexture texture =>
    match y with
    | Some y =>
      match x with
      | Some x => Returned (texture y x)
      | None => ReturnedUndefined
      end
    | None => Thrown
    end
  | KNumber _ | KBoolean _ => Thrown
  end.

Section LocalElevationMap.

Local Open Scope R_scope.

Variable this : LocalElevationMapConstants.

(** Imported from [./helper] and [../generic/helper]. *)
Variable normalizeHeading : R -> R.
Variable projectWgs84 : R -> R -> R -> R -> R * R.
Variable rad2deg : R -> R.

Definition createLocalElevationMap (thread : Thread)
    (latitude longitude heading currentWorldGridX currentWorldGridY : R)
    (worldMap : KernelValue) (worldMapWidth : R) (worldMapHeight : KernelValue)
    (worldMapSouthwestLat worldMapSouthwestLong worldMapNortheastLat
     worldMapNortheastLong ndWidth ndHeight meterPerPixel : R)
    (arcMode : KernelValue) : KernelResult :=
  let centerX := ndWidth / 2 in
  let delta := (IZR (thread_x thread) - centerX, ndHeight - IZR (thread_y thread)) in
  (* calculate distance and bearing for the projection *)
  let distancePixels := sqrt (fst delta ^ 2 + snd delta ^ 2) in
  if isTrue arcMode && Rgtb distancePixels ndHeight
  then Returned (lem_invalidElevation this)
  else
    let distance := distancePixels * (meterPerPixel / 2) in
    let angle := rad2deg (acos (snd delta / distancePixels)) in
    let bearing :=
      if Rgtb (IZR (thread_x thread)) centerX then angle else 360 - angle in
    let bearing := normalizeHeading (bearing + heading) in
    let projected := projectWgs84 latitude longitude bearing distance in
    (* calculate the pixel movement out of the current position *)
    let latStep :=
      option_map
        (fun worldMapHeight =>
           (worldMapNortheastLat - worldMapSouthwestLat) / worldMapHeight)
        (toNumber worldMapHeight) in
    let longStep := (worldMapNortheastLong - worldMapSouthwestLong) / worldMapWidth in
    let latPixelDelta :=
      option_map (fun latStep => (latitude - fst projected) / latStep) latStep in
    let longPixelDelta := (snd projected - longitude) / longStep in
    let y :=
      option_map
        (fun latPixelDelta => Rfloor (currentWorldGridY + latPixelDelta))
        latPixelDelta in
    let x := Rfloor (currentWorldGridX + longPixelDelta) in
    if lessThan (option_map IZR y) (Some 0)
       || greaterThan (option_map IZR y) (toNumber worldMapHeight)
       || Rltb (IZR x) 0 || Rgtb (IZR x) worldMapWidth
    then Returned (lem_unknownElevation this)
    else worldMapAt worldMap y (Some x).

End LocalElevationMap.

(** ** The map handler *)

(* mathematical conversion constants *)
Definition FeetPerNauticalMile : number := 6076.12.
Definition ThreeNauticalMilesInFeet : number := 18228.3.
Definition NauticalMilesToMetres : number := 1852.

(* rendering parameters *)
Definition RenderingMaxPixelWidth : Z := 768.
Definition RenderingArcModePixelWidth : Z := 756.
Definition RenderingArcModePixelHeight : Z := 492.
Definition RenderingRoseModePixelWidth : Z := 678.
Definition RenderingRoseModePixelHeight : Z := 250.
Definition RenderingMaxPixelHeight : Z :=
  Z.max RenderingArcModePixelHeight RenderingRoseModePixelHeight.
Definition RenderingCutOffAltitudeMinimimum : number := 200.
Definition RenderingCutOffAltitudeMaximum : number := 400.
Definition RenderingMaxAirportDistance : number := 4.0.
Definition RenderingColorChannelCount : Z := 4.

(** The severity of an elevation of the metadata
    ([navigationdisplaydata.ts]). *)
Inductive TerrainLevelMode : Type := PeaksMode | Warning | Caution.

Record NavigationDisplayData : Type := {
  MinimumElevation : number;
  MinimumElevationMode : TerrainLevelMode;
  MaximumElevation : number;
  MaximumElevationMode : TerrainLevelMode;
  FirstFrame : bool;
  DisplayRange : number;
  DisplayMode : number;
  FrameByteCount : number
}.

Record NavigationDisplay : Type := {
  range : number;
  arcMode : bool;
  active : bool;
  efisMode : number;
  mapOffsetX : number;
  mapWidth : number;
  mapHeight : number
}.

Inductive TerrainRenderingMode : Type := ArcMode.

Record AircraftStatus : Type := {
  adiruDataValid : bool;
  latitude : number;
  longitude : number;
  altitude : number;
  heading : number;
  verticalSpeed : number;
  gearIsDown : bool;
  destinationDataValid : bool;
  destinationLatitude : number;
  destinationLongitude : number;
  navigationDisplayCapt : NavigationDisplay;
  navigationDisplayFO : NavigationDisplay;
  navigationDisplayRenderingMode : TerrainRenderingMode
}.

(** [worldmap.GridData]: the angular size of a tile of the terrain map. *)
Record GridData : Type := {
  latitudeStep : number;
  longitudeStep : number
}.

Record CachedElevationData : Type := {
  gpuData : option Texture;
  cpuData : option (list number);
  cachedTiles : number
}.

Record WorldMapMetadata : Type := {
  southwest : number * number;
  northeast : number * number;
  currentGridPosition_x : number;
  currentGridPosition_y : number;
  minWidthPerTile : number;
  minHeightPerTile : number;
  width : number;
  height : number
}.

(** Handles of [setTimeout] and [setInterval], and encoded frames. *)
Definition Timer : Type := nat.
Definition Frame : Type := list Z.

Record NavigationDisplayThresholdsDto : Type := {
  dto_minElevation : number;
  dto_minElevationIsWarning : bool;
  dto_minElevationIsCaution : bool;
  dto_maxElevation : number;
  dto_maxElevationIsWarning : bool;
  dto_maxElevationIsCaution : bool
}.

Record TransitionData : Type := {
  timestamp : number;
  thresholds : option NavigationDisplayThresholdsDto;
  frames : list Frame
}.

(** One entry of [navigationDisplayRendering] (the kernel handle
    [finalMap] has no state of its own). *)
Record SideState : Type := {
  config : option NavigationDisplay;
  timeout : option Timer;
  durationInterval : option Timer;
  resetRenderingData : bool;
  startupTimestamp : number;
  lastFrame : option Frame;
  lastTransitionData : TransitionData
}.

Record MapHandler : Type := {
  worldmap_GridData : GridData;
  currentGroundTruthPosition : option (number * number);
  cachedElevationData : CachedElevationData;
  worldMapMetadata : WorldMapMetadata;
  aircraftStatus : option AircraftStatus;
  navigationDisplayRendering : list (string * SideState)
}.

(** *** Reading the cached elevation grid *)

(** [extractElevation] reads [this.aircraftStatus], which may be [null]:
    [None] stands for the [TypeError] the read raises then. *)
Definition extractElevation (this : MapHandler) (latitude' longitude' : number)
    : option Js.value :=
  let cached := cachedElevationData this in
  match cpuData cached with
  | None => Some (Js.Num InvalidElevation)
  | Some data =>
    if (Z.of_nat (List.length data) =? 0)%Z then Some (Js.Num InvalidElevation)
    else
      match aircraftStatus this with
      | None => None
      | Some status =>
        let meta := worldMapMetadata this in
        (* calculate the pixel movement out of the current position *)
        let latStep := latitudeStep (worldmap_GridData this) / minHeightPerTile meta in
        let longStep := longitudeStep (worldmap_GridData this) / minWidthPerTile meta in
        let latPixelDelta := (latitude status - latitude') / latStep in
        let longPixelDelta := (longitude' - longitude status) / longStep in
        (* calculate the map index *)
        let index := (currentGridPosition_y meta + latPixelDelta) * width meta in
        let index := index + (currentGridPosition_x meta + longPixelDelta) in
        let index := Js.floor index in
        if (index >=? Z.of_nat (List.length data))%Z then Some (Js.Num UnknownElevation)
        else Some (Js.get data index)
      end
  end.

(** *** The cut-off altitude *)

Section CutOffAltitude.

(** [distanceWgs84] (nautical miles) is imported from
    [./generic/helper]. *)
Variable distanceWgs84 : number -> number -> number -> number -> number.

(** The glide until touchdown: [opposite] is
    [altitude - destinationElevation], not a number ([None]) when the
    destination elevation is [undefined]; a comparison with it is then
    false. *)
Definition glideRadian (opposite : option number) (distance : number) : R :=
  let distanceFeet := distance * FeetPerNauticalMile in
  match opposite with
  | Some opposite =>
    if (opposite >? 0) && (distance >? 0)
    then atan (Q2R (opposite / distanceFeet))
    else 0%R
  | None => 0%R
  end.

Definition calculateAbsoluteCutOffAltitude (this : MapHandler) : option number :=
  match aircraftStatus this with
  | None => Some HistogramMinimumElevation
  | Some status =>
    if Bool.eqb (destinationDataValid status) false
    then Some HistogramMinimumElevation
    else
      match extractElevation this (destinationLatitude status)
                             (destinationLongitude status) with
      | None => None
      | Some destinationElevation =>
        if Js.strict_neq destinationElevation InvalidElevation then
          let cutOffAltitude := RenderingCutOffAltitudeMaximum in
          let distance :=
            distanceWgs84 (latitude status) (longitude status)
              (destinationLatitude status) (destinationLongitude status) in
          if distance <=? RenderingMaxAirportDistance then
            let distanceFeet := distance * FeetPerNauticalMile in
            (* calculate the glide until touchdown *)
            let opposite :=
              match destinationElevation with
              | Js.Num elevation => Some (altitude status - elevation)
              | Js.Undefined => None
              end in
            let glideRadian := glideRadian opposite distance in
            (* check if the glide is greater or equal 3 degrees *)
            if Rltb glideRadian 0.0523599 then
              if (distance <=? 1.0) || Reqb glideRadian 0 then
                (* use the minimum value close to the airport *)
                Some RenderingCutOffAltitudeMinimimum
              else
                (* use a linear model from max to min for 4 nm to 1 nm *)
                let slope :=
                  (RenderingCutOffAltitudeMinimimum - RenderingCutOffAltitudeMaximum)
                  / ThreeNauticalMilesInFeet in
                let cutOffAltitude :=
                  inject_Z (Js.round (slope * (distanceFeet - FeetPerNauticalMile)
                                      + RenderingCutOffAltitudeMaximum)) in
                (* ensure that we are not below the minimum and not above the maximum *)
                let cutOffAltitude := Qmax cutOffAltitude RenderingCutOffAltitudeMinimimum in
                let cutOffAltitude := Qmin cutOffAltitude RenderingCutOffAltitudeMaximum in
                Some cutOffAltitude
            else Some cutOffAltitude
          else Some cutOffAltitude
        else Some HistogramMinimumElevation
      end
  end.

End CutOffAltitude.

(** *** The metadata row *)

Section Metadata.

(** [new NavigationDisplayData()], from [./navigationdisplaydata];
    [analyzeMetadata] overwrites the two elevations and their modes. *)
Variable newNavigationDisplayData : NavigationDisplayData.

Definition setElevations (retval : NavigationDisplayData)
    (minimum : number) (minimumMode : TerrainLevelMode)
    (maximum : number) (maximumMode : TerrainLevelMode)
    : NavigationDisplayData :=
  {| MinimumElevation := minimum;
     MinimumElevationMode := minimumMode;
     MaximumElevation := maximum;
     MaximumElevationMode := maximumMode;
     FirstFrame := FirstFrame retval;
     DisplayRange := DisplayRange retval;
     DisplayMode := DisplayMode retval;
     FrameByteCount := FrameByteCount retval |}.

(** [metadata[i]]; the metadata row of a kernel output has
    [4 * RenderingMaxPixelWidth] entries. *)
Definition metadataAt (metadata : list number) (i : nat) : number :=
  nth i metadata 0.

Definition analyzeMetadata (metadata : list number) (cutOffAltitude : number)
    : NavigationDisplayData :=
  let retval := newNavigationDisplayData in
  if metadataAt metadata 0 =? 0 then
    (* normal mode *)
    let maxElevation := metadataAt metadata 2 in
    let highDensityRed := metadataAt metadata 3 in
    let lowDensityYellow := metadataAt metadata 5 in
    let highDensityGreen := metadataAt metadata 6 in
    let lowDensityGreen := metadataAt metadata 7 in
    setElevations retval
      (if cutOffAltitude >? lowDensityGreen then cutOffAltitude else lowDensityGreen)
      (if lowDensityYellow <=? highDensityGreen then Warning else PeaksMode)
      maxElevation
      (if maxElevation >=? highDensityRed then Caution else Warning)
  else
    (* peaks mode *)
    let minElevation := metadataAt metadata 1 in
    let maxElevation := metadataAt metadata 2 in
    let lowDensityGreen := metadataAt metadata 5 in
    if maxElevation <? 0 then
      setElevations retval (-1) PeaksMode 0 PeaksMode
    else
      setElevations retval
        (if lowDensityGreen >? minElevation then lowDensityGreen else minElevation)
        PeaksMode maxElevation PeaksMode.

End Metadata.

(** *** Launching the kernels *)

Section Kernels.

Variable a32nxDrawHighDensityPixel : Color -> Z -> Z -> number -> Color.
Variable a32nxDrawLowDensityPixel : Color -> Z -> Z -> number -> Color.
Variable a32nxDrawWaterDensityPixel : Color -> Z -> Z -> number -> number -> Color.
Variable normalizeHeading : R -> R.
Variable projectWgs84 : R -> R -> R -> R -> R * R.
Variable rad2deg : R -> R.

(** The local [metresPerPixel] of [MapHandler.createLocalElevationMap],
    the seventeenth argument of its launch. *)
Definition metresPerPixel (config : NavigationDisplay) : number :=
  let metresPerPixel :=
    inject_Z (Js.round ((range config * NauticalMilesToMetres) / mapHeight config)) in
  if arcMode config then metresPerPixel * 2.0 else metresPerPixel.

(** The kernel shortcut [this.extractLocalElevationMap].  A call hands
    its arguments to the parameters of [createLocalElevationMap] in their
    order.  The kernel has sixteen parameters: the seventeenth and the
    eighteenth argument of a call are bound to none. *)
Definition extractLocalElevationMap (thread : Thread)
    (argument1 argument2 argument3 argument4 argument5 : R)
    (argument6 : KernelValue) (argument7 : R) (argument8 : KernelValue)
    (argument9 argument10 argument11 argument12 argument13 argument14
     argument15 : R)
    (argument16 argument17 argument18 : KernelValue) : KernelResult :=
  createLocalElevationMap localElevationMapConstants normalizeHeading
    projectWgs84 rad2deg thread
    argument1 argument2 argument3 argument4 argument5 argument6 argument7
    argument8 argument9 argument10 argument11 argument12 argument13
    argument14 argument15 argument16.

(** The outer [option] is the [TypeError] of a [null] aircraft status or
    ground-truth position, the inner one the [null] the method returns
    without a world map. *)
Definition MapHandler_createLocalElevationMap (this : MapHandler)
    (config : NavigationDisplay) : option (option (Thread -> KernelResult)) :=
  match gpuData (cachedElevationData this) with
  | None => Some None
  | Some gpuData =>
    let metresPerPixel := metresPerPixel config in
    (* create the local elevation map *)
    match aircraftStatus this with
    | None => None
    | Some status =>
      match currentGroundTruthPosition this with
      | None => None
      | Some (groundTruthLatitude, groundTruthLongitude) =>
        let meta := worldMapMetadata this in
        Some (Some (fun thread =>
          extractLocalElevationMap thread
            (Q2R (latitude status))
            (Q2R (longitude status))
            (Q2R (heading status))
            (Q2R groundTruthLatitude)
            (Q2R groundTruthLongitude)
            (KNumber (Q2R (currentGridPosition_x meta)))
            (Q2R (currentGridPosition_y meta))
            (KTexture (fun y x => Q2R (gpuData y x)))
            (Q2R (width meta))
            (Q2R (height meta))
            (Q2R (fst (southwest meta)))
            (Q2R (snd (southwest meta)))
            (Q2R (fst (northeast meta)))
            (Q2R (snd (northeast meta)))
            (Q2R (mapWidth config))
            (KNumber (Q2R (mapHeight config)))
            (KNumber (Q2R metresPerPixel))
            (KBoolean (arcMode config))))
      end
    end
  end.

(** The altitude offset [createNavigationDisplayMap] hands to the
    colorizer. *)
Definition gearDownAltitudeOffset (status : AircraftStatus) : number :=
  if gearIsDown status then RenderingGearDownOffset else RenderingNonGearDownOffset.

(** The colorizer output is [4 * RenderingMaxPixelWidth] numbers wide and
    [RenderingMaxPixelHeight + 1] rows high. *)
Definition finalMap (elevationMap : Texture) (histogram : list number)
    (config : NavigationDisplay) (status : AircraftStatus)
    (cutOffAltitude : number) : list (list number) :=
  map (fun y =>
    map (fun x =>
      a32nxRenderNavigationDisplay navigationDisplayConstants
        a32nxDrawHighDensityPixel a32nxDrawLowDensityPixel
        a32nxDrawWaterDensityPixel
        {| thread_x := Z.of_nat x; thread_y := Z.of_nat y |}
        elevationMap histogram
        (mapWidth config) (mapHeight config)
        (altitude status) (verticalSpeed status)
        (gearDownAltitudeOffset status) cutOffAltitude)
      (seq 0 (Z.to_nat (RenderingMaxPixelWidth * RenderingColorChannelCount))))
    (seq 0 (Z.to_nat (RenderingMaxPixelHeight + 1))).

(** [frame.splice(frame.length - 1)[0]] in [renderNavigationDisplay]. *)
Definition metadataOf (frame : list (list number)) : list number :=
  last frame [].

End Kernels.

(** *** The side scheduler *)

(** What the handler does to the outside: it cancels timers and sends
    metadata to the simulator. *)
Inductive Effect : Type :=
| ClearInterval (timer : Timer)
| ClearTimeout (timer : Timer)
| SendNavigationDisplayTerrainMapMetadata
    (side : string) (data : NavigationDisplayData).

(** A method of the handler updates the handler and leaves a trace of
    effects. *)
Definition M (A : Type) : Type := MapHandler -> A * MapHandler * list Effect.

Definition ret {A : Type} (a : A) : M A := fun this => (a, this, []).

Definition bind {A B : Type} (m : M A) (f : A -> M B) : M B :=
  fun this =>
    let '(a, this1, trace1) := m this in
    let '(b, this2, trace2) := f a this1 in
    (b, this2, trace1 ++ trace2).

Notation "x <- m ;; k" := (bind m (fun x => k))
  (at level 61, m at next level, right associativity).
Notation "m ;; k" := (bind m (fun _ => k))
  (at level 61, right associativity).

Definition emit (e : Effect) : M unit := fun this => (tt, this, [e]).

Fixpoint lookupSide (sides : list (string * SideState)) (side : string)
    : option SideState :=
  match sides with
  | [] => None
  | (name, s) :: rest =>
    if String.eqb name side then Some s else lookupSide rest side
  end.

Fixpoint updateSide (sides : list (string * SideState)) (side : string)
    (f : SideState -> SideState) : list (string * SideState) :=
  match sides with
  | [] => []
  | (name, s) :: rest =>
    if String.eqb name side then (name, f s) :: rest
    else (name, s) :: updateSide rest side f
  end.

(** [this.navigationDisplayRendering[side]], read and updated in place. *)
Definition getSide (side : string) : M (option SideState) :=
  fun this => (lookupSide (navigationDisplayRendering this) side, this, []).

Definition modifySide (side : string) (f : SideState -> SideState) : M unit :=
  fun this =>
    (tt,
     {| worldmap_GridData := worldmap_GridData this;
        currentGroundTruthPosition := currentGroundTruthPosition this;
        cachedElevationData := cachedElevationData this;
        worldMapMetadata := worldMapMetadata this;
        aircraftStatus := aircraftStatus this;
        navigationDisplayRendering :=
          updateSide (navigationDisplayRendering this) side f |},
     []).

Definition setConfig (c : option NavigationDisplay) (s : SideState) : SideState :=
  {| config := c; timeout := timeout s; durationInterval := durationInterval s;
     resetRenderingData := resetRenderingData s;
     startupTimestamp := startupTimestamp s; lastFrame := lastFrame s;
     lastTransitionData := lastTransitionData s |}.

Definition setTimeout (t : option Timer) (s : SideState) : SideState :=
  {| config := config s; timeout := t; durationInterval := durationInterval s;
     resetRenderingData := resetRenderingData s;
     startupTimestamp := startupTimestamp s; lastFrame := lastFrame s;
     lastTransitionData := lastTransitionData s |}.

Definition setDurationInterval (t : option Timer) (s : SideState) : SideState :=
  {| config := config s; timeout := timeout s; durationInterval := t;
     resetRenderingData := resetRenderingData s;
     startupTimestamp := startupTimestamp s; lastFrame := lastFrame s;
     lastTransitionData := lastTransitionData s |}.

Definition setResetRenderingData (b : bool) (s : SideState) : SideState :=
  {| config := config s; timeout := timeout s;
     durationInterval := durationInterval s; resetRenderingData := b;
     startupTimestamp := startupTimestamp s; lastFrame := lastFrame s;
     lastTransitionData := lastTransitionData s |}.

Definition resetFrameData (side : string) : M unit :=
  modifySide side (fun s =>
    {| config := config s; timeout := timeout s;
       durationInterval := durationInterval s;
       resetRenderingData := resetRenderingData s;
       startupTimestamp := startupTimestamp s;
       lastFrame := None;
       lastTransitionData :=
         {| timestamp := 0; thresholds := None; frames := [] |} |}).

Section Scheduler.

(** The render pass of a side, [renderNavigationDisplay(side, startup)]:
    the kernels, the encoder and the sweep ticker behind it are outside
    the scheduler. *)
Variable renderNavigationDisplay : string -> bool -> M unit.

(** Reading [navigationDisplayRendering[side].timeout] raises for a name
    that is not a side; every caller passes a side. *)
Definition startNavigationDisplayRenderingCycle (side : string) : M unit :=
  s <- getSide side ;;
  match s with
  | None => ret tt
  | Some s =>
    match timeout s with
    | Some t => emit (ClearTimeout t) ;; modifySide side (setTimeout None)
    | None => ret tt
    end ;;
    renderNavigationDisplay side false
  end.

Definition configureNavigationDisplay (display : string)
    (config' : NavigationDisplay) (startup : bool) : M unit :=
  s <- getSide display ;;
  match s with
  | None => ret tt
  | Some s =>
    let lastConfig := config s in
    let stopRendering :=
      negb (active config')
      && match lastConfig with Some l => active l | None => false end in
    let startRendering :=
      active config'
      && match lastConfig with Some l => negb (active l) | None => true end in
    let startRendering :=
      startRendering
      || match lastConfig with
         | Some l => negb (range l =? range config')
                     || negb (Bool.eqb (arcMode l) (arcMode config'))
         | None => false
         end in
    let startRendering :=
      startRendering
      || match lastConfig with
         | Some l => negb (efisMode l =? efisMode config')
         | None => false
         end in
    modifySide display (setConfig (Some config')) ;;
    if negb startup then
      (if stopRendering || startRendering then
         match durationInterval s with
         | Some t =>
           emit (ClearInterval t) ;; modifySide display (setDurationInterval None)
         | None => ret tt
         end ;;
         match timeout s with
         | Some t => emit (ClearTimeout t) ;; modifySide display (setTimeout None)
         | None => ret tt
         end ;;
         modifySide display (setResetRenderingData true) ;;
         resetFrameData display ;;
         (* reset also the aircraft data *)
         emit (SendNavigationDisplayTerrainMapMetadata display
                 {| MinimumElevation := -1;
                    MinimumElevationMode := PeaksMode;
                    MaximumElevation := -1;
                    MaximumElevationMode := PeaksMode;
                    FirstFrame := true;
                    DisplayRange := 0;
                    DisplayMode := 0;
                    FrameByteCount := 0 |})
       else ret tt) ;;
      if startRendering then startNavigationDisplayRenderingCycle display
      else ret tt
    else ret tt
  end.

End Scheduler.

(** ** Names for the results of the kernel functions *)

(** The five thresholds of the normal mode, as [a32nxRenderNormalMode]
    takes them out of the two threshold functions. *)
Record NormalModeThresholds : Type := {
  lowDensityGreen : number;
  highDensityGreen : number;
  lowDensityYellow : number;
  highDensityYellow : number;
  highDensityRed : number
}.

Definition normalModeThresholds (this : NavigationDisplayConstants)
    (referenceAltitude minimumElevation flatEarth lowerPercentile halfElevation
     gearDownAltitudeOffset : number) : NormalModeThresholds :=
  let '(lowDensityYellow, highDensityYellow, highDensityRed) :=
    a32nxCalculateNormalModeWarningThresholds this
      referenceAltitude minimumElevation gearDownAltitudeOffset in
  let '(lowDensityGreen, highDensityGreen) :=
    a32nxCalculateNormalModeGreenThresholds this
      referenceAltitude minimumElevation flatEarth lowerPercentile
      halfElevation in
  {| lowDensityGreen := lowDensityGreen;
     highDensityGreen := highDensityGreen;
     lowDensityYellow := lowDensityYellow;
     highDensityYellow := highDensityYellow;
     highDensityRed := highDensityRed |}.

(** The three thresholds of the peaks mode. *)
Record PeaksModeThresholds : Type := {
  lowerDensity : number;
  higherDensity : number;
  solidDensity : number
}.

Definition peaksModeThresholds
    (lowerPercentile upperPercentile halfElevation minimumElevation
     maximumElevation : number) : PeaksModeThresholds :=
  let '(lowerDensity, higherDensity, solidDensity) :=
    a32nxCalculatePeaksModeThresholds
      lowerPercentile upperPercentile halfElevation minimumElevation
      maximumElevation in
  {| lowerDensity := lowerDensity;
     higherDensity := higherDensity;
     solidDensity := solidDensity |}.

(** A histogram of 296 bins whose counts are all zero but for the
    listed bins. *)
Fixpoint histogramOf (counts : list (nat * number)) (bins bin : nat)
    : list number :=
  match bins with
  | O => []
  | S bins =>
    match counts with
    | (k, n) :: rest =>
      if Nat.eqb k bin then n :: histogramOf rest bins (S bin)
      else 0 :: histogramOf counts bins (S bin)
    | [] => 0 :: histogramOf [] bins (S bin)
    end
  end.

(** The two metadata pixels the kernel writes into the rows at or below
    [height], in the normal and in the peaks mode. *)
Definition normalMetadata (s : Statistics) (T : NormalModeThresholds) (x : Z)
    : Color :=
  if (x <? 4)%Z then (0, minElevation s, maxElevation s, highDensityRed T)
  else if (x <? 8)%Z then
    (highDensityYellow T, lowDensityYellow T, highDensityGreen T,
     lowDensityGreen T)
  else (0, 0, 0, 0).

Definition peaksMetadata (s : Statistics) (P : PeaksModeThresholds) (x : Z)
    : Color :=
  if (x <? 4)%Z then (1, minElevation s, maxElevation s, solidDensity P)
  else if (x <? 8)%Z then (higherDensity P, lowerDensity P, 0, 0)
  else (0, 0, 0, 0).

(** ** The cut-off altitude as the specification words it *)

(** The glide angle is [atan((altitude - destinationElevation) /
    (d * 6076.12))] for every altitude and distance; 400 when it exceeds
    0.0523599, 200 within one nautical mile or for a glide angle of 0, and
    between them the rounded interpolation between 400 at 1 nm and 200 at
    4 nm, clamped to [200, 400]. *)
Definition cutOffAltitude_claimed (destinationDataValid : bool)
    (destinationElevation altitude d : number) : number :=
  if negb destinationDataValid then -500
  else if destinationElevation =? 32767 then -500
  else if d >? 4.0 then 400
  else
    let glide := atan (Q2R ((altitude - destinationElevation) / (d * 6076.12))) in
    if Rgtb glide 0.0523599 then 400
    else if (d <=? 1.0) || Reqb glide 0 then 200
    else
      Qmin (Qmax (inject_Z (Js.round (400 + (200 - 400) * (d - 1) / (4 - 1)))) 200)
           400.

(** ** Sample states of the handler *)

(** One tile of one degree with 2 x 2 samples, south-west corner at
    47 N 11 E, the aircraft in its middle. *)
Definition sampleDisplay : NavigationDisplay :=
  {| range := 10; arcMode := true; active := true; efisMode := 0;
     mapOffsetX := 6; mapWidth := 756; mapHeight := 492 |}.

Definition sampleStatus (altitude' : number) (valid : bool)
    (destinationLatitude' destinationLongitude' : number) : AircraftStatus :=
  {| adiruDataValid := true; latitude := 47.5; longitude := 11.5;
     altitude := altitude'; heading := 260; verticalSpeed := 0;
     gearIsDown := true; destinationDataValid := valid;
     destinationLatitude := destinationLatitude';
     destinationLongitude := destinationLongitude';
     navigationDisplayCapt := sampleDisplay;
     navigationDisplayFO := sampleDisplay;
     navigationDisplayRenderingMode := ArcMode |}.

Definition sampleHandler (status : option AircraftStatus)
    (elevations : option (list number)) : MapHandler :=
  {| worldmap_GridData := {| latitudeStep := 1; longitudeStep := 1 |};
     currentGroundTruthPosition := Some (47.5, 11.5);
     cachedElevationData :=
       {| gpuData := None; cpuData := elevations; cachedTiles := 1 |};
     worldMapMetadata :=
       {| southwest := (47, 11); northeast := (48, 12);
          currentGridPosition_x := 1; currentGridPosition_y := 1;
          minWidthPerTile := 2; minHeightPerTile := 2;
          width := 2; height := 2 |};
     aircraftStatus := status;
     navigationDisplayRendering := [] |}.


(** ** Reconfiguration as the specification words it *)

(** A new configuration stops the rendering when [active] goes false
    while it was true before; it starts the rendering when [active] goes
    true from inactive or from no configuration at all, or when the
    range, the arc mode or the EFIS mode changed. *)
Definition stopsRendering (lastConfig : option NavigationDisplay)
    (config' : NavigationDisplay) : bool :=
  match lastConfig with
  | Some l => active l && negb (active config')
  | None => false
  end.

Definition startsRendering (lastConfig : option NavigationDisplay)
    (config' : NavigationDisplay) : bool :=
  match lastConfig with
  | None => active config'
  | Some l =>
    (active config' && negb (active l))
    || negb (range l =? range config')
    || negb (Bool.eqb (arcMode l) (arcMode config'))
    || negb (efisMode l =? efisMode config')
  end.

(** The reset metadata message. *)
Definition resetMetadata : NavigationDisplayData :=
  {| MinimumElevation := -1;
     MinimumElevationMode := PeaksMode;
     MaximumElevation := -1;
     MaximumElevationMode := PeaksMode;
     FirstFrame := true;
     DisplayRange := 0;
     DisplayMode := 0;
     FrameByteCount := 0 |}.

(** The side after a reset: the new configuration, no timers, the reset
    flag set, no last frame and no transition data. *)
Definition resetSide (config' : NavigationDisplay) (s : SideState) : SideState :=
  {| config := Some config';
     timeout := None;
     durationInterval := None;
     resetRenderingData := true;
     startupTimestamp := startupTimestamp s;
     lastFrame := None;
     lastTransitionData := {| timestamp := 0; thresholds := None; frames := [] |} |}.

(** The handler with one of its sides replaced. *)
Definition withSide (this : MapHandler) (side : string) (s : SideState)
    : MapHandler :=
  {| worldmap_GridData := worldmap_GridData this;
     currentGroundTruthPosition := currentGroundTruthPosition this;
     cachedElevationData := cachedElevationData this;
     worldMapMetadata := worldMapMetadata this;
     aircraftStatus := aircraftStatus this;
     navigationDisplayRendering :=
       updateSide (navigationDisplayRendering this) side (fun _ => s) |}.

(** The timers a reset cancels, the sweep ticker first. *)
Definition cancelledTimers (s : SideState) : list Effect :=
  match durationInterval s with Some t => [ClearInterval t] | None => [] end
  ++ match timeout s with Some t => [ClearTimeout t] | None => [] end.

(** A handler with the two sides of [createKernels], the captain's side
    rendering in arc mode at 10 nm and waiting for its next frame. *)
Definition idleSide (startup : number) : SideState :=
  {| config := None; timeout := None; durationInterval := None;
     resetRenderingData := true; startupTimestamp := startup;
     lastFrame := None;
     lastTransitionData := {| timestamp := 0; thresholds := None; frames := [] |} |}.

Definition waitingSide (startup : number) : SideState :=
  {| config := Some sampleDisplay; timeout := Some 7%nat;
     durationInterval := None; resetRenderingData := false;
     startupTimestamp := startup; lastFrame := Some [4; 4; 5; 255]%Z;
     lastTransitionData :=
       {| timestamp := 1000; thresholds := None;
          frames := [[4; 4; 5; 255]%Z] |} |}.

Definition sampleScheduler : MapHandler :=
  {| worldmap_GridData := {| latitudeStep := 1; longitudeStep := 1 |};
     currentGroundTruthPosition := Some (47.5, 11.5);
     cachedElevationData :=
       {| gpuData := None; cpuData := None; cachedTiles := 0 |};
     worldMapMetadata :=
       {| southwest := (47, 11); northeast := (48, 12);
          currentGridPosition_x := 1; currentGridPosition_y := 1;
          minWidthPerTile := 2; minHeightPerTile := 2;
          width := 2; height := 2 |};
     aircraftStatus := None;
     navigationDisplayRendering :=
       [("L"%string, waitingSide 1500); ("R"%string, idleSide 0)] |}.

(** ** The invariant of the percentile loop *)

(** What the second loop of the kernel keeps true before it visits the
    bin [bound]: the bin of the lower percentile, once found, is a bin
    with terrain and not above the highest bin with terrain seen so
    far. *)
Definition loopInvariant (totalFrequency : number) (bound : Z)
    (acc : Percentiles) : Prop :=
  (lowerBin acc = (-1)%Z
   \/ (0 <= lowerBin acc <= maxElevationBin acc)%Z)
  /\ (-1 <= maxElevationBin acc < bound)%Z
  /\ (0 < totalFrequency -> lowerBin acc = (-1)%Z ->
      currentPercentile acc < 0.85).

(** ** The invariants of the bin search *)

(** What the second loop of the kernel keeps true of the lowest and the
    highest bin with terrain before it visits the bin [bound], having
    started at the bin [first]. *)
Definition terrainBinsInvariant (histogram : list number) (first bound : Z)
    (acc : Percentiles) : Prop :=
  (minElevationBin acc = (-1)%Z /\ maxElevationBin acc = (-1)%Z
   /\ forall b, (first <= b < bound)%Z -> histogramAt histogram b <= 0)
  \/ ((first <= minElevationBin acc)%Z
      /\ (minElevationBin acc <= maxElevationBin acc)%Z
      /\ (maxElevationBin acc < bound)%Z
      /\ 0 < histogramAt histogram (minElevationBin acc)
      /\ 0 < histogramAt histogram (maxElevationBin acc)
      /\ forall b, (first <= b < bound)%Z -> 0 < histogramAt histogram b ->
                   (minElevationBin acc <= b <= maxElevationBin acc)%Z).

(** What the loop keeps true of the two percentile bins: the bin of the
    upper percentile is found no earlier than the bin of the lower one. *)
Definition percentileOrderInvariant (totalFrequency : number) (bound : Z)
    (acc : Percentiles) : Prop :=
  (upperBin acc = (-1)%Z
   \/ ((0 <= lowerBin acc <= upperBin acc)%Z /\ (upperBin acc < bound)%Z))
  /\ (lowerBin acc = (-1)%Z \/ (0 <= lowerBin acc < bound)%Z)
  /\ (0 < totalFrequency -> lowerBin acc = (-1)%Z ->
      currentPercentile acc < 0.85).

(** The state of the loop variables before the first bin. *)
Definition initialPercentiles : Percentiles :=
  {| currentPercentile := 0; lowerBin := -1; upperBin := -1;
     minElevationBin := -1; maxElevationBin := -1 |}.

(** The bin of the cut-off altitude, where the loops of the kernel start. *)
Definition cutOffAltitudeBin (cutOffAltitude : number) : Z :=
  Js.floor ((cutOffAltitude - HistogramMinimumElevation) / HistogramBinRange).

(** The lower edge of a histogram bin, in feet. *)
Definition binElevation (bin : Z) : number :=
  inject_Z bin * HistogramBinRange + HistogramMinimumElevation.

(** *** Stopping the rendering and forgetting the world map *)

Definition setActive (b : bool) (c : NavigationDisplay) : NavigationDisplay :=
  {| range := range c; arcMode := arcMode c; active := b;
     efisMode := efisMode c; mapOffsetX := mapOffsetX c;
     mapWidth := mapWidth c; mapHeight := mapHeight c |}.

Definition setLastFrame (f : option Frame) (s : SideState) : SideState :=
  {| config := config s; timeout := timeout s;
     durationInterval := durationInterval s;
     resetRenderingData := resetRenderingData s;
     startupTimestamp := startupTimestamp s; lastFrame := f;
     lastTransitionData := lastTransitionData s |}.

(** The handler with another aircraft status. *)
Definition withStatus (this : MapHandler) (status : option AircraftStatus)
    : MapHandler :=
  {| worldmap_GridData := worldmap_GridData this;
     currentGroundTruthPosition := currentGroundTruthPosition this;
     cachedElevationData := cachedElevationData this;
     worldMapMetadata := worldMapMetadata this;
     aircraftStatus := status;
     navigationDisplayRendering := navigationDisplayRendering this |}.

(** The configuration of a side is the display object of the aircraft
    status ([onAircraftStatusUpdate] stores the status and hands its
    [navigationDisplayCapt] to the side [L], its [navigationDisplayFO] to
    the side [R]): a write to [config.active] shows in the status as
    well. *)
Definition deactivateDisplay (side : string) (status : AircraftStatus)
    : AircraftStatus :=
  {| adiruDataValid := adiruDataValid status;
     latitude := latitude status;
     longitude := longitude status;
     altitude := altitude status;
     heading := heading status;
     verticalSpeed := verticalSpeed status;
     gearIsDown := gearIsDown status;
     destinationDataValid := destinationDataValid status;
     destinationLatitude := destinationLatitude status;
     destinationLongitude := destinationLongitude status;
     navigationDisplayCapt :=
       if String.eqb side "L"
       then setActive false (navigationDisplayCapt status)
       else navigationDisplayCapt status;
     navigationDisplayFO :=
       if String.eqb side "R"
       then setActive false (navigationDisplayFO status)
       else navigationDisplayFO status;
     navigationDisplayRenderingMode := navigationDisplayRenderingMode status |}.

Definition modifyStatus (f : AircraftStatus -> AircraftStatus) : M unit :=
  fun this => (tt, withStatus this (option_map f (aircraftStatus this)), []).

(** The block [stopRendering] runs for the side [L] and then for the
    side [R].  Reading [navigationDisplayRendering.L] raises when the
    side is missing; [createKernels] creates both sides before any
    callback runs. *)
Definition stopSide (side : string) : M unit :=
  s <- getSide side ;;
  match s with
  | None => ret tt
  | Some s =>
    match config s with
    | Some c =>
      modifySide side (setConfig (Some (setActive false c))) ;;
      modifyStatus (deactivateDisplay side)
    | None => ret tt
    end ;;
    match durationInterval s with
    | Some t =>
      emit (ClearInterval t) ;; modifySide side (setDurationInterval None)
    | None => ret tt
    end ;;
    match timeout s with
    | Some t => emit (ClearTimeout t) ;; modifySide side (setTimeout None)
    | None => ret tt
    end ;;
    modifySide side (setLastFrame None)
  end.

Definition stopRendering : M unit :=
  stopSide "L" ;; stopSide "R".

(** [cachedElevationData] after [cleanupMemory]: the texture is deleted
    on the GPU when there is one. *)
Definition clearCachedElevationData : M unit :=
  fun this =>
    (tt,
     {| worldmap_GridData := worldmap_GridData this;
        currentGroundTruthPosition := currentGroundTruthPosition this;
        cachedElevationData :=
          {| gpuData := None; cpuData := None; cachedTiles := 0 |};
        worldMapMetadata := worldMapMetadata this;
        aircraftStatus := aircraftStatus this;
        navigationDisplayRendering := navigationDisplayRendering this |},
     []).

(** [worldmap.resetInternalData()] empties the tile store of the world
    map, which is not part of the handler record. *)
Definition cleanupMemory : M unit :=
  stopRendering ;;
  clearCachedElevationData ;;
  resetFrameData "L" ;;
  resetFrameData "R".

Definition onConnectionLost : M unit := cleanupMemory.

(** The answer to a frame-data request of the web UI. *)
Record FrameDataResponse : Type := {
  response_side : string;
  response_timestamp : number;
  response_thresholds : option NavigationDisplayThresholdsDto;
  response_frames : list Frame
}.

Definition frameData (this : MapHandler) (side : string) : FrameDataResponse :=
  match lookupSide (navigationDisplayRendering this) side with
  | Some s =>
    {| response_side := side;
       response_timestamp := timestamp (lastTransitionData s);
       response_thresholds := thresholds (lastTransitionData s);
       response_frames := frames (lastTransitionData s) |}
  | None =>
    {| response_side := side; response_timestamp := 0;
       response_thresholds := None; response_frames := [] |}
  end.

(** ** The sides after a stop, as a record *)

(** A side after [stopRendering]: its configuration inactive, no timers
    and no last frame; the transition data stays. *)
Definition stoppedSide (s : SideState) : SideState :=
  {| config := option_map (setActive false) (config s);
     timeout := None;
     durationInterval := None;
     resetRenderingData := resetRenderingData s;
     startupTimestamp := startupTimestamp s;
     lastFrame := None;
     lastTransitionData := lastTransitionData s |}.

(** A side after [cleanupMemory]. *)
Definition forgottenSide (s : SideState) : SideState :=
  {| config := option_map (setActive false) (config s);
     timeout := None;
     durationInterval := None;
     resetRenderingData := resetRenderingData s;
     startupTimestamp := startupTimestamp s;
     lastFrame := None;
     lastTransitionData := {| timestamp := 0; thresholds := None; frames := [] |} |}.

(** The sides [createKernels] creates are there. *)
Definition bothSides (this : MapHandler) (l r : SideState) : Prop :=
  lookupSide (navigationDisplayRendering this) "L" = Some l
  /\ lookupSide (navigationDisplayRendering this) "R" = Some r.

(** *** A new aircraft status *)

Definition setStatus (status : option AircraftStatus) : M unit :=
  fun this => (tt, withStatus this status, []).

Section StatusUpdate.

Variable renderNavigationDisplay : string -> bool -> M unit.

(** The pattern map the method uploads to the GPU with the first status
    and with a change of the rendering mode is not part of the handler
    record. *)
Definition onAircraftStatusUpdate (data : AircraftStatus) (startup : bool)
    : M unit :=
  setStatus (Some data) ;;
  configureNavigationDisplay renderNavigationDisplay "L"
    (navigationDisplayCapt data) startup ;;
  configureNavigationDisplay renderNavigationDisplay "R"
    (navigationDisplayFO data) startup.

End StatusUpdate.

(** Two configurations between which [configureNavigationDisplay] sees
    no difference. *)
Definition sameDisplay (last config' : NavigationDisplay) : Prop :=
  active last = active config'
  /\ range last == range config'
  /\ arcMode last = arcMode config'
  /\ efisMode last == efisMode config'.

(** ** The vertical-display kernel *)

(** [this.constants] of the kernel, as the kernel reads them. *)
Record VerticalDisplayConstants : Type := {
  elevationProfileEntryCount : Z;
  verticalMaxImageHeight : number;
  verticalInvalidElevation : number;
  verticalUnknownElevation : number;
  verticalWaterElevation : number
}.

(** The elevation profile is a kernel argument, read as
    [elevationProfile[pixelX]]. *)
Definition renderVerticalDisplay (this : VerticalDisplayConstants)
    (thread : Thread) (elevationProfile : Z -> number)
    (minimumAltitude maximumAltitude : number) : number :=
  let pixelX := (thread_x thread / 4)%Z in
  let colorChannel := (thread_x thread mod 4)%Z in
  if (pixelX >=? elevationProfileEntryCount this)%Z then
    channel (4, 4, 5, 255) colorChannel
  else
    let elevation := elevationProfile pixelX in
    if (elevation =? verticalInvalidElevation this)
       || (elevation =? verticalUnknownElevation this) then
      channel (255, 148, 255, 255) colorChannel
    else
      let stepY :=
        (maximumAltitude - minimumAltitude) / verticalMaxImageHeight this in
      let altitude :=
        (verticalMaxImageHeight this - inject_Z (thread_y thread)) * stepY
        + minimumAltitude in
      (* altitude is above the elevation -> draw the background *)
      if altitude >? elevation then channel (4, 4, 5, 255) colorChannel
      (* elevation is water -> check if we draw the water until 0 *)
      else if elevation =? verticalWaterElevation this then
        if altitude <=? 0 then channel (0, 255, 255, 255) colorChannel
        else channel (4, 4, 5, 255) colorChannel
      (* draw the obstacle *)
      else channel (59, 21, 0, 255) colorChannel.

(** The four numbers a kernel writes for one pixel: the threads
    [4 * pixelX] to [4 * pixelX + 3] of a row. *)
Definition pixelOf (kernel : Thread -> number) (pixelX y : Z) : Color :=
  (kernel {| thread_x := 4 * pixelX; thread_y := y |},
   kernel {| thread_x := 4 * pixelX + 1; thread_y := y |},
   kernel {| thread_x := 4 * pixelX + 2; thread_y := y |},
   kernel {| thread_x := 4 * pixelX + 3; thread_y := y |}).

(** A vertical display of four profile entries on 100 rows. *)
Definition sampleVerticalDisplay : VerticalDisplayConstants :=
  {| elevationProfileEntryCount := 4;
     verticalMaxImageHeight := 100;
     verticalInvalidElevation := InvalidElevation;
     verticalUnknownElevation := UnknownElevation;
     verticalWaterElevation := WaterElevation |}.

(** *** Frames at screen resolution *)

Definition RenderingScreenPixelHeight : Z := 768.
Definition RenderingMapStartOffsetY : Z := 128.

(** The words of a frame, the words of one of its rows, and the first
    word of the row the map starts at. *)
Definition frameWords : nat :=
  Z.to_nat (RenderingMaxPixelWidth * RenderingScreenPixelHeight).
Definition frameWidth : nat := Z.to_nat RenderingMaxPixelWidth.
Definition firstMapWord : nat :=
  Z.to_nat (RenderingMapStartOffsetY * RenderingMaxPixelWidth).

Definition Rleb (a b : R) : bool := if Rle_dec a b then true else false.

(** A [Uint32Array], the view the handler takes of a frame: one word per
    pixel.  A read beyond its end is [undefined], which a store into
    another [Uint32Array] turns into 0; a write beyond the end is
    ignored. *)
Definition Uint32Array : Type := list Z.

Definition uint32Get (a : Uint32Array) (i : nat) : Z := nth i a 0%Z.

Definition uint32Set (a : Uint32Array) (i : nat) (v : Z) : Uint32Array :=
  if (i <? List.length a)%nat then firstn i a ++ v :: skipn (S i) a else a.

(** The values [0, 1, ...] a counter takes while it is below [bound]. *)
Definition countBelow (bound : number) : list nat :=
  seq 0 (Z.to_nat (Qceiling bound)).

Definition createScreenResolutionFrame (config : NavigationDisplay)
    (gpuData : Uint32Array) : Uint32Array :=
  (* UInt32-version of RGBA (4, 4, 5, 255) *)
  let destination :=
    repeat 4278518788%Z frameWords in
  let source := gpuData in
  let '(destination, _, _) :=
    fold_left
      (fun state (y : nat) =>
         fold_left
           (fun state (x : nat) =>
              let '(destination, sourceIndex, destinationIndex) := state in
              (uint32Set destination destinationIndex
                 (uint32Get source sourceIndex),
               S sourceIndex, S destinationIndex))
           (seq 0 frameWidth) state)
      (countBelow (mapHeight config))
      (destination, O, firstMapWord) in
  destination.

(** The angle of the pixel [(x, y)] against the vertical through the
    aircraft, in degrees. *)
Definition sweepAngle (config : NavigationDisplay) (x y : nat) : R :=
  let distance :=
    sqrt ((INR x - IZR RenderingMaxPixelWidth / 2) ^ 2
          + (Q2R (mapHeight config) - INR y) ^ 2) in
  (acos ((Q2R (mapHeight config) - INR y) / distance) * (180 / PI))%R.

Definition arcModeTransitionFrame (config : NavigationDisplay)
    (oldFrame : option Uint32Array) (newFrame : Uint32Array)
    (startAngle endAngle : number) : Uint32Array :=
  (* UInt32-version of RGBA (4, 4, 5, 255) *)
  let destination :=
    repeat 4278518788%Z frameWords in
  let oldSource := oldFrame in
  let newSource := newFrame in
  let '(destination, _) :=
    fold_left
      (fun state (y : nat) =>
         fold_left
           (fun state (x : nat) =>
              let '(destination, arrayIndex) := state in
              (if (inject_Z (Z.of_nat x) >=? mapOffsetX config)
                  && (inject_Z (Z.of_nat x) <? mapOffsetX config + mapWidth config)
               then
                 let angle := sweepAngle config x y in
                 if Rleb (Q2R startAngle) angle && Rleb angle (Q2R endAngle)
                 then uint32Set destination arrayIndex
                        (uint32Get newSource arrayIndex)
                 else
                   match oldSource with
                   | Some oldSource =>
                     uint32Set destination arrayIndex
                       (uint32Get oldSource arrayIndex)
                   | None => destination
                   end
               else destination,
               S arrayIndex))
           (seq 0 frameWidth) state)
      (countBelow (mapHeight config))
      (destination, firstMapWord) in
  destination.

(** The pixel a word of a frame belongs to: the frame is 768 words
    wide. *)
Definition pixelColumn (index : nat) : nat := index mod frameWidth.

Definition pixelRow (index : nat) : nat := index / frameWidth.

(** The rows and the columns of a frame the map of a display covers. *)
Definition inMapRows (config : NavigationDisplay) (index : nat) : Prop :=
  (Z.to_nat RenderingMapStartOffsetY <= pixelRow index)%nat
  /\ inject_Z (Z.of_nat (pixelRow index)) - inject_Z RenderingMapStartOffsetY
     < mapHeight config.

Definition inMapColumns (config : NavigationDisplay) (index : nat) : Prop :=
  mapOffsetX config <= inject_Z (Z.of_nat (pixelColumn index))
  /\ inject_Z (Z.of_nat (pixelColumn index))
     < mapOffsetX config + mapWidth config.

(** ** The WebGL renderer *)

(** A JavaScript array: [None] is a hole or [undefined] (for a number,
    also [NaN], which such a value turns into under [+]).  A store beyond
    the end extends the array with holes. *)
Definition arrayGet {T : Type} (a : list (option T)) (i : nat) : option T :=
  nth i a None.

Definition arrayStore {T : Type} (a : list (option T)) (i : nat) (v : option T)
    : list (option T) :=
  if (i <? List.length a)%nat then firstn i a ++ v :: skipn (S i) a
  else a ++ repeat None (i - List.length a) ++ [v].

Section FastFlatten.

Variable T : Type.

(** [None] is the [TypeError] of [arr[arr.length - 1].length] for an
    empty [arr], and the [RangeError] of [new Array(NaN)]. *)
Definition fastFlatten (arr : list (list T)) : option (list (option T)) :=
  let numElementsUptoIndex : list (option nat) := repeat None (List.length arr) in
  let numElementsUptoIndex := arrayStore numElementsUptoIndex 0 (Some O) in
  let numElementsUptoIndex :=
    fold_left
      (fun numElementsUptoIndex i =>
         arrayStore numElementsUptoIndex i
           (match arrayGet numElementsUptoIndex (i - 1),
                  nth_error arr (i - 1) with
            | Some n, Some row => Some (n + List.length row)%nat
            | _, _ => None
            end))
      (seq 1 (List.length arr - 1)) numElementsUptoIndex in
  match List.length arr with
  | O => None
  | S last =>
    match arrayGet numElementsUptoIndex last, nth_error arr last with
    | Some n, Some row =>
      let flattened : list (option T) := repeat None (n + List.length row) in
      Some
        (fold_left
           (fun flattened i =>
              let skip := arrayGet numElementsUptoIndex i in
              match nth_error arr i with
              | Some row =>
                fold_left
                  (fun flattened j =>
                     match skip with
                     | Some skip =>
                       arrayStore flattened (skip + j) (nth_error row j)
                     | None => flattened
                     end)
                  (seq 0 (List.length row)) flattened
              | None => flattened
              end)
           (seq 0 (List.length arr)) flattened)
    | _, _ => None
    end
  end.

End FastFlatten.

Arguments fastFlatten {T} arr.

(** A tile of the tile manager's grid, as far as the renderer reads
    it. *)
Record GridTile : Type := { tileIndex : Z }.

Definition InvalidDataValue : Z := -1.
Definition FlattenGridRowIndex : nat := 0.
Definition FlattenGridColumnIndex : nat := 1.
Definition FlattenGridTileIndex : nat := 2.
Definition FlattenGridEntryCount : nat := 5.

Record FlattenedGridData : Type := {
  flattenedGrid : list Z;
  tileCount : nat
}.

(** [row.forEach((tile, columnIndex) => ...)] with its index. *)
Definition forEachIndexed {A S : Type} (l : list A) (body : S -> A -> nat -> S)
    (s : S) : S :=
  fold_left (fun s '(index, a) => body s a index)
    (combine (seq 0 (List.length l)) l) s.

(** The part of [initialize] that flattens the grid of the tile
    manager.  The tile count is a quotient without remainder. *)
Definition initializeGrid (tiles : list (list GridTile)) : FlattenedGridData :=
  let grid :=
    forEachIndexed tiles
      (fun grid row rowIndex =>
         forEachIndexed row
           (fun grid tile columnIndex =>
              if negb (tileIndex tile =? -1)%Z then
                grid ++ [Z.of_nat rowIndex] ++ [Z.of_nat columnIndex]
                     ++ [tileIndex tile] ++ [InvalidDataValue]
                     ++ [InvalidDataValue]
              else grid)
           grid)
      [] in
  {| flattenedGrid := grid;
     tileCount := (List.length grid / FlattenGridEntryCount)%nat |}.

(** The loop returns at the first entry that matches. *)
Definition findFlattenGridDataOffset (this : FlattenedGridData)
    (row column : Z) : Z :=
  match
    find (fun i =>
            let offset := (i * FlattenGridEntryCount)%nat in
            match nth_error (flattenedGrid this) (offset + FlattenGridRowIndex),
                  nth_error (flattenedGrid this) (offset + FlattenGridColumnIndex)
            with
            | Some r, Some c => (row =? r)%Z && (column =? c)%Z
            | _, _ => false
            end)
      (seq 0 (tileCount this))
  with
  | Some i => Z.of_nat (i * FlattenGridEntryCount)
  | None => -1
  end.

(** [tileManager.grid[row][column]], when there is such a tile. *)
Definition tileAt (tiles : list (list GridTile)) (row column : nat)
    : option GridTile :=
  match nth_error tiles row with
  | Some tilesOfRow => nth_error tilesOfRow column
  | None => None
  end.

(** The five numbers of the flattened grid from an offset on. *)
Definition gridEntry (this : FlattenedGridData) (offset : nat) : list Z :=
  firstn FlattenGridEntryCount (skipn offset (flattenedGrid this)).

(** ** The transition kernels *)

Definition Rgeb (a b : R) : bool := if Rge_dec a b then true else false.

Section TransitionKernels.

(** [rad2deg] is imported from [../../generic/helper]. *)
Variable rad2deg : R -> R.

(** The angle of the pixel of a thread against the vertical through the
    aircraft; a pixel takes three threads of a row. *)
Definition transitionAngle (thread : Thread) (width height : number) : R :=
  let centerX := width / 2.0 in
  let pixelX := (thread_x thread / 3)%Z in
  let delta0 := Q2R (inject_Z pixelX - centerX) in
  let delta1 := Q2R (height - inject_Z (thread_y thread)) in
  let distancePixels := sqrt (delta0 ^ 2 + delta1 ^ 2) in
  rad2deg (acos (delta1 / distancePixels)).

Definition a32nxInitialNavigationDisplayTransition (thread : Thread)
    (image : Texture) (width height angleThreshold : number) : number :=
  (* keep the metadata block *)
  if inject_Z (thread_y thread) >=? height
  then image (thread_y thread) (thread_x thread)
  else
    let angle := transitionAngle thread width height in
    if Rgeb (Q2R angleThreshold) angle
    then image (thread_y thread) (thread_x thread)
    else 0.

Definition a32nxUpdateNavigationDisplayTransition (thread : Thread)
    (lastImage image : Texture) (width height angleThreshold : number)
    : number :=
  (* keep the metadata block *)
  if inject_Z (thread_y thread) >=? height
  then image (thread_y thread) (thread_x thread)
  else
    let angle := transitionAngle thread width height in
    if Rgeb (Q2R angleThreshold) angle
    then image (thread_y thread) (thread_x thread)
    else lastImage (thread_y thread) (thread_x thread).

End TransitionKernels.

(** *** The size of the tiles of the cached world map *)

Definition DefaultTileSize : Z := 300.

(** [ElevationMap] of an elevation grid: the samples, [undefined], or the
    [null] that [loadTiles] assigns. *)
Inductive ElevationSamples : Type :=
| SamplesUndefined
| SamplesNull
| Samples (samples : list number).

(** The elevation grid of a tile and a cell of the tile manager's grid,
    as far as the handler reads them; [Rows] and [Columns] are counts. *)
Record ElevationGrid : Type := {
  Rows : Z;
  Columns : Z;
  ElevationMap : ElevationSamples
}.

Record GridCell : Type := {
  cellTileIndex : Z;
  elevationmap : option ElevationGrid
}.

(** A cell whose tile takes part in the search for the smallest tile. *)
Definition loadedGrid (cell : GridCell) : option ElevationGrid :=
  match elevationmap cell with
  | Some grid =>
    if negb (cellTileIndex cell =? -1)%Z && negb (Rows grid =? 0)%Z
       && negb (Columns grid =? 0)%Z
    then Some grid else None
  | None => None
  end.

(** [minWidthPerTile] and [minHeightPerTile] as
    [updateGroundTruthPositionAndCachedTiles] sets them; [cells] are the
    cells of the tile manager the lookup table of the position names,
    row by row. *)
Definition minTileSize (cells : list (list GridCell)) : Z * Z :=
  let '(minWidthPerTile, minHeightPerTile) :=
    fold_left
      (fun sizes row =>
         fold_left
           (fun sizes cell =>
              let '(minWidthPerTile, minHeightPerTile) := sizes in
              match elevationmap cell with
              | Some grid =>
                if negb (cellTileIndex cell =? -1)%Z && negb (Rows grid =? 0)%Z
                   && negb (Columns grid =? 0)%Z
                then (Z.min (Columns grid) minWidthPerTile,
                      Z.min (Rows grid) minHeightPerTile)
                else sizes
              | None => sizes
              end)
           row sizes)
      cells (5000, 5000)%Z in
  (if (minWidthPerTile =? 5000)%Z then DefaultTileSize else minWidthPerTile,
   if (minHeightPerTile =? 5000)%Z then DefaultTileSize else minHeightPerTile).

(** ** The tile loader *)

(** An index into the grid of the world map. *)
Record TileIndex : Type := { tileRow : Z; tileColumn : Z }.

Section TileLoader.

(** [Worldmap.worldMapIndices(world.data, latitude, longitude)], which
    may be [undefined], [Worldmap.validTile(world.data, index)] and
    [world.data.terrainData.AngularSteps.longitude]; the class [Worldmap]
    is not part of the loader. *)
Variable worldMapIndices : number -> number -> option TileIndex.
Variable validTile : TileIndex -> bool.
Variable angularStepLongitude : number.

(** The [for] loop of [findTileIndices], which ends when [lon] has
    reached [longitude1]; [None] when it has not ended within [fuel]
    rounds. *)
Fixpoint findTileIndicesLoop (fuel : nat) (latitude lon longitude1 : number)
    (indices : list TileIndex) : option (list TileIndex) :=
  match fuel with
  | O => None
  | S fuel =>
    if lon <? longitude1 then
      let indices :=
        match worldMapIndices latitude lon with
        | Some index =>
          if Bool.eqb (validTile index) true then indices ++ [index]
          else indices
        | None => indices
        end in
      findTileIndicesLoop fuel latitude (lon + angularStepLongitude)
        longitude1 indices
    else Some indices
  end.

Definition findTileIndices (fuel : nat) (latitude longitude0 longitude1 : number)
    : option (list TileIndex) :=
  findTileIndicesLoop fuel latitude longitude0 longitude1 [].

End TileLoader.

(** The rounds the loop runs from [longitude0] to [longitude1]. *)
Definition longitudeSteps (step longitude0 longitude1 : number) : nat :=
  Z.to_nat (Qceiling ((longitude1 - longitude0) / step)).

(** *** The sweep of a transition *)

Definition RenderingMapTransitionDeltaTime : number := 40.
Definition RenderingMapTransitionDuration : number := 1000.
Definition RenderingMapUpdateTimeout : number := 1500.
Definition RenderingMapFrameValidityTime : number :=
  RenderingMapTransitionDuration + RenderingMapUpdateTimeout.
Definition RenderingMapTransitionAngularStep : number :=
  inject_Z (Js.round ((90 / RenderingMapTransitionDuration)
                      * RenderingMapTransitionDeltaTime)).

Definition isMode (a b : TerrainLevelMode) : bool :=
  match a, b with
  | PeaksMode, PeaksMode | Warning, Warning | Caution, Caution => true
  | _, _ => false
  end.

(** The thresholds kept for the web UI when a sweep has ended. *)
Definition thresholdsOf (thresholdData : NavigationDisplayData)
    : NavigationDisplayThresholdsDto :=
  {| dto_minElevation := MinimumElevation thresholdData;
     dto_minElevationIsWarning :=
       isMode (MinimumElevationMode thresholdData) Warning;
     dto_minElevationIsCaution :=
       isMode (MinimumElevationMode thresholdData) Caution;
     dto_maxElevation := MaximumElevation thresholdData;
     dto_maxElevationIsWarning :=
       isMode (MaximumElevationMode thresholdData) Warning;
     dto_maxElevationIsCaution :=
       isMode (MaximumElevationMode thresholdData) Warning |}.

Definition setLastTransitionData (d : TransitionData) (s : SideState)
    : SideState :=
  {| config := config s; timeout := timeout s;
     durationInterval := durationInterval s;
     resetRenderingData := resetRenderingData s;
     startupTimestamp := startupTimestamp s; lastFrame := lastFrame s;
     lastTransitionData := d |}.

(** The angle the first sweep of a side starts at: the time since the
    start of the side, [now - startupTimestamp], taken modulo the
    validity time of a frame. *)
Definition sweepStartAngle (now : number) (s : SideState) : number :=
  match lastFrame s with
  | None =>
    let timeSinceStart := now - startupTimestamp s in
    let frameUpdateCount := timeSinceStart / RenderingMapFrameValidityTime in
    let ratioSinceLastFrame :=
      frameUpdateCount - inject_Z (Js.floor frameUpdateCount) in
    inject_Z (Js.floor (90 * ratioSinceLastFrame))
  | Some _ => 0
  end.

(** The part of [arcModeTransition] that runs before the ticker is
    set: it returns the start angle and the threshold data with the range
    and the mode of the display.  [ticker] is the handle [setInterval]
    returns. *)
Definition arcModeTransition (side : string) (config' : NavigationDisplay)
    (thresholdData : NavigationDisplayData) (now : number) (ticker : Timer)
    : M (number * NavigationDisplayData) :=
  s <- getSide side ;;
  match s with
  | None => ret (0, thresholdData)
  | Some s =>
    (if resetRenderingData s then
       modifySide side (setResetRenderingData false) ;;
       resetFrameData side
     else ret tt) ;;
    match durationInterval s with
    | Some t =>
      emit (ClearInterval t) ;; modifySide side (setDurationInterval None)
    | None => ret tt
    end ;;
    let thresholdData :=
      {| MinimumElevation := MinimumElevation thresholdData;
         MinimumElevationMode := MinimumElevationMode thresholdData;
         MaximumElevation := MaximumElevation thresholdData;
         MaximumElevationMode := MaximumElevationMode thresholdData;
         FirstFrame := FirstFrame thresholdData;
         DisplayRange := range config';
         DisplayMode := efisMode config';
         FrameByteCount := FrameByteCount thresholdData |} in
    s <- getSide side ;;
    let startAngle :=
      match s with Some s => sweepStartAngle now s | None => 0 end in
    modifySide side (setDurationInterval (Some ticker)) ;;
    ret (startAngle, thresholdData)
  end.

(** The variables [angle] and [lastFrame] of the ticker. *)
Record SweepVariables : Type := {
  sweep_angle : number;
  sweep_lastFrame : option Uint32Array
}.

(** One tick of the ticker.  It returns the frame it hands to the PNG
    encoder, if any; the encoder sends the frame and its metadata when
    it is done and collects the encoded frames in [transitionFrames].
    [newTimeout] is the handle [setTimeout] returns. *)
Definition sweepTick (side : string) (config' : NavigationDisplay)
    (frameData : Uint32Array) (thresholdData : NavigationDisplayData)
    (startAngle now : number) (transitionFrames : list Frame)
    (newTimeout : Timer) (v : SweepVariables)
    : M (SweepVariables * option Uint32Array) :=
  s <- getSide side ;;
  match s with
  | None => ret (v, None)
  | Some s =>
    let angle := sweep_angle v + RenderingMapTransitionAngularStep in
    r <- (if angle <? 90 then
            ret (false,
                 Some (arcModeTransitionFrame config' (lastFrame s) frameData
                         startAngle angle),
                 sweep_lastFrame v)
          else
            let '(frame, lastFrame') :=
              if angle - RenderingMapTransitionAngularStep <? 90 then
                let frame :=
                  arcModeTransitionFrame config' (lastFrame s) frameData
                    startAngle 90 in
                (Some frame, Some frame)
              else (None, sweep_lastFrame v) in
            (* do not overwrite the last frame of the initialization *)
            if startAngle =? 0 then
              modifySide side (setLastFrame (Some frameData)) ;;
              ret (true, Some frameData, lastFrame')
            else
              modifySide side (setLastFrame lastFrame') ;;
              ret (true, frame, lastFrame')) ;;
    let '(stopInterval, frame, _) := r in
    s <- getSide side ;;
    match s with
    | None => ret tt
    | Some s =>
      if stopInterval && negb (resetRenderingData s) then
        match durationInterval s with
        | Some t =>
          emit (ClearInterval t) ;; modifySide side (setDurationInterval None)
        | None => ret tt
        end ;;
        modifySide side
          (setLastTransitionData
             {| timestamp := now;
                thresholds := Some (thresholdsOf thresholdData);
                frames := transitionFrames |}) ;;
        match timeout s with
        | Some t => emit (ClearTimeout t) ;; modifySide side (setTimeout None)
        | None => ret tt
        end ;;
        match config s with
        | Some c =>
          if active c then modifySide side (setTimeout (Some newTimeout))
          else ret tt
        | None => ret tt
        end
      else ret tt
    end ;;
    ret ({| sweep_angle := angle; sweep_lastFrame := frame |}, frame)
  end.

(** [count] ticks in a row, and the frames they hand to the encoder. *)
Fixpoint sweepTicks (count : nat) (side : string) (config' : NavigationDisplay)
    (frameData : Uint32Array) (thresholdData : NavigationDisplayData)
    (startAngle now : number) (transitionFrames : list Frame)
    (newTimeout : Timer) (v : SweepVariables)
    : M (SweepVariables * list Uint32Array) :=
  match count with
  | O => ret (v, [])
  | S count =>
    r <- sweepTick side config' frameData thresholdData startAngle now
           transitionFrames newTimeout v ;;
    let '(v, frame) := r in
    r <- sweepTicks count side config' frameData thresholdData startAngle now
           transitionFrames newTimeout v ;;
    let '(v, handed) := r in
    ret (v, match frame with Some f => f :: handed | None => handed end)
  end.

(** A side when a sweep from angle 0 has ended. *)
Definition sweptSide (frameData : Uint32Array)
    (thresholdData : NavigationDisplayData) (now : number)
    (transitionFrames : list Frame) (newTimeout : Timer) (s : SideState)
    : SideState :=
  {| config := config s;
     timeout :=
       match config s with
       | Some c => if active c then Some newTimeout else None
       | None => None
       end;
     durationInterval := None;
     resetRenderingData := resetRenderingData s;
     startupTimestamp := startupTimestamp s;
     lastFrame := Some frameData;
     lastTransitionData :=
       {| timestamp := now;
          thresholds := Some (thresholdsOf thresholdData);
          frames := transitionFrames |} |}.

(** The variable [angle] after a number of ticks. *)
Fixpoint sweepAngleAfter (ticks : nat) : number :=
  match ticks with
  | O => 0
  | S ticks => sweepAngleAfter ticks + RenderingMapTransitionAngularStep
  end.

(** *** The map window of a render pass *)

(** The configuration of the side as [renderNavigationDisplay] leaves
    it before it launches the kernels: the size of the map and its
    offset in the frame follow from the mode of the display. *)
Definition renderedConfig (config' : NavigationDisplay) : NavigationDisplay :=
  let mapWidth' :=
    if arcMode config' then inject_Z RenderingArcModePixelWidth
    else inject_Z RenderingRoseModePixelWidth in
  let mapHeight' :=
    if arcMode config' then inject_Z RenderingArcModePixelHeight
    else inject_Z RenderingRoseModePixelHeight in
  {| range := range config';
     arcMode := arcMode config';
     active := active config';
     efisMode := efisMode config';
     mapOffsetX :=
       inject_Z (Js.round ((inject_Z RenderingMaxPixelWidth - mapWidth') * 0.5));
     mapWidth := mapWidth';
     mapHeight := mapHeight' |}.

(** *** The cached world map *)

(** A [Float32Array]: its elements are numbers or [NaN], which is what a
    store makes of [undefined] ([Js.Undefined] here); a write beyond the
    end is ignored. *)
Definition float32Set (a : list Js.value) (i : nat) (v : Js.value)
    : list Js.value :=
  if (i <? List.length a)%nat then firstn i a ++ v :: skipn (S i) a else a.

(** The sample the world map takes from a cell for the place [(x, y)] of
    its tile.  [None] is a [TypeError]: of a cell that has a tile index
    and no elevation grid, or of an elevation grid whose [ElevationMap] is
    [null], which the test [=== undefined] lets through to the read of
    the sample. *)
Definition cellSample (cell : GridCell) (x y : nat) : option Js.value :=
  if (cellTileIndex cell =? -1)%Z then Some (Js.Num WaterElevation)
  else
    match elevationmap cell with
    | None => None
    | Some grid =>
      match ElevationMap grid with
      | SamplesUndefined => Some (Js.Num UnknownElevation)
      | SamplesNull => None
      | Samples samples =>
        Some (Js.get samples (Z.of_nat y * Columns grid + Z.of_nat x))
      end
    end.

(** The part of [updateGroundTruthPositionAndCachedTiles] that fills
    [cachedElevationData.cpuData]; the tile sizes are counts.  [None] is
    a [TypeError]: of [grid[0]] for an empty grid, or of a cell. *)
Definition assembleWorldMap (cells : list (list GridCell))
    (minWidthPerTile minHeightPerTile : nat) : option (list Js.value) :=
  match cells with
  | [] => None
  | first :: _ =>
    let worldWidth := (minWidthPerTile * List.length first)%nat in
    let worldHeight := (minHeightPerTile * List.length cells)%nat in
    let cpuData := repeat (Js.Num 0) (worldWidth * worldHeight) in
    option_map fst
      (fold_left
         (fun state row =>
            match state with
            | None => None
            | Some (cpuData, yOffset) =>
              option_map
                (fun cpuData => (cpuData, (yOffset + minHeightPerTile)%nat))
                (fold_left
                   (fun state y =>
                      match state with
                      | None => None
                      | Some cpuData =>
                        option_map fst
                          (fold_left
                             (fun state cell =>
                                match state with
                                | None => None
                                | Some (cpuData, xOffset) =>
                                  option_map
                                    (fun cpuData =>
                                       (cpuData,
                                        (xOffset + minWidthPerTile)%nat))
                                    (fold_left
                                       (fun state x =>
                                          match state with
                                          | None => None
                                          | Some cpuData =>
                                            let index :=
                                              ((y + yOffset) * worldWidth
                                               + xOffset + x)%nat in
                                            match cellSample cell x y with
                                            | Some v =>
                                              Some (float32Set cpuData index v)
                                            | None => None
                                            end
                                          end)
                                       (seq 0 minWidthPerTile) (Some cpuData))
                                end)
                             row (Some (cpuData, O)))
                      end)
                   (seq 0 minHeightPerTile) (Some cpuData))
            end)
         cells (Some (cpuData, O)))
  end.

(** A grid whose cells can all be sampled and whose rows have the
    length of the first.  A cell can be sampled when it has no tile
    index, or an elevation grid whose [ElevationMap] is not [null]. *)
Definition sampleable (cell : GridCell) : Prop :=
  cellTileIndex cell = (-1)%Z
  \/ exists grid,
       elevationmap cell = Some grid /\ ElevationMap grid <> SamplesNull.

Definition rectangular (cells : list (list GridCell)) (columns : nat) : Prop :=
  Forall (fun row => List.length row = columns) cells.

(** The place in the world map of the sample [(x, y)] of the tile in
    column [X] of row [Y] of the grid, for tiles of [w] x [h] samples. *)
Definition worldMapIndex (w h columns : nat) (Y y X x : nat) : nat :=
  ((Y * h + y) * (w * columns) + X * w + x)%nat.

(** The first [k] samples of the world map are in place. *)
Definition filled (cells : list (list GridCell)) (w h columns : nat)
    (k : nat) (cpuData : list Js.value) : Prop :=
  List.length cpuData = ((w * columns) * (h * List.length cells))%nat
  /\ forall Y y X x row cell,
       nth_error cells Y = Some row -> nth_error row X = Some cell ->
       (y < h)%nat -> (x < w)%nat ->
       (worldMapIndex w h columns Y y X x < k)%nat ->
       nth_error cpuData (worldMapIndex w h columns Y y X x)
       = cellSample cell x y.

(** Two tiles of 2 x 2 samples side by side, the second without a tile
    index. *)
Definition sampleCells : list (list GridCell) :=
  [[{| cellTileIndex := 4;
       elevationmap :=
         Some {| Rows := 2; Columns := 2;
                 ElevationMap := Samples [1900; 2000; 2100; 2200] |} |};
    {| cellTileIndex := -1; elevationmap := None |}]].

(** The statistics of a histogram with terrain around 2500, 4500 and
    6500 ft, for an aircraft at 20000 ft. *)
Definition peaksStatistics : Statistics :=
  statistics navigationDisplayConstants
    (histogramOf [(20%nat, 10); (40%nat, 30); (60%nat, 5)] 296 0)
    20000 0 (-500).

(** * Part II. Properties *)

(** ** Comparisons of JavaScript numbers *)

Lemma leb_spec a b : (a <=? b) = true <-> a <= b.
Proof. apply Qle_bool_iff. Qed.

Lemma leb_false a b : (a <=? b) = false <-> b < a.
Proof.
  rewrite <- not_true_iff_false, leb_spec.
  split; [apply Qnot_le_lt | apply Qlt_not_le].
Qed.

Lemma geb_spec a b : (a >=? b) = true <-> b <= a.
Proof. apply leb_spec. Qed.

Lemma geb_false a b : (a >=? b) = false <-> a < b.
Proof. apply leb_false. Qed.

Lemma ltb_spec a b : (a <? b) = true <-> a < b.
Proof.
  unfold Js.ltb. rewrite negb_true_iff. apply (leb_false b a).
Qed.

Lemma ltb_false a b : (a <? b) = false <-> b <= a.
Proof.
  unfold Js.ltb. rewrite negb_false_iff. apply (leb_spec b a).
Qed.

Lemma gtb_spec a b : (a >? b) = true <-> b < a.
Proof. apply ltb_spec. Qed.

Lemma gtb_false a b : (a >? b) = false <-> a <= b.
Proof. apply ltb_false. Qed.

Lemma eqb_spec a b : (a =? b) = true <-> a == b.
Proof. apply Qeq_bool_iff. Qed.

Lemma eqb_false a b : (a =? b) = false <-> ~ a == b.
Proof. rewrite <- not_true_iff_false, eqb_spec. reflexivity. Qed.

(** Splits on every comparison of the goal and records the order of
    the rationals it decides. *)
Ltac js_case_on c :=
  let E := fresh "E" in
  destruct c eqn:E;
  [ first [ apply leb_spec in E | apply geb_spec in E | apply ltb_spec in E
          | apply gtb_spec in E | apply eqb_spec in E ]
  | first [ apply leb_false in E | apply geb_false in E | apply ltb_false in E
          | apply gtb_false in E | apply eqb_false in E ] ].

Ltac js_cases :=
  repeat match goal with
  | |- context [Js.leb ?a ?b] => js_case_on (Js.leb a b)
  | |- context [Js.geb ?a ?b] => js_case_on (Js.geb a b)
  | |- context [Js.ltb ?a ?b] => js_case_on (Js.ltb a b)
  | |- context [Js.gtb ?a ?b] => js_case_on (Js.gtb a b)
  | |- context [Js.eqb ?a ?b] => js_case_on (Js.eqb a b)
  | _ : context [if Js.leb ?a ?b then _ else _] |- _ => js_case_on (Js.leb a b)
  | _ : context [if Js.geb ?a ?b then _ else _] |- _ => js_case_on (Js.geb a b)
  | _ : context [if Js.ltb ?a ?b then _ else _] |- _ => js_case_on (Js.ltb a b)
  | _ : context [if Js.gtb ?a ?b then _ else _] |- _ => js_case_on (Js.gtb a b)
  end.

Lemma Qmin_cases a b : (a <= b /\ Qmin a b == a) \/ (b < a /\ Qmin a b == b).
Proof.
  destruct (Qlt_le_dec b a) as [H | H].
  - right. split; [exact H | apply Q.min_r, Qlt_le_weak, H].
  - left. split; [exact H | apply Q.min_l, H].
Qed.

Lemma Qmax_cases a b : (a <= b /\ Qmax a b == b) \/ (b < a /\ Qmax a b == a).
Proof.
  destruct (Qlt_le_dec b a) as [H | H].
  - right. split; [exact H | apply Q.max_l, Qlt_le_weak, H].
  - left. split; [exact H | apply Q.max_r, H].
Qed.

(** Names every [Qmin] and [Qmax] of the goal and keeps, for each, the
    fact that it is one of its two arguments. *)
Ltac minmax_name t lemma :=
  let m := fresh "m" in let H := fresh "Hm" in let E := fresh "E" in
  pose proof lemma as H; remember t as m eqn:E in *; clear E.

Ltac minmax_cases :=
  repeat match goal with
  | |- context [Qmin ?a ?b] => minmax_name (Qmin a b) (Qmin_cases a b)
  | |- context [Qmax ?a ?b] => minmax_name (Qmax a b) (Qmax_cases a b)
  | _ : context [Qmin ?a ?b] |- _ => minmax_name (Qmin a b) (Qmin_cases a b)
  | _ : context [Qmax ?a ?b] |- _ => minmax_name (Qmax a b) (Qmax_cases a b)
  end;
  repeat match goal with
  | H : (_ /\ _) \/ (_ /\ _) |- _ => destruct H as [[? ?] | [? ?]]
  end.

(** ** Normal-mode thresholds *)

Section NormalModeThresholds.

Let K := navigationDisplayConstants.

(** Without the flat-earth clamp the low-density green threshold is the
    offset altitude, lifted to [minimumElevation + 200] once the offset
    altitude is not above the minimum elevation. *)
Lemma lowDensityGreen_unclamped ref m fe lp half :
  fe < 0 ->
  fst (a32nxCalculateNormalModeGreenThresholds K ref m fe lp half)
  == (if ref - 2000 <=? m then m + 200 else ref - 2000).
Proof.
  intros Hfe. unfold a32nxCalculateNormalModeGreenThresholds. cbn.
  unfold RenderingNormalModeLowDensityGreenOffset.
  assert (Hc : (fe >=? 0) = false) by (apply geb_false; exact Hfe).
  rewrite Hc. reflexivity.
Qed.

(** With the clamp ([flatEarth >= 0]) it is cut down to the smaller of
    the half elevation and the lower percentile elevation. *)
Lemma lowDensityGreen_clamped ref m fe lp half :
  0 <= fe ->
  fst (a32nxCalculateNormalModeGreenThresholds K ref m fe lp half)
  == Qmin (if ref - 2000 <=? m then m + 200 else ref - 2000) (Qmin half lp).
Proof.
  intros Hfe. unfold a32nxCalculateNormalModeGreenThresholds. cbn.
  unfold RenderingNormalModeLowDensityGreenOffset.
  assert (Hc : (fe >=? 0) = true) by (apply geb_spec; exact Hfe).
  rewrite Hc.
  set (g := if ref - 2000 <=? m then m + 200 else ref - 2000).
  js_cases; cbn; minmax_cases; lra.
Qed.

Lemma highDensityGreen_value ref m fe lp half :
  snd (a32nxCalculateNormalModeGreenThresholds K ref m fe lp half)
  = (if ref - 1000 <=? m then m + 200 else ref - 1000).
Proof. reflexivity. Qed.

Lemma warningThresholds_value ref m off :
  a32nxCalculateNormalModeWarningThresholds K ref m off
  = (if ref - off <=? m then m + 200 else ref - off, ref + 1000, ref + 2000).
Proof. reflexivity. Qed.

End NormalModeThresholds.

(** ** Normal-mode thresholds, one by one *)

Section NormalModeOrder.

Let K := navigationDisplayConstants.

Variables ref m fe lp half off : number.

Let T := normalModeThresholds K ref m fe lp half off.

Lemma normalMode_lowDensityGreen :
  lowDensityGreen T
  == if fe >=? 0
     then Qmin (if ref - 2000 <=? m then m + 200 else ref - 2000) (Qmin half lp)
     else (if ref - 2000 <=? m then m + 200 else ref - 2000).
Proof.
  subst T. unfold normalModeThresholds. rewrite warningThresholds_value.
  destruct (a32nxCalculateNormalModeGreenThresholds K ref m fe lp half)
    as [g h] eqn:E. cbn.
  change g with (fst (g, h)). rewrite <- E.
  destruct (fe >=? 0) eqn:Hfe.
  - apply lowDensityGreen_clamped, geb_spec, Hfe.
  - apply lowDensityGreen_unclamped, geb_false, Hfe.
Qed.

Lemma normalMode_highDensityGreen :
  highDensityGreen T = if ref - 1000 <=? m then m + 200 else ref - 1000.
Proof. reflexivity. Qed.

Lemma normalMode_lowDensityYellow :
  lowDensityYellow T = if ref - off <=? m then m + 200 else ref - off.
Proof. reflexivity. Qed.

Lemma normalMode_highDensityYellow : highDensityYellow T = ref + 1000.
Proof. reflexivity. Qed.

Lemma normalMode_highDensityRed : highDensityRed T = ref + 2000.
Proof. reflexivity. Qed.

End NormalModeOrder.

Ltac normal_mode_values :=
  rewrite ?normalMode_lowDensityGreen, ?normalMode_highDensityGreen,
    ?normalMode_lowDensityYellow, ?normalMode_highDensityYellow,
    ?normalMode_highDensityRed.

(** C4 (amended).  Each of the three lower thresholds of the normal
    mode, [lowDensityGreen] prior to the flat-earth clamp, is its offset
    altitude ([referenceAltitude - 2000], [- 1000],
    [- gearDownAltitudeOffset]) when that altitude is above
    [minimumElevation], and [minimumElevation + 200] when it is not; it is
    the maximum of the two exactly when the offset altitude is at most
    [minimumElevation] or at least [minimumElevation + 200].
    [highDensityGreen] and [lowDensityYellow] do not depend on
    [flatEarth]; [lowDensityGreen] is the value prior to the clamp when
    [flatEarth < 0], and the clamp ([flatEarth >= 0]) cuts that value down
    to the smaller of the half elevation and the lower percentile. *)
Theorem C4_normal_mode_thresholds (ref m fe lp half off : number) :
  let T := normalModeThresholds navigationDisplayConstants ref m fe lp half off in
  (exists unclamped : number,
      ((ref - 2000 <= m -> unclamped == m + 200)
       /\ (m < ref - 2000 -> unclamped == ref - 2000)
       /\ (unclamped == Qmax (m + 200) (ref - 2000)
           <-> ref - 2000 <= m \/ m + 200 <= ref - 2000))
      /\ (fe < 0 -> lowDensityGreen T == unclamped)
      /\ (0 <= fe -> lowDensityGreen T == Qmin unclamped (Qmin half lp)))
  /\ ((ref - 1000 <= m -> highDensityGreen T == m + 200)
      /\ (m < ref - 1000 -> highDensityGreen T == ref - 1000)
      /\ (highDensityGreen T == Qmax (m + 200) (ref - 1000)
          <-> ref - 1000 <= m \/ m + 200 <= ref - 1000))
  /\ ((ref - off <= m -> lowDensityYellow T == m + 200)
      /\ (m < ref - off -> lowDensityYellow T == ref - off)
      /\ (lowDensityYellow T == Qmax (m + 200) (ref - off)
          <-> ref - off <= m \/ m + 200 <= ref - off)).
Proof.
  intros T. subst T. split.
  - exists (if ref - 2000 <=? m then m + 200 else ref - 2000).
    rewrite normalMode_lowDensityGreen.
    split; [ | split]; [ | intros Hfe | intros Hfe].
    + repeat split; intros; js_cases; minmax_cases;
        try lra; try (left; lra); try (right; lra);
        repeat match goal with H : _ \/ _ |- _ => destruct H end; lra.
    + apply geb_false in Hfe. rewrite Hfe. reflexivity.
    + apply geb_spec in Hfe. rewrite Hfe. reflexivity.
  - normal_mode_values.
    repeat split; intros; js_cases; minmax_cases;
      try lra; try (left; lra); try (right; lra);
      repeat match goal with H : _ \/ _ |- _ => destruct H end; lra.
Qed.

(** The claim of C4 as it is written fails where the offset altitude lies
    between the minimum elevation and 200 ft above it: for a reference
    altitude of 2100 ft over a minimum elevation of 0 ft the kernel takes
    100 ft, the claimed maximum is 200 ft. *)
Lemma C4_counterexample :
  ~ lowDensityGreen
      (normalModeThresholds navigationDisplayConstants 2100 0 (-1) 0 0 250)
    == Qmax (0 + 200) (2100 - 2000).
Proof. vm_compute. discriminate. Qed.

(** At 3000 ft over terrain from 0 ft the thresholds are the offset
    altitudes, with the flat-earth clamp or without it. *)
Lemma C4_witness :
  lowDensityGreen
    (normalModeThresholds navigationDisplayConstants 3000 0 (-2900) 2400 1500
       250) == 1000
  /\ highDensityGreen
       (normalModeThresholds navigationDisplayConstants 3000 0 0 2400 1500 250)
     == 2000
  /\ lowDensityYellow
       (normalModeThresholds navigationDisplayConstants 3000 0 0 2400 1500 250)
     == 2750.
Proof.
  split; [ | split].
  - destruct (C4_normal_mode_thresholds 3000 0 (-2900) 2400 1500 250)
      as [(unclamped & (_ & Hvalue & _) & Hgreen & _) _].
    rewrite Hgreen by reflexivity. rewrite Hvalue by reflexivity.
    reflexivity.
  - destruct (C4_normal_mode_thresholds 3000 0 0 2400 1500 250)
      as (_ & (_ & Hvalue & _) & _).
    rewrite Hvalue by reflexivity. reflexivity.
  - destruct (C4_normal_mode_thresholds 3000 0 0 2400 1500 250)
      as (_ & _ & (_ & Hvalue & _)).
    rewrite Hvalue by reflexivity. reflexivity.
Defined.

(** C5 (amended).  For a gear offset of 250 or 500 the chain
    [lowDensityGreen <= highDensityGreen <= lowDensityYellow <=
    highDensityYellow <= highDensityRed] holds when the minimum elevation
    is at least 1200 ft below the reference altitude, or lies between
    [referenceAltitude - 1000] and
    [referenceAltitude - gearDownAltitudeOffset - 200], or between
    [referenceAltitude - gearDownAltitudeOffset] and
    [referenceAltitude + 800]; without the flat-earth clamp it holds in
    no other case.  [highDensityYellow <= highDensityRed] always holds. *)
Theorem C5_normal_mode_order (ref m fe lp half off : number) :
  off == 250 \/ off == 500 ->
  let T := normalModeThresholds navigationDisplayConstants ref m fe lp half off in
  let ordered :=
    lowDensityGreen T <= highDensityGreen T
    /\ highDensityGreen T <= lowDensityYellow T
    /\ lowDensityYellow T <= highDensityYellow T
    /\ highDensityYellow T <= highDensityRed T in
  let clear :=
    m + 1200 <= ref
    \/ (ref - 1000 <= m /\ m + 200 <= ref - off)
    \/ (ref - off <= m /\ m <= ref + 800) in
  highDensityYellow T <= highDensityRed T
  /\ (clear -> ordered)
  /\ (fe < 0 -> ordered -> clear).
Proof.
  intros Hoff T ordered clear. subst ordered clear T. normal_mode_values.
  split; [lra | split].
  - intros Hclear.
    destruct (fe >=? 0); js_cases; minmax_cases;
      repeat split; destruct Hoff, Hclear as [? | [[? ?] | [? ?]]]; lra.
  - intros Hfe. apply geb_false in Hfe. rewrite Hfe.
    intros (H1 & H2 & H3 & _). revert H1 H2 H3.
    js_cases; intros; destruct Hoff;
      first [ left; lra | right; left; lra | right; right; lra ].
Qed.

(** The claim of C5 as it is written fails on the thresholds the kernel
    derives from a histogram: terrain between 0 ft and 3000 ft (bins 5
    and 34), an aircraft level at 1100 ft with the gear down.  The normal
    mode is selected, [lowDensityGreen] is 200 and [highDensityGreen]
    is 100. *)
Lemma C5_counterexample :
  let s := statistics navigationDisplayConstants
             (histogramOf [(5%nat, 10); (34%nat, 10)] 296 0) 1100 0 (-500) in
  let T := normalModeThresholds navigationDisplayConstants
             (referenceAltitude s) (minElevation s) (flatEarth s)
             (lowerPercentileElevation s) (halfElevation s) 250 in
  (maxElevation s >=? referenceAltitude s - 250) = true
  /\ ~ (lowDensityGreen T <= highDensityGreen T
        /\ highDensityGreen T <= lowDensityYellow T
        /\ lowDensityYellow T <= highDensityYellow T
        /\ highDensityYellow T <= highDensityRed T).
Proof.
  vm_compute. split; [reflexivity | ].
  intros [H _]. apply H. reflexivity.
Qed.

Lemma C5_witness :
  let T := normalModeThresholds navigationDisplayConstants 3000 0 (-2900)
             2400 1500 250 in
  lowDensityGreen T <= highDensityGreen T
  /\ highDensityGreen T <= lowDensityYellow T
  /\ lowDensityYellow T <= highDensityYellow T
  /\ highDensityYellow T <= highDensityRed T.
Proof.
  apply (C5_normal_mode_order 3000 0 (-2900) 2400 1500 250).
  - left. reflexivity.
  - left. vm_compute. discriminate.
Defined.

(** ** Peaks-mode thresholds *)

Section PeaksMode.

Variables lp up half m M : number.

Let lower := Qmin lp half.
Let higher := Qmin up ((M - m) * 0.65 + m).
Let solid := (M - m) * 0.95 + m.

(** The test of the sanity clamp. *)
Let forced : bool :=
  (lower >=? higher) || (lower >=? solid) || (higher >=? solid)
  || (lp >=? up) || (lp >=? solid) || (up >=? solid).

Lemma forced_spec :
  forced = true <-> ~ (lower < higher /\ higher < solid) \/ ~ (lp < up /\ up < solid).
Proof.
  unfold forced. rewrite !orb_true_iff, !geb_spec. split.
  - intros [[[[[H | H] | H] | H] | H] | H];
      first [ left; intros [? ?]; lra | right; intros [? ?]; lra ].
  - intros [H | H].
    + destruct (Qlt_le_dec lower higher); [ | tauto].
      destruct (Qlt_le_dec higher solid); [ | tauto].
      exfalso. apply H. split; assumption.
    + destruct (Qlt_le_dec lp up); [ | tauto].
      destruct (Qlt_le_dec up solid); [ | tauto].
      exfalso. apply H. split; assumption.
Qed.

Lemma forced_false :
  forced = false <-> (lower < higher /\ higher < solid) /\ (lp < up /\ up < solid).
Proof.
  rewrite <- not_true_iff_false, forced_spec. split.
  - intros H.
    destruct (Qlt_le_dec lower higher), (Qlt_le_dec higher solid),
      (Qlt_le_dec lp up), (Qlt_le_dec up solid);
      try (repeat split; assumption);
      exfalso; apply H;
      first [ left; intros [? ?]; lra | right; intros [? ?]; lra ].
  - intros [H1 H2] [H | H]; tauto.
Qed.

Lemma peaksModeThresholds_value :
  peaksModeThresholds lp up half m M
  = if forced
    then {| lowerDensity := lower; higherDensity := M + 100;
            solidDensity := M + 100 |}
    else {| lowerDensity := lower; higherDensity := higher;
            solidDensity := solid |}.
Proof.
  unfold peaksModeThresholds, a32nxCalculatePeaksModeThresholds.
  fold lower higher solid. fold forced. destruct forced; reflexivity.
Qed.

End PeaksMode.

(** ** The percentile loop of the colorizer *)

Lemma binRange_cons (first last : Z) :
  (first < last)%Z -> binRange first last = first :: binRange (first + 1) last.
Proof.
  intros H. unfold binRange.
  replace (Z.to_nat (last - first)) with (S (Z.to_nat (last - (first + 1))))
    by lia.
  cbn [seq map]. f_equal; [lia | ].
  rewrite <- seq_shift, map_map. apply map_ext. intros k. lia.
Qed.

Lemma binRange_nil (first last : Z) :
  (last <= first)%Z -> binRange first last = [].
Proof.
  intros H. unfold binRange.
  replace (Z.to_nat (last - first)) with O by lia. reflexivity.
Qed.

Section PercentileLoop.

Let K := navigationDisplayConstants.

Variable histogram : list number.
Variable totalFrequency : number.

Lemma percentileStep_invariant (bin : Z) (acc : Percentiles) :
  (0 <= bin)%Z ->
  loopInvariant totalFrequency bin acc ->
  loopInvariant totalFrequency (bin + 1)
    (percentileStep K histogram totalFrequency acc bin).
Proof.
  intros Hbin (Hlower & Hmax & Hcp). unfold loopInvariant, percentileStep.
  cbn [lowerPercentile upperPercentile K navigationDisplayConstants].
  unfold RenderingLowerPercentile.
  set (h := histogramAt histogram bin).
  destruct (totalFrequency >? 0) eqn:Htotal;
    [apply gtb_spec in Htotal | apply gtb_false in Htotal].
  - destruct (Z.eqb_spec (lowerBin acc) (-1)) as [Hunset | Hset].
    + specialize (Hcp Htotal Hunset).
      destruct (currentPercentile acc + h / totalFrequency >=? 0.85) eqn:Hreach;
        [apply geb_spec in Hreach | apply geb_false in Hreach].
      * (* the percentile is reached in this bin: the bin holds terrain *)
        assert (Hh : 0 < h).
        { destruct (Qlt_le_dec 0 h) as [Hpos | Hneg]; [exact Hpos | exfalso].
          assert (h / totalFrequency <= 0).
          { apply Qle_shift_div_r; [exact Htotal | lra]. }
          lra. }
        apply gtb_spec in Hh. rewrite Hh.
        cbn [andb lowerBin maxElevationBin currentPercentile].
        split; [right; lia | split; [lia | intros _ Hb; lia]].
      * cbn [andb]. destruct (h >? 0);
          cbn [lowerBin maxElevationBin currentPercentile];
          (split; [left; exact Hunset | split; [lia | intros _ _; exact Hreach]]).
    + cbn [andb]. destruct Hlower as [Hlower | Hlower]; [contradiction | ].
      destruct (h >? 0);
        cbn [lowerBin maxElevationBin currentPercentile];
        (split; [right; lia | split; [lia | intros _ Hb; contradiction]]).
  - destruct (h >? 0);
      cbn [lowerBin maxElevationBin currentPercentile];
      (split; [ | split; [lia | intros Hpos; lra]]).
    + destruct Hlower as [Hlower | Hlower]; [left; exact Hlower | right; lia].
    + exact Hlower.
Qed.

Lemma percentileLoop_invariant (count : nat) :
  forall (first : Z) (acc : Percentiles),
    (0 <= first)%Z ->
    loopInvariant totalFrequency first acc ->
    loopInvariant totalFrequency (first + Z.of_nat count)
      (fold_left (percentileStep K histogram totalFrequency)
         (binRange first (first + Z.of_nat count)) acc).
Proof.
  induction count as [ | count IH]; intros first acc Hfirst Hacc.
  - rewrite binRange_nil by lia. cbn [fold_left].
    replace (first + Z.of_nat 0)%Z with first by lia. exact Hacc.
  - rewrite binRange_cons by lia. cbn [fold_left].
    replace (first + Z.of_nat (S count))%Z
      with (first + 1 + Z.of_nat count)%Z by lia.
    apply IH; [lia | ].
    apply percentileStep_invariant; assumption.
Qed.

End PercentileLoop.

(** A cut-off altitude of at least -500 ft starts the loops at a bin of
    the histogram. *)
Lemma cutOffAltitudeBin_nonneg (cutOffAltitude : number) :
  -500 <= cutOffAltitude ->
  (0 <= Js.floor ((cutOffAltitude - HistogramMinimumElevation)
                  / HistogramBinRange)%Q)%Z.
Proof.
  intros H. unfold Js.floor.
  change 0%Z with (Qfloor 0). apply Qfloor_resp_le.
  apply Qle_shift_div_l; unfold HistogramBinRange, HistogramMinimumElevation; lra.
Qed.

(** The lower threshold of the peaks mode stays below the value the
    sanity clamp forces, for every histogram. *)
Lemma statistics_lowerDensity_bound (histogram : list number)
    (altitude' verticalSpeed' cutOffAltitude : number) :
  -500 <= cutOffAltitude ->
  let s := statistics navigationDisplayConstants histogram altitude'
             verticalSpeed' cutOffAltitude in
  Qmin (lowerPercentileElevation s) (halfElevation s) <= maxElevation s + 100.
Proof.
  intros Hcut. unfold statistics.
  cbn [histogramMinElevation histogramBinRange histogramBinCount
       navigationDisplayConstants].
  set (first := Js.floor ((cutOffAltitude - HistogramMinimumElevation)
                          / HistogramBinRange)).
  assert (Hfirst : (0 <= first)%Z) by (apply cutOffAltitudeBin_nonneg, Hcut).
  set (total := fold_left _ (binRange first HistogramBinCount) 0).
  set (loop := fold_left _ (binRange first HistogramBinCount) _).
  cbv zeta. cbn [lowerPercentileElevation halfElevation maxElevation].
  assert (Hinv : lowerBin loop = (-1)%Z
                 \/ (0 <= lowerBin loop <= maxElevationBin loop)%Z).
  { destruct (Z_le_gt_dec first HistogramBinCount) as [Hle | Hgt].
    - pose proof (percentileLoop_invariant histogram total
                    (Z.to_nat (HistogramBinCount - first)) first
                    {| currentPercentile := 0; lowerBin := -1; upperBin := -1;
                       minElevationBin := -1; maxElevationBin := -1 |} Hfirst)
        as H.
      replace (first + Z.of_nat (Z.to_nat (HistogramBinCount - first)))%Z
        with HistogramBinCount in H by lia.
      destruct H as [H _]; [ | exact H].
      split; [left; reflexivity | split; [cbn [maxElevationBin]; lia | ]].
      intros _ _. reflexivity.
    - subst loop. rewrite binRange_nil by lia. left. reflexivity. }
  unfold HistogramBinRange, HistogramMinimumElevation.
  destruct (Z.geb_spec (maxElevationBin loop) 0) as [Hdata | Hnone].
  - eapply Qle_trans; [apply Q.le_min_l | ].
    set (lower := if (lowerBin loop >? HistogramBinCount)%Z
                  then (HistogramBinCount - 1)%Z else lowerBin loop).
    assert (Hlower : (lower <= maxElevationBin loop + 1)%Z).
    { subst lower. destruct (Z.gtb_spec (lowerBin loop) HistogramBinCount);
        change HistogramBinCount with 296%Z in *; lia. }
    rewrite Zle_Qle in Hlower. lra.
  - eapply Qle_trans; [apply Q.le_min_r | ]. lra.
Qed.

(** In the colorizer the peaks-mode thresholds are ordered, whatever the
    histogram. *)
Lemma peaksMode_ordered_in_renderer (histogram : list number)
    (altitude' verticalSpeed' cutOffAltitude : number) :
  -500 <= cutOffAltitude ->
  let s := statistics navigationDisplayConstants histogram altitude'
             verticalSpeed' cutOffAltitude in
  let P := peaksModeThresholds (lowerPercentileElevation s)
             (upperPercentileElevation s) (halfElevation s) (minElevation s)
             (maxElevation s) in
  lowerDensity P <= higherDensity P /\ higherDensity P <= solidDensity P.
Proof.
  intros Hcut s P.
  pose proof (statistics_lowerDensity_bound histogram altitude' verticalSpeed'
                cutOffAltitude Hcut) as Hbound.
  fold s in Hbound. cbv zeta in Hbound. subst P.
  rewrite peaksModeThresholds_value.
  pose proof (forced_false (lowerPercentileElevation s)
                (upperPercentileElevation s) (halfElevation s) (minElevation s)
                (maxElevation s)) as Hf.
  cbv zeta in Hf.
  match type of Hf with ?b = false <-> _ => destruct b end; cbn.
  - split; [exact Hbound | apply Qle_refl].
  - destruct Hf as [Hf _]. destruct (Hf eq_refl) as [[H1 H2] _].
    split; apply Qlt_le_weak; assumption.
Qed.

(** C6 (amended).  The peaks-mode thresholds are forced to
    [higherDensity = solidDensity = maximumElevation + 100] exactly when
    the triple [lowerDensity, higherDensity, solidDensity] is not strictly
    increasing or the percentile ordering [lowerPercentile <
    upperPercentile < solidDensity] is violated; the returned triple
    satisfies [lowerDensity <= higherDensity <= solidDensity] exactly when
    nothing was forced or [min(lowerPercentile, halfElevation) <=
    maximumElevation + 100], which is the case for the arguments the
    colorizer derives from a histogram and a cut-off altitude of at least
    -500 ft. *)
Theorem C6_peaks_mode_clamp (lp up half m M : number)
    (histogram : list number) (altitude' verticalSpeed' cutOffAltitude : number) :
  let T := peaksModeThresholds lp up half m M in
  let lower := Qmin lp half in
  let higher := Qmin up ((M - m) * 0.65 + m) in
  let solid := (M - m) * 0.95 + m in
  let increasing := lower < higher /\ higher < solid in
  let percentiles := lp < up /\ up < solid in
  let s := statistics navigationDisplayConstants histogram altitude'
             verticalSpeed' cutOffAltitude in
  let P := peaksModeThresholds (lowerPercentileElevation s)
             (upperPercentileElevation s) (halfElevation s) (minElevation s)
             (maxElevation s) in
  lowerDensity T == lower
  /\ ((higherDensity T == M + 100 /\ solidDensity T == M + 100)
      <-> ~ increasing \/ ~ percentiles)
  /\ (increasing /\ percentiles ->
      higherDensity T == higher /\ solidDensity T == solid)
  /\ ((lowerDensity T <= higherDensity T /\ higherDensity T <= solidDensity T)
      <-> (increasing /\ percentiles) \/ lower <= M + 100)
  /\ (-500 <= cutOffAltitude ->
      lowerDensity P <= higherDensity P /\ higherDensity P <= solidDensity P).
Proof.
  cbv zeta. split; [ | split; [ | split; [ | split]]];
    try (apply peaksMode_ordered_in_renderer);
    rewrite peaksModeThresholds_value;
    pose proof (forced_spec lp up half m M) as Ht;
    pose proof (forced_false lp up half m M) as Hf;
    cbv zeta in Ht, Hf;
    match type of Ht with ?b = true <-> _ => destruct b end;
    cbn [lowerDensity higherDensity solidDensity];
    try reflexivity.
  - (* forced, the clamp *)
    split; [intros _; apply Ht; reflexivity | intros _; split; reflexivity].
  - (* not forced, the clamp *)
    destruct Hf as [Hf _]. destruct (Hf eq_refl) as [[H1 H2] [H3 H4]].
    split.
    + intros [E1 E2]. exfalso. rewrite E1, E2 in H2. exact (Qlt_irrefl _ H2).
    + intros [H | H]; exfalso; apply H; split; assumption.
  - (* forced, nothing kept *)
    intros [Hi Hp]. destruct Ht as [Ht _].
    destruct (Ht eq_refl) as [H | H]; contradiction.
  - intros _. split; reflexivity.
  - (* forced, the order *)
    split.
    + intros [H _]. right. exact H.
    + intros [[Hi Hp] | H].
      * destruct Ht as [Ht _]. destruct (Ht eq_refl) as [H | H]; contradiction.
      * split; [exact H | apply Qle_refl].
  - (* not forced, the order *)
    destruct Hf as [Hf _]. destruct (Hf eq_refl) as [[H1 H2] [H3 H4]].
    split.
    + intros _. left. repeat split; assumption.
    + intros _. split; apply Qlt_le_weak; assumption.
Qed.

(** The claim of C6 as it is written fails for inputs the function takes
    but does not order: with both percentiles and the half elevation
    above the maximum elevation the forced thresholds (100) end up below
    [lowerDensity] (1000). *)
Lemma C6_counterexample :
  let T := peaksModeThresholds 1000 2000 1000 0 0 in
  ~ (lowerDensity T <= higherDensity T /\ higherDensity T <= solidDensity T).
Proof.
  vm_compute. intros [H _]. apply H. reflexivity.
Qed.

(** Terrain between 0 and 3000 ft, most of it around 1500 ft, seen from
    far above: the peaks-mode thresholds are 1500, 1950 and 2850 ft. *)
Lemma C6_witness :
  let s := statistics navigationDisplayConstants
             (histogramOf [(5%nat, 10); (20%nat, 80); (30%nat, 6); (34%nat, 4)]
                296 0)
             30000 0 (-500) in
  let P := peaksModeThresholds (lowerPercentileElevation s)
             (upperPercentileElevation s) (halfElevation s) (minElevation s)
             (maxElevation s) in
  lowerDensity P <= higherDensity P /\ higherDensity P <= solidDensity P.
Proof.
  apply (C6_peaks_mode_clamp 0 0 0 0 0
           (histogramOf [(5%nat, 10); (20%nat, 80); (30%nat, 6); (34%nat, 4)]
              296 0)
           30000 0 (-500)).
  vm_compute. discriminate.
Defined.

(** ** The metadata row of the colorizer *)

Lemma nth_map_seq {A : Type} (f : nat -> A) (d : A) (n i start : nat) :
  (i < n)%nat -> nth i (map f (seq start n)) d = f (start + i)%nat.
Proof.
  revert i start. induction n as [ | n IH]; intros i start Hi; [lia | ].
  destruct i as [ | i]; cbn.
  - f_equal. lia.
  - rewrite IH by lia. f_equal. lia.
Qed.

Lemma last_map_seq {A : Type} (f : nat -> A) (d : A) (n start : nat) :
  last (map f (seq start (S n))) d = f (start + n)%nat.
Proof.
  rewrite seq_S, map_app. cbn [map]. apply last_last.
Qed.

Section ColorizerFacts.

Variable drawHigh drawLow : Color -> Z -> Z -> number -> Color.
Variable drawWater : Color -> Z -> Z -> number -> number -> Color.

Let K := navigationDisplayConstants.
Let render := a32nxRenderNavigationDisplay K drawHigh drawLow drawWater.

Variable elevationGrid : Texture.
Variable histogram : list number.
Variables width height altitude verticalSpeed offset cutOffAltitude : number.

Let s := statistics K histogram altitude verticalSpeed cutOffAltitude.
Let T :=
  normalModeThresholds K (referenceAltitude s) (minElevation s) (flatEarth s)
    (lowerPercentileElevation s) (halfElevation s) offset.
Let P :=
  peaksModeThresholds (lowerPercentileElevation s) (upperPercentileElevation s)
    (halfElevation s) (minElevation s) (maxElevation s).

Lemma render_metadata (thread : Thread) :
  height <= inject_Z (thread_y thread) ->
  render thread elevationGrid histogram width height altitude verticalSpeed
    offset cutOffAltitude
  = if maxElevation s >=? referenceAltitude s - offset
    then channel (normalMetadata s T (thread_x thread)) (thread_x thread mod 4)
    else channel (peaksMetadata s P (thread_x thread)) (thread_x thread mod 4).
Proof.
  intros Hy. apply geb_spec in Hy.
  unfold render, a32nxRenderNavigationDisplay. fold K. fold s. cbv zeta.
  destruct (maxElevation s >=? referenceAltitude s - offset).
  - unfold a32nxRenderNormalMode, normalMetadata. subst T.
    unfold normalModeThresholds. fold K.
    destruct (a32nxCalculateNormalModeWarningThresholds K _ _ _) as [[? ?] ?].
    destruct (a32nxCalculateNormalModeGreenThresholds K _ _ _ _ _) as [? ?].
    rewrite Hy. reflexivity.
  - unfold a32nxRenderPeaksMode, peaksMetadata. subst P.
    unfold peaksModeThresholds.
    destruct (a32nxCalculatePeaksModeThresholds _ _ _ _ _) as [[? ?] ?].
    rewrite Hy. reflexivity.
Qed.

End ColorizerFacts.

Lemma referenceAltitude_value (histogram : list number)
    (altitude verticalSpeed cutOffAltitude : number) :
  referenceAltitude
    (statistics navigationDisplayConstants histogram altitude verticalSpeed
       cutOffAltitude)
  = altitude + (if verticalSpeed <=? -1000 then verticalSpeed * 0.5 else 0).
Proof. reflexivity. Qed.

(** The statistics of the histogram do not depend on the aircraft. *)
Lemma maxElevation_aircraft (histogram : list number)
    (altitude verticalSpeed altitude' verticalSpeed' cutOffAltitude : number) :
  maxElevation
    (statistics navigationDisplayConstants histogram altitude verticalSpeed
       cutOffAltitude)
  = maxElevation
      (statistics navigationDisplayConstants histogram altitude' verticalSpeed'
         cutOffAltitude).
Proof. reflexivity. Qed.

(** The colorizer draws every thread with the function of the mode. *)
Lemma render_mode
    (drawHigh drawLow : Color -> Z -> Z -> number -> Color)
    (drawWater : Color -> Z -> Z -> number -> number -> Color)
    (elevationGrid : Texture) (histogram : list number)
    (width' height' altitude' verticalSpeed' offset cutOffAltitude : number)
    (x y : Z) :
  let K := navigationDisplayConstants in
  let s := statistics K histogram altitude' verticalSpeed' cutOffAltitude in
  let pixelElevation :=
    if inject_Z y <? height' then elevationGrid y (x / 4)%Z else 0 in
  a32nxRenderNavigationDisplay K drawHigh drawLow drawWater
    {| thread_x := x; thread_y := y |} elevationGrid histogram width' height'
    altitude' verticalSpeed' offset cutOffAltitude
  = if maxElevation s >=? referenceAltitude s - offset
    then channel
           (a32nxRenderNormalMode K drawHigh drawLow drawWater
              {| thread_x := x; thread_y := y |} pixelElevation (x / 4)%Z y
              height' (width' / 2) (referenceAltitude s) (minElevation s)
              (maxElevation s) (flatEarth s) offset
              (lowerPercentileElevation s) (halfElevation s) cutOffAltitude)
           (x mod 4)
    else channel
           (a32nxRenderPeaksMode K drawHigh drawLow drawWater
              {| thread_x := x; thread_y := y |} pixelElevation (x / 4)%Z y
              height' (width' / 2) (lowerPercentileElevation s)
              (upperPercentileElevation s) (halfElevation s) (minElevation s)
              (maxElevation s))
           (x mod 4).
Proof.
  intros K s pixelElevation. subst pixelElevation.
  unfold a32nxRenderNavigationDisplay. fold K. fold s. cbv zeta.
  cbn [thread_x thread_y]. reflexivity.
Qed.

(** In the normal mode terrain from [highDensityRed] on is drawn in
    high-density red, in the peaks mode terrain from [solidDensity] on in
    solid green. *)
Lemma normalMode_red
    (drawHigh drawLow : Color -> Z -> Z -> number -> Color)
    (drawWater : Color -> Z -> Z -> number -> number -> Color)
    (thread : Thread) (pixelX pixelY : Z)
    (elevation height' centre ref m M fe off lp half cutOff : number) :
  inject_Z (thread_y thread) < height' ->
  ~ elevation == InvalidElevation -> ~ elevation == UnknownElevation ->
  ~ elevation == WaterElevation ->
  cutOff <= elevation -> ref + 2000 <= elevation ->
  a32nxRenderNormalMode navigationDisplayConstants drawHigh drawLow drawWater
    thread elevation pixelX pixelY height' centre ref m M fe off lp half cutOff
  = drawHigh (255, 0, 0, 255) pixelX pixelY centre.
Proof.
  intros Hrow Hinvalid Hunknown Hwater Hcut Hred.
  unfold a32nxRenderNormalMode.
  rewrite warningThresholds_value.
  destruct (a32nxCalculateNormalModeGreenThresholds _ _ _ _ _ _) as [ldg hdg].
  cbn [invalidElevation unknownElevation waterElevation
       navigationDisplayConstants].
  apply geb_false in Hrow. rewrite Hrow.
  apply eqb_false in Hinvalid, Hunknown, Hwater.
  rewrite Hinvalid, Hunknown, Hwater. cbn [negb andb].
  apply geb_spec in Hcut. rewrite Hcut.
  apply geb_spec in Hred. rewrite Hred. reflexivity.
Qed.

Lemma peaksMode_solid
    (drawHigh drawLow : Color -> Z -> Z -> number -> Color)
    (drawWater : Color -> Z -> Z -> number -> number -> Color)
    (thread : Thread) (pixelX pixelY : Z)
    (elevation height' centre lp up half m M : number) :
  inject_Z (thread_y thread) < height' ->
  ~ elevation == InvalidElevation -> ~ elevation == UnknownElevation ->
  ~ elevation == WaterElevation ->
  solidDensity (peaksModeThresholds lp up half m M) <= elevation ->
  a32nxRenderPeaksMode navigationDisplayConstants drawHigh drawLow drawWater
    thread elevation pixelX pixelY height' centre lp up half m M
  = (0, 255, 0, 255).
Proof.
  intros Hrow Hinvalid Hunknown Hwater Hsolid.
  unfold a32nxRenderPeaksMode. unfold peaksModeThresholds in Hsolid.
  destruct (a32nxCalculatePeaksModeThresholds _ _ _ _ _) as [[ld hd] sd].
  cbn [solidDensity] in Hsolid.
  cbn [invalidElevation unknownElevation waterElevation
       navigationDisplayConstants].
  apply geb_false in Hrow. rewrite Hrow.
  apply eqb_false in Hinvalid, Hunknown, Hwater.
  rewrite Hinvalid, Hunknown, Hwater. cbn [negb andb].
  apply leb_spec in Hsolid. rewrite Hsolid. reflexivity.
Qed.

(** C1.  The colorizer takes the reference altitude 30 seconds ahead
    when the aircraft descends with 1000 ft/min or more, and the altitude
    itself otherwise.  It renders in the normal mode if and only if
    [maxElevation >= referenceAltitude - gearDownAltitudeOffset], and in
    the peaks mode otherwise: every number of the output, map pixel or
    metadata, is then the channel of what [a32nxRenderNormalMode], and
    otherwise [a32nxRenderPeaksMode], gives for the pixel; a map pixel with
    terrain from [referenceAltitude + 2000] on, not below the cut-off
    altitude, is high-density red in the normal mode, and one with
    terrain from [solidDensity] on is solid green in the peaks mode; the
    rendering mode in the metadata row is 0 in the normal mode and 1 in
    the peaks mode.  With the altitude offset the map handler computes
    (250 with the gear down, 500 otherwise), at 10000 ft with -1500 ft/min
    over terrain up to 9500 ft the reference altitude is 9250, the normal
    mode is selected and [highDensityRed] is 11250. *)
Theorem C1_mode_selection
    (drawHigh drawLow : Color -> Z -> Z -> number -> Color)
    (drawWater : Color -> Z -> Z -> number -> number -> Color)
    (elevationGrid : Texture) (histogram : list number)
    (width' height' altitude' verticalSpeed' offset cutOffAltitude : number) :
  let K := navigationDisplayConstants in
  let s := statistics K histogram altitude' verticalSpeed' cutOffAltitude in
  let P :=
    peaksModeThresholds (lowerPercentileElevation s)
      (upperPercentileElevation s) (halfElevation s) (minElevation s)
      (maxElevation s) in
  let output (x y : Z) :=
    a32nxRenderNavigationDisplay K drawHigh drawLow drawWater
      {| thread_x := x; thread_y := y |} elevationGrid histogram width'
      height' altitude' verticalSpeed' offset cutOffAltitude in
  let pixelElevation (x y : Z) :=
    if inject_Z y <? height' then elevationGrid y (x / 4)%Z else 0 in
  let normalMode (x y : Z) :=
    a32nxRenderNormalMode K drawHigh drawLow drawWater
      {| thread_x := x; thread_y := y |} (pixelElevation x y) (x / 4)%Z y
      height' (width' / 2) (referenceAltitude s) (minElevation s)
      (maxElevation s) (flatEarth s) offset (lowerPercentileElevation s)
      (halfElevation s) cutOffAltitude in
  let peaksMode (x y : Z) :=
    a32nxRenderPeaksMode K drawHigh drawLow drawWater
      {| thread_x := x; thread_y := y |} (pixelElevation x y) (x / 4)%Z y
      height' (width' / 2) (lowerPercentileElevation s)
      (upperPercentileElevation s) (halfElevation s) (minElevation s)
      (maxElevation s) in
  let terrain (x y : Z) :=
    inject_Z y < height'
    /\ ~ elevationGrid y (x / 4)%Z == InvalidElevation
    /\ ~ elevationGrid y (x / 4)%Z == UnknownElevation
    /\ ~ elevationGrid y (x / 4)%Z == WaterElevation in
  ((verticalSpeed' <= -1000 ->
    referenceAltitude s == altitude' + verticalSpeed' * 0.5)
   /\ (-1000 < verticalSpeed' -> referenceAltitude s == altitude'))
  /\ (referenceAltitude s - offset <= maxElevation s ->
      (forall x y, output x y = channel (normalMode x y) (x mod 4))
      /\ (forall x y,
            terrain x y ->
            cutOffAltitude <= elevationGrid y (x / 4)%Z ->
            referenceAltitude s + 2000 <= elevationGrid y (x / 4)%Z ->
            output x y
            = channel (drawHigh (255, 0, 0, 255) (x / 4)%Z y (width' / 2))
                (x mod 4)))
  /\ (maxElevation s < referenceAltitude s - offset ->
      (forall x y, output x y = channel (peaksMode x y) (x mod 4))
      /\ (forall x y,
            terrain x y ->
            solidDensity P <= elevationGrid y (x / 4)%Z ->
            output x y = channel (0, 255, 0, 255) (x mod 4)))
  /\ (forall y,
        height' <= inject_Z y ->
        (output 0%Z y == 0 <-> referenceAltitude s - offset <= maxElevation s)
        /\ (output 0%Z y == 1
            <-> maxElevation s < referenceAltitude s - offset)
        /\ (output 0%Z y == 0 -> output 3%Z y == referenceAltitude s + 2000))
  /\ (forall status : AircraftStatus,
        offset = gearDownAltitudeOffset status ->
        altitude' == 10000 -> verticalSpeed' == -1500 ->
        maxElevation s == 9500 ->
        referenceAltitude s == 9250
        /\ (forall x y, output x y = channel (normalMode x y) (x mod 4))
        /\ (forall y,
              height' <= inject_Z y ->
              output 0%Z y == 0 /\ output 3%Z y == 11250)).
Proof.
  intros K s P output pixelElevation normalMode peaksMode terrain.
  assert (Hmode : forall x y, output x y =
    if maxElevation s >=? referenceAltitude s - offset
    then channel (normalMode x y) (x mod 4)
    else channel (peaksMode x y) (x mod 4)).
  { intros x y.
    pose proof (render_mode drawHigh drawLow drawWater elevationGrid histogram
                  width' height' altitude' verticalSpeed' offset cutOffAltitude
                  x y) as H.
    cbv zeta in H. exact H. }
  assert (Hout : forall x y, height' <= inject_Z y -> output x y =
    if maxElevation s >=? referenceAltitude s - offset
    then channel
           (normalMetadata s
              (normalModeThresholds navigationDisplayConstants
                 (referenceAltitude s) (minElevation s) (flatEarth s)
                 (lowerPercentileElevation s) (halfElevation s) offset) x)
           (x mod 4)
    else channel
           (peaksMetadata s
              (peaksModeThresholds (lowerPercentileElevation s)
                 (upperPercentileElevation s) (halfElevation s)
                 (minElevation s) (maxElevation s)) x) (x mod 4)).
  { intros x y Hy. subst output s. cbv beta.
    rewrite render_metadata by exact Hy. reflexivity. }
  assert (Href : referenceAltitude s
                 = altitude' + (if verticalSpeed' <=? -1000
                                then verticalSpeed' * 0.5 else 0))
    by apply referenceAltitude_value.
  assert (Hflag : forall y,
            height' <= inject_Z y ->
            (output 0%Z y == 0
             <-> referenceAltitude s - offset <= maxElevation s)
            /\ (output 0%Z y == 1
                <-> maxElevation s < referenceAltitude s - offset)
            /\ (output 0%Z y == 0 ->
                output 3%Z y == referenceAltitude s + 2000)).
  { intros y Hy. rewrite !(Hout _ y Hy).
    unfold normalMetadata, peaksMetadata.
    change (0 <? 4)%Z with true. change (3 <? 4)%Z with true.
    change (0 mod 4)%Z with 0%Z. change (3 mod 4)%Z with 3%Z. cbn [channel].
    rewrite normalMode_highDensityRed.
    destruct (maxElevation s >=? referenceAltitude s - offset) eqn:E;
      [apply geb_spec in E | apply geb_false in E]; cbn [channel];
      repeat split; intros; try reflexivity; try assumption; lra. }
  assert (Hnormal : referenceAltitude s - offset <= maxElevation s ->
            forall x y, output x y = channel (normalMode x y) (x mod 4)).
  { intros H x y. rewrite Hmode. apply geb_spec in H. rewrite H.
    reflexivity. }
  split; [rewrite Href; split; intros; js_cases; lra | ].
  split; [ | split; [ | split; [exact Hflag | ]]].
  - intros H. split; [exact (Hnormal H) | ].
    intros x y (Hrow & Hinvalid & Hunknown & Hwater) Hcut Hred.
    rewrite (Hnormal H). f_equal. subst normalMode pixelElevation. cbv beta.
    assert (Hy : (inject_Z y <? height') = true) by (apply ltb_spec; exact Hrow).
    rewrite Hy.
    apply normalMode_red; assumption.
  - intros H.
    assert (Hpeaks : forall x y,
              output x y = channel (peaksMode x y) (x mod 4)).
    { intros x y. rewrite Hmode. apply geb_false in H. rewrite H.
      reflexivity. }
    split; [exact Hpeaks | ].
    intros x y (Hrow & Hinvalid & Hunknown & Hwater) Hsolid.
    rewrite Hpeaks. f_equal. subst peaksMode pixelElevation. cbv beta.
    assert (Hy : (inject_Z y <? height') = true) by (apply ltb_spec; exact Hrow).
    rewrite Hy.
    apply peaksMode_solid; assumption.
  - intros status Hoffset Ha Hv Hm.
    assert (Hgear : offset == 250 \/ offset == 500).
    { rewrite Hoffset. unfold gearDownAltitudeOffset.
      destruct (gearIsDown status); [left | right]; reflexivity. }
    assert (Hvs : (verticalSpeed' <=? -1000) = true) by (apply leb_spec; lra).
    assert (Hr : referenceAltitude s == 9250).
    { rewrite Href, Hvs. lra. }
    assert (Hsel : referenceAltitude s - offset <= maxElevation s)
      by (destruct Hgear; lra).
    split; [exact Hr | ]. split; [exact (Hnormal Hsel) | ].
    intros y Hy. destruct (Hflag y Hy) as (H0 & _ & H3).
    split; [apply H0; exact Hsel | ].
    rewrite (H3 (proj2 H0 Hsel)). lra.
Qed.

Lemma C1_witness :
  let K := navigationDisplayConstants in
  let histogram := histogramOf [(20%nat, 40); (99%nat, 2)] 296 0 in
  let draw := fun (c : Color) (_ _ : Z) (_ : number) => c in
  let water := fun (c : Color) (_ _ : Z) (_ _ : number) => c in
  let status := sampleStatus 10000 false 0 0 in
  let s := statistics K histogram 10000 (-1500) (-500) in
  let output x :=
    a32nxRenderNavigationDisplay K draw draw water
      {| thread_x := x; thread_y := 492 |} (fun _ _ => 1500) histogram
      756 492 10000 (-1500) (gearDownAltitudeOffset status) (-500) in
  referenceAltitude s == 9250 /\ output 0%Z == 0 /\ output 3%Z == 11250.
Proof.
  intros K histogram draw water status s output.
  destruct (C1_mode_selection draw draw water (fun _ _ => 1500) histogram
              756 492 10000 (-1500) (gearDownAltitudeOffset status) (-500))
    as (_ & _ & _ & _ & Hscenario).
  destruct (Hscenario status) as (Href & _ & Hrow).
  - reflexivity.
  - reflexivity.
  - reflexivity.
  - vm_compute. reflexivity.
  - split; [exact Href | ]. apply (Hrow 492%Z). vm_compute. discriminate.
Defined.

(** ** From the metadata row to the frame metadata *)

Section MetadataFacts.

Variable drawHigh drawLow : Color -> Z -> Z -> number -> Color.
Variable drawWater : Color -> Z -> Z -> number -> number -> Color.
Variable elevationMap : Texture.
Variable histogram : list number.
Variable config' : NavigationDisplay.
Variable status : AircraftStatus.
Variable cutOffAltitude : number.

Let K := navigationDisplayConstants.
Let frame :=
  finalMap drawHigh drawLow drawWater elevationMap histogram config' status
    cutOffAltitude.
Let s :=
  statistics K histogram (altitude status) (verticalSpeed status) cutOffAltitude.
Let offset := gearDownAltitudeOffset status.
Let T :=
  normalModeThresholds K (referenceAltitude s) (minElevation s) (flatEarth s)
    (lowerPercentileElevation s) (halfElevation s) offset.
Let P :=
  peaksModeThresholds (lowerPercentileElevation s) (upperPercentileElevation s)
    (halfElevation s) (minElevation s) (maxElevation s).

Hypothesis height_fits : mapHeight config' <= inject_Z RenderingMaxPixelHeight.

(** The row the handler splits off is the row of the threads with
    [y = RenderingMaxPixelHeight], which lies at or below the map. *)
Lemma metadataAt_finalMap (i : nat) :
  (i < 3072)%nat ->
  metadataAt (metadataOf frame) i
  = if maxElevation s >=? referenceAltitude s - offset
    then channel (normalMetadata s T (Z.of_nat i)) (Z.of_nat i mod 4)
    else channel (peaksMetadata s P (Z.of_nat i)) (Z.of_nat i mod 4).
Proof.
  intros Hi. unfold metadataAt, metadataOf. subst frame. unfold finalMap.
  change (Z.to_nat (RenderingMaxPixelHeight + 1)) with (S 492).
  change (Z.to_nat (RenderingMaxPixelWidth * RenderingColorChannelCount))
    with 3072%nat.
  rewrite last_map_seq, nth_map_seq by exact Hi.
  cbn [Nat.add]. rewrite render_metadata; [reflexivity | ].
  exact height_fits.
Qed.

Lemma analyzeMetadata_normal (newData : NavigationDisplayData) :
  (maxElevation s >=? referenceAltitude s - offset) = true ->
  analyzeMetadata newData (metadataOf frame) cutOffAltitude
  = setElevations newData
      (if cutOffAltitude >? lowDensityGreen T
       then cutOffAltitude else lowDensityGreen T)
      (if lowDensityYellow T <=? highDensityGreen T then Warning else PeaksMode)
      (maxElevation s)
      (if maxElevation s >=? highDensityRed T then Caution else Warning).
Proof.
  intros Hmode. unfold analyzeMetadata.
  rewrite !metadataAt_finalMap by lia. rewrite Hmode. reflexivity.
Qed.

Lemma analyzeMetadata_peaks (newData : NavigationDisplayData) :
  (maxElevation s >=? referenceAltitude s - offset) = false ->
  analyzeMetadata newData (metadataOf frame) cutOffAltitude
  = if maxElevation s <? 0
    then setElevations newData (-1) PeaksMode 0 PeaksMode
    else setElevations newData
           (if lowerDensity P >? minElevation s
            then lowerDensity P else minElevation s)
           PeaksMode (maxElevation s) PeaksMode.
Proof.
  intros Hmode. unfold analyzeMetadata.
  rewrite !metadataAt_finalMap by lia. rewrite Hmode. reflexivity.
Qed.

End MetadataFacts.

(** C8.  On the metadata row of a colorizer output, [analyzeMetadata]
    reports in the normal mode [MinimumElevation = max(cutOffAltitude,
    lowDensityGreen)], the minimum mode [Warning] if [lowDensityYellow <=
    highDensityGreen] and [PeaksMode] otherwise, [MaximumElevation =
    maxElevation], and the maximum mode [Caution] if [maxElevation >=
    highDensityRed] and [Warning] otherwise; in the peaks mode it reports
    -1 and 0 when [maxElevation < 0], and [max(lowerDensity,
    minElevation)] and [maxElevation] otherwise, with both modes
    [PeaksMode]. *)
Theorem C8_metadata_mapping
    (drawHigh drawLow : Color -> Z -> Z -> number -> Color)
    (drawWater : Color -> Z -> Z -> number -> number -> Color)
    (newData : NavigationDisplayData)
    (elevationMap : Texture) (histogram : list number)
    (config' : NavigationDisplay) (status : AircraftStatus)
    (cutOffAltitude : number) :
  mapHeight config' <= inject_Z RenderingMaxPixelHeight ->
  let s := statistics navigationDisplayConstants histogram (altitude status)
             (verticalSpeed status) cutOffAltitude in
  let offset := gearDownAltitudeOffset status in
  let T := normalModeThresholds navigationDisplayConstants
             (referenceAltitude s) (minElevation s) (flatEarth s)
             (lowerPercentileElevation s) (halfElevation s) offset in
  let P := peaksModeThresholds (lowerPercentileElevation s)
             (upperPercentileElevation s) (halfElevation s) (minElevation s)
             (maxElevation s) in
  let data :=
    analyzeMetadata newData
      (metadataOf (finalMap drawHigh drawLow drawWater elevationMap histogram
                     config' status cutOffAltitude))
      cutOffAltitude in
  (referenceAltitude s - offset <= maxElevation s ->
   MinimumElevation data == Qmax cutOffAltitude (lowDensityGreen T)
   /\ (lowDensityYellow T <= highDensityGreen T ->
       MinimumElevationMode data = Warning)
   /\ (highDensityGreen T < lowDensityYellow T ->
       MinimumElevationMode data = PeaksMode)
   /\ MaximumElevation data == maxElevation s
   /\ (highDensityRed T <= maxElevation s -> MaximumElevationMode data = Caution)
   /\ (maxElevation s < highDensityRed T -> MaximumElevationMode data = Warning))
  /\ (maxElevation s < referenceAltitude s - offset ->
      (maxElevation s < 0 ->
       MinimumElevation data == -1 /\ MaximumElevation data == 0)
      /\ (0 <= maxElevation s ->
          MinimumElevation data == Qmax (lowerDensity P) (minElevation s)
          /\ MaximumElevation data == maxElevation s)
      /\ MinimumElevationMode data = PeaksMode
      /\ MaximumElevationMode data = PeaksMode).
Proof.
  intros Hfit s offset T P data. split.
  - intros Hmode. apply geb_spec in Hmode.
    subst data. rewrite analyzeMetadata_normal by assumption.
    fold s. fold offset. fold T. clear Hmode.
    generalize (lowDensityGreen T) (lowDensityYellow T) (highDensityGreen T)
      (highDensityRed T) (maxElevation s).
    intros ldg ldy hdg hdr maxElev. unfold setElevations.
    cbn [MinimumElevation MinimumElevationMode MaximumElevation
         MaximumElevationMode].
    repeat split; intros; js_cases; minmax_cases;
      try reflexivity; try lra.
  - intros Hmode. apply geb_false in Hmode.
    subst data. rewrite analyzeMetadata_peaks by assumption.
    fold s. fold P. clear Hmode.
    generalize (lowerDensity P) (minElevation s) (maxElevation s).
    intros ld minElev maxElev. unfold setElevations.
    repeat split; intros; js_cases;
      cbn [MinimumElevation MinimumElevationMode MaximumElevation
           MaximumElevationMode];
      minmax_cases; try reflexivity; try lra.
Qed.

Lemma C8_witness :
  let K := navigationDisplayConstants in
  let draw := fun (c : Color) (_ _ : Z) (_ : number) => c in
  let water := fun (c : Color) (_ _ : Z) (_ _ : number) => c in
  let histogram := histogramOf [(20%nat, 40); (99%nat, 2)] 296 0 in
  let display :=
    {| range := 10; arcMode := true; active := true; efisMode := 0;
       mapOffsetX := 6; mapWidth := 756; mapHeight := 492 |} in
  let status :=
    {| adiruDataValid := true; latitude := 47.26; longitude := 11.35;
       altitude := 10000; heading := 260; verticalSpeed := -1500;
       gearIsDown := true; destinationDataValid := false;
       destinationLatitude := 0; destinationLongitude := 0;
       navigationDisplayCapt := display; navigationDisplayFO := display;
       navigationDisplayRenderingMode := ArcMode |} in
  let newData :=
    {| MinimumElevation := 0; MinimumElevationMode := PeaksMode;
       MaximumElevation := 0; MaximumElevationMode := PeaksMode;
       FirstFrame := false; DisplayRange := 0; DisplayMode := 0;
       FrameByteCount := 0 |} in
  let data :=
    analyzeMetadata newData
      (metadataOf (finalMap draw draw water (fun _ _ => 1500) histogram
                     display status (-500)))
      (-500) in
  MinimumElevation data == 7250 /\ MinimumElevationMode data = PeaksMode
  /\ MaximumElevation data == 9500 /\ MaximumElevationMode data = Warning.
Proof.
  intros K draw water histogram display status newData data.
  destruct (C8_metadata_mapping draw draw water newData (fun _ _ => 1500)
              histogram display status (-500)) as [Hnormal _].
  - vm_compute. discriminate.
  - destruct Hnormal as (Hmin & _ & Hminmode & Hmax & _ & Hmaxmode).
    + vm_compute. discriminate.
    + split; [ | split; [ | split]].
      * apply (Qeq_trans _ _ _ Hmin). vm_compute. reflexivity.
      * apply Hminmode. vm_compute. reflexivity.
      * apply (Qeq_trans _ _ _ Hmax). vm_compute. reflexivity.
      * apply Hmaxmode. vm_compute. reflexivity.
Defined.

(** ** Reading the cached elevation grid *)

Lemma get_in_range (a : list number) (i : Z) :
  (0 <= i < Z.of_nat (List.length a))%Z ->
  Js.get a i = Js.Num (nth (Z.to_nat i) a 0).
Proof.
  intros [Hlo Hhi]. unfold Js.get.
  destruct (Z.ltb_spec i 0) as [H | _]; [lia | ].
  destruct (nth_error a (Z.to_nat i)) as [q | ] eqn:E.
  - f_equal. symmetry. apply nth_error_nth. exact E.
  - apply nth_error_None in E. lia.
Qed.

Lemma get_negative (a : list number) (i : Z) :
  (i < 0)%Z -> Js.get a i = Js.Undefined.
Proof.
  intros H. unfold Js.get.
  destruct (Z.ltb_spec i 0) as [_ | H']; [reflexivity | lia].
Qed.

Section ExtractElevation.

Variable this : MapHandler.
Variables lat lon : number.

(** The floored linear index of the query. *)
Let index (status : AircraftStatus) : Z :=
  let meta := worldMapMetadata this in
  let latStep := latitudeStep (worldmap_GridData this) / minHeightPerTile meta in
  let longStep := longitudeStep (worldmap_GridData this) / minWidthPerTile meta in
  Js.floor ((currentGridPosition_y meta + (latitude status - lat) / latStep)
              * width meta
            + (currentGridPosition_x meta + (lon - longitude status) / longStep)).

Lemma extractElevation_null :
  cpuData (cachedElevationData this) = None ->
  extractElevation this lat lon = Some (Js.Num InvalidElevation).
Proof. intros H. unfold extractElevation. rewrite H. reflexivity. Qed.

Lemma extractElevation_empty :
  cpuData (cachedElevationData this) = Some [] ->
  extractElevation this lat lon = Some (Js.Num InvalidElevation).
Proof. intros H. unfold extractElevation. rewrite H. reflexivity. Qed.

Lemma extractElevation_index (data : list number) (status : AircraftStatus) :
  cpuData (cachedElevationData this) = Some data ->
  data <> [] ->
  aircraftStatus this = Some status ->
  extractElevation this lat lon
  = Some (if (index status >=? Z.of_nat (List.length data))%Z
          then Js.Num UnknownElevation
          else Js.get data (index status)).
Proof.
  intros Hdata Hne Hstatus. unfold extractElevation.
  rewrite Hdata, Hstatus.
  destruct data as [ | q data]; [congruence | ].
  cbn [List.length]. rewrite Nat2Z.inj_succ.
  destruct (Z.eqb_spec (Z.succ (Z.of_nat (List.length data))) 0) as [H | _];
    [lia | ].
  fold (index status).
  destruct (index status >=? Z.succ (Z.of_nat (List.length data)))%Z;
    reflexivity.
Qed.

(** What the claim of C9 asks for holds at and above the end of the
    grid, and the sample is returned inside the grid. *)
Lemma extractElevation_beyond (data : list number) (status : AircraftStatus) :
  cpuData (cachedElevationData this) = Some data ->
  data <> [] ->
  aircraftStatus this = Some status ->
  (Z.of_nat (List.length data) <= index status)%Z ->
  extractElevation this lat lon = Some (Js.Num UnknownElevation).
Proof.
  intros Hdata Hne Hstatus Hi.
  rewrite (extractElevation_index data status) by assumption.
  destruct (Z.geb_spec (index status) (Z.of_nat (List.length data)));
    [reflexivity | lia].
Qed.

Lemma extractElevation_inside (data : list number) (status : AircraftStatus) :
  cpuData (cachedElevationData this) = Some data ->
  aircraftStatus this = Some status ->
  (0 <= index status < Z.of_nat (List.length data))%Z ->
  extractElevation this lat lon
  = Some (Js.Num (nth (Z.to_nat (index status)) data 0)).
Proof.
  intros Hdata Hstatus Hi.
  rewrite (extractElevation_index data status); try assumption.
  - destruct (Z.geb_spec (index status) (Z.of_nat (List.length data)));
      [lia | ].
    rewrite get_in_range by exact Hi. reflexivity.
  - intros ->. cbn in Hi. lia.
Qed.

(** Before the start of the grid the read of the typed array yields
    [undefined]. *)
Lemma extractElevation_before (data : list number) (status : AircraftStatus) :
  cpuData (cachedElevationData this) = Some data ->
  data <> [] ->
  aircraftStatus this = Some status ->
  (index status < 0)%Z ->
  extractElevation this lat lon = Some Js.Undefined.
Proof.
  intros Hdata Hne Hstatus Hi.
  rewrite (extractElevation_index data status) by assumption.
  destruct (Z.geb_spec (index status) (Z.of_nat (List.length data)));
    [lia | ].
  rewrite get_negative by exact Hi. reflexivity.
Qed.

End ExtractElevation.

(** C9 (the code misses a case).  For a destination north of the cached
    grid the floored index is negative: it lies outside the grid, the
    claim asks for [UNKNOWN], and [extractElevation] returns
    [undefined].  Here the grid holds 2 x 2 samples around 47.5 N 11.5 E
    and the query is 49 N 11.5 E, index -3. *)
Theorem C9_negative_index_is_undefined :
  extractElevation
    (sampleHandler (Some (sampleStatus 1904 true 49 11.5))
       (Some [1900; 2000; 2100; 2200]))
    49 11.5
  = Some Js.Undefined
  /\ extractElevation
       (sampleHandler (Some (sampleStatus 1904 true 49 11.5))
          (Some [1900; 2000; 2100; 2200]))
       49 11.5
     <> Some (Js.Num UnknownElevation).
Proof. split; [vm_compute; reflexivity | vm_compute; discriminate]. Qed.

Example extractElevation_south :
  extractElevation
    (sampleHandler (Some (sampleStatus 1904 true 46 11.5))
       (Some [1900; 2000; 2100; 2200]))
    46 11.5
  = Some (Js.Num UnknownElevation).
Proof. reflexivity. Qed.

Example extractElevation_here :
  extractElevation
    (sampleHandler (Some (sampleStatus 1904 true 47.5 11.5))
       (Some [1900; 2000; 2100; 2200]))
    47.5 11.5
  = Some (Js.Num 2200).
Proof. reflexivity. Qed.

(** ** The cut-off altitude *)

Lemma Rltb_true a b : (a < b)%R -> Rltb a b = true.
Proof. intros H. unfold Rltb. destruct (Rlt_dec a b); [reflexivity | tauto]. Qed.

Lemma Rltb_false a b : (b <= a)%R -> Rltb a b = false.
Proof. intros H. unfold Rltb. destruct (Rlt_dec a b); [exfalso; rlra | reflexivity]. Qed.


Lemma Rgtb_false a b : (a <= b)%R -> Rgtb a b = false.
Proof. intros H. unfold Rgtb. destruct (Rgt_dec a b); [exfalso; rlra | reflexivity]. Qed.

Lemma Reqb_true a b : a = b -> Reqb a b = true.
Proof. intros H. unfold Reqb. destruct (Req_dec_T a b); [reflexivity | tauto]. Qed.

Lemma Reqb_false a b : a <> b -> Reqb a b = false.
Proof. intros H. unfold Reqb. destruct (Req_dec_T a b); [tauto | reflexivity]. Qed.

Lemma atan_pos x : (0 < x)%R -> (0 < atan x)%R.
Proof. intros H. rewrite <- atan_0. apply atan_increasing, H. Qed.

Lemma atan_neg x : (x < 0)%R -> (atan x < 0)%R.
Proof. intros H. rewrite <- atan_0. apply atan_increasing, H. Qed.

(** Three degrees, as the handler writes them: the sine of 0.0523599 is
    above 1/20, and so is its tangent. *)
Lemma sin_three_degrees : (1 / 20 < sin 0.0523599)%R.
Proof.
  assert (H0 : (0 <= 0.0523599)%R) by rlra.
  assert (HPI : (0.0523599 <= PI)%R) by (pose proof PI2_1; rlra).
  destruct (SIN 0.0523599 H0 HPI) as [Hlb _].
  eapply Rlt_le_trans; [ | exact Hlb].
  unfold sin_lb, sin_approx, sin_term.
  cbn [sum_f_R0 Nat.mul Nat.add pow].
  change (INR (fact 1)) with 1%R.
  replace (INR (fact 3)) with 6%R by (cbn; rlra).
  replace (INR (fact 5)) with 120%R by (rewrite INR_IZR_INZ; reflexivity).
  replace (INR (fact 7)) with 5040%R by (rewrite INR_IZR_INZ; reflexivity).
  rlra.
Qed.

Lemma tan_three_degrees : (1 / 20 < tan 0.0523599)%R.
Proof.
  assert (Hc : (0 < cos 0.0523599)%R).
  { apply cos_gt_0; pose proof PI2_1; rlra. }
  pose proof (COS_bound 0.0523599) as [_ Hc1].
  pose proof sin_three_degrees as Hs.
  unfold tan.
  apply Rlt_le_trans with (sin 0.0523599); [exact Hs | ].
  rewrite <- (Rmult_1_r (sin 0.0523599)) at 1.
  unfold Rdiv. apply Rmult_le_compat_l; [rlra | ].
  rewrite <- Rinv_1. apply Rinv_le_contravar; rlra.
Qed.

(** A slope of at most 1/20 is a glide of less than three degrees. *)
Lemma atan_small (x : R) :
  (0 < x <= 1 / 20)%R -> (0 < atan x < 0.0523599)%R.
Proof.
  intros [H0 H1]. split.
  - apply atan_pos, H0.
  - rewrite <- (atan_tan 0.0523599) by (pose proof PI2_1; rlra).
    apply atan_increasing. pose proof tan_three_degrees. rlra.
Qed.

Lemma Q2R_small (q : Q) :
  0 < q -> q <= 1 # 20 -> (0 < Q2R q <= 1 / 20)%R.
Proof.
  intros H0 H1. split.
  - rewrite <- RMicromega.Q2R_0. apply Qlt_Rlt, H0.
  - replace (1 / 20)%R with (Q2R (1 # 20)) by (unfold Q2R; cbn; rlra).
    apply Qle_Rle, H1.
Qed.

(** The glide angle of the handler: the arc tangent of the height above
    the destination over the distance when the aircraft is above the
    destination and away from it, and 0 otherwise. *)
Lemma glideRadian_above (altitude' elevation d : number) :
  elevation < altitude' -> 0 < d ->
  glideRadian (Some (altitude' - elevation)) d
  = atan (Q2R ((altitude' - elevation) / (d * FeetPerNauticalMile))).
Proof.
  intros Ha Hd. unfold glideRadian.
  assert (H1 : (altitude' - elevation >? 0) = true) by (apply gtb_spec; lra).
  assert (H2 : (d >? 0) = true) by (apply gtb_spec; exact Hd).
  rewrite H1, H2. reflexivity.
Qed.

Lemma glideRadian_not_above (altitude' elevation d : number) :
  altitude' <= elevation \/ d <= 0 ->
  glideRadian (Some (altitude' - elevation)) d = 0%R.
Proof.
  intros H. unfold glideRadian.
  destruct H as [H | H].
  - assert (H1 : (altitude' - elevation >? 0) = false) by (apply gtb_false; lra).
    rewrite H1. reflexivity.
  - assert (H2 : (d >? 0) = false) by (apply gtb_false; exact H).
    rewrite H2, andb_false_r. reflexivity.
Qed.

Lemma glideRadian_nonneg (opposite : option number) (d : number) :
  (0 <= glideRadian opposite d)%R.
Proof.
  unfold glideRadian. destruct opposite as [o | ]; [ | rlra].
  destruct (o >? 0) eqn:Ho; [ | cbn; rlra].
  destruct (d >? 0) eqn:Hd; [ | cbn; rlra].
  cbn. apply gtb_spec in Ho, Hd. left. apply atan_pos.
  rewrite <- RMicromega.Q2R_0. apply Qlt_Rlt.
  apply Qlt_shift_div_l.
  - unfold FeetPerNauticalMile. lra.
  - lra.
Qed.

(** Before the first aircraft status the cut-off altitude is the lowest
    elevation of the histogram. *)
Lemma cutOff_no_status
    (distanceWgs84 : number -> number -> number -> number -> number)
    (this : MapHandler) :
  aircraftStatus this = None ->
  calculateAbsoluteCutOffAltitude distanceWgs84 this
  = Some HistogramMinimumElevation.
Proof.
  intros H. unfold calculateAbsoluteCutOffAltitude. rewrite H. reflexivity.
Qed.

Section CutOffFacts.

Variable distanceWgs84 : number -> number -> number -> number -> number.
Variable this : MapHandler.
Variable status : AircraftStatus.

Hypothesis status_known : aircraftStatus this = Some status.

Let cutOff := calculateAbsoluteCutOffAltitude distanceWgs84 this.
Let destination :=
  extractElevation this (destinationLatitude status) (destinationLongitude status).
Let d :=
  distanceWgs84 (latitude status) (longitude status)
    (destinationLatitude status) (destinationLongitude status).

Lemma cutOff_destination_invalid :
  destinationDataValid status = false -> cutOff = Some HistogramMinimumElevation.
Proof.
  intros H. unfold cutOff, calculateAbsoluteCutOffAltitude.
  rewrite status_known, H. reflexivity.
Qed.

Lemma cutOff_elevation_invalid (e : number) :
  destination = Some (Js.Num e) -> e == InvalidElevation ->
  cutOff = Some HistogramMinimumElevation.
Proof.
  intros Hdest He. unfold cutOff, calculateAbsoluteCutOffAltitude.
  rewrite status_known. destruct (destinationDataValid status); cbn [Bool.eqb].
  - fold destination. rewrite Hdest. cbn [Js.strict_neq].
    apply eqb_spec in He. rewrite He. reflexivity.
  - reflexivity.
Qed.

(** The body of the method once a destination elevation is there. *)
Lemma cutOff_elevation_valid (e : number) :
  destinationDataValid status = true ->
  destination = Some (Js.Num e) -> ~ e == InvalidElevation ->
  cutOff
  = Some
      (if d <=? RenderingMaxAirportDistance then
         if Rltb (glideRadian (Some (altitude status - e)) d) 0.0523599 then
           if (d <=? 1.0) || Reqb (glideRadian (Some (altitude status - e)) d) 0
           then RenderingCutOffAltitudeMinimimum
           else
             Qmin
               (Qmax
                  (inject_Z
                     (Js.round
                        ((RenderingCutOffAltitudeMinimimum
                          - RenderingCutOffAltitudeMaximum)
                         / ThreeNauticalMilesInFeet
                         * (d * FeetPerNauticalMile - FeetPerNauticalMile)
                         + RenderingCutOffAltitudeMaximum)))
                  RenderingCutOffAltitudeMinimimum)
               RenderingCutOffAltitudeMaximum
         else RenderingCutOffAltitudeMaximum
       else RenderingCutOffAltitudeMaximum).
Proof.
  intros Hvalid Hdest He. unfold cutOff, calculateAbsoluteCutOffAltitude.
  rewrite status_known, Hvalid. cbn [Bool.eqb].
  fold destination. rewrite Hdest. cbn [Js.strict_neq].
  apply eqb_false in He. rewrite He. cbn [negb]. fold d.
  destruct (d <=? RenderingMaxAirportDistance); [ | reflexivity].
  destruct (Rltb _ _); [ | reflexivity].
  destruct (_ || _); reflexivity.
Qed.

(** The handler always answers. *)
Lemma cutOff_total : exists c, cutOff = Some c.
Proof.
  unfold cutOff, calculateAbsoluteCutOffAltitude. rewrite status_known.
  destruct (Bool.eqb _ _); [eexists; reflexivity | ].
  unfold extractElevation. rewrite status_known.
  destruct (cpuData _) as [data | ]; cbn.
  - destruct (_ =? 0)%Z; cbn; [eexists; reflexivity | ].
    destruct (_ >=? _)%Z; cbn.
    + destruct (_ <=? _); [ | eexists; reflexivity].
      destruct (Rltb _ _); [ | eexists; reflexivity].
      destruct (_ || _); eexists; reflexivity.
    + destruct (Js.strict_neq _ _); [ | eexists; reflexivity].
      destruct (_ <=? _); [ | eexists; reflexivity].
      destruct (Rltb _ _); [ | eexists; reflexivity].
      destruct (_ || _); eexists; reflexivity.
  - eexists; reflexivity.
Qed.

End CutOffFacts.

(** The answer of the handler by distance and glide angle, for a
    destination elevation that is a number other than [INVALID]. *)
Lemma cutOff_by_glide
    (distanceWgs84 : number -> number -> number -> number -> number)
    (this : MapHandler) (status : AircraftStatus) (e : number) (glide : R) :
  aircraftStatus this = Some status ->
  destinationDataValid status = true ->
  extractElevation this (destinationLatitude status)
    (destinationLongitude status) = Some (Js.Num e) ->
  ~ e == 32767 ->
  let cutOff := calculateAbsoluteCutOffAltitude distanceWgs84 this in
  let d :=
    distanceWgs84 (latitude status) (longitude status)
      (destinationLatitude status) (destinationLongitude status) in
  (e < altitude status -> 0 < d ->
   glide = atan (Q2R ((altitude status - e) / (d * 6076.12)))) ->
  (altitude status <= e \/ d <= 0 -> glide = 0%R) ->
  (4 < d -> cutOff = Some 400)
  /\ (d <= 4 -> (0.0523599 <= glide)%R -> cutOff = Some 400)
  /\ (d <= 4 -> (glide < 0.0523599)%R -> d <= 1 \/ glide = 0%R ->
      cutOff = Some 200)
  /\ (1 < d -> d <= 4 -> (glide < 0.0523599)%R -> glide <> 0%R ->
      exists line : number,
        line == 400 - 200 * (d * 6076.12 - 6076.12) / 18228.3
        /\ cutOff = Some (Qmin (Qmax (inject_Z (Js.round line)) 200) 400)).
Proof.
  intros Hstatus Hvalid Hdest He cutOff d Habove Hnot.
  assert (Hglide : glideRadian (Some (altitude status - e)) d = glide).
  { destruct (Qlt_le_dec e (altitude status)) as [Ha | Ha].
    - destruct (Qlt_le_dec 0 d) as [Hd | Hd].
      + rewrite glideRadian_above by assumption. symmetry.
        apply Habove; assumption.
      + rewrite glideRadian_not_above by (right; exact Hd). symmetry.
        apply Hnot. right. exact Hd.
    - rewrite glideRadian_not_above by (left; exact Ha). symmetry.
      apply Hnot. left. exact Ha. }
  subst cutOff.
  rewrite (cutOff_elevation_valid _ _ _ Hstatus e Hvalid Hdest He).
  fold d. rewrite Hglide.
  unfold RenderingMaxAirportDistance, RenderingCutOffAltitudeMaximum,
    RenderingCutOffAltitudeMinimimum.
  repeat split.
  - intros Hd. assert (E : (d <=? 4.0) = false) by (apply leb_false; lra).
    rewrite E. reflexivity.
  - intros Hd Hg. destruct (d <=? 4.0); [ | reflexivity].
    rewrite Rltb_false by exact Hg. reflexivity.
  - intros Hd Hg Hmin.
    assert (E : (d <=? 4.0) = true) by (apply leb_spec; lra).
    rewrite E, Rltb_true by exact Hg.
    destruct Hmin as [Hmin | Hmin].
    + assert (E1 : (d <=? 1.0) = true) by (apply leb_spec; lra).
      rewrite E1. reflexivity.
    + rewrite (Reqb_true glide 0 Hmin), orb_true_r. reflexivity.
  - intros Hd1 Hd4 Hg Hg0.
    assert (E : (d <=? 4.0) = true) by (apply leb_spec; lra).
    assert (E1 : (d <=? 1.0) = false) by (apply leb_false; lra).
    rewrite E, E1, Rltb_true, Reqb_false by assumption. cbn [orb].
    eexists. split; [ | reflexivity].
    unfold ThreeNauticalMilesInFeet, FeetPerNauticalMile. field.
Qed.

(** C2 (amended).  Without valid destination data, or with the elevation
    [INVALID] extracted at the destination, the cut-off altitude is -500.
    Otherwise, with [d] the distance to the destination and the glide
    angle [atan((altitude - destinationElevation) / (d * 6076.12))] when
    the aircraft is above the destination and [d > 0], and 0 when it is
    not: 400 for [d > 4.0]; 400 for a glide angle of at least 0.0523599
    rad; 200 for [d <= 1.0] or a glide angle of 0; and otherwise the
    rounded value of the line [400 - 200 * (d * 6076.12 - 6076.12) /
    18228.3], clamped to [200, 400]. *)
Theorem C2_cut_off_altitude
    (distanceWgs84 : number -> number -> number -> number -> number)
    (this : MapHandler) (status : AircraftStatus) :
  aircraftStatus this = Some status ->
  let cutOff := calculateAbsoluteCutOffAltitude distanceWgs84 this in
  let destination :=
    extractElevation this (destinationLatitude status)
      (destinationLongitude status) in
  let d :=
    distanceWgs84 (latitude status) (longitude status)
      (destinationLatitude status) (destinationLongitude status) in
  (destinationDataValid status = false -> cutOff = Some (-500))
  /\ (forall e, destination = Some (Js.Num e) -> e == 32767 ->
      cutOff = Some (-500))
  /\ (forall (e : number) (glide : R),
      destinationDataValid status = true ->
      destination = Some (Js.Num e) -> ~ e == 32767 ->
      (e < altitude status -> 0 < d ->
       glide = atan (Q2R ((altitude status - e) / (d * 6076.12)))) ->
      (altitude status <= e \/ d <= 0 -> glide = 0%R) ->
      (4 < d -> cutOff = Some 400)
      /\ (d <= 4 -> (0.0523599 <= glide)%R -> cutOff = Some 400)
      /\ (d <= 4 -> (glide < 0.0523599)%R -> d <= 1 \/ glide = 0%R ->
          cutOff = Some 200)
      /\ (1 < d -> d <= 4 -> (glide < 0.0523599)%R -> glide <> 0%R ->
          exists line : number,
            line == 400 - 200 * (d * 6076.12 - 6076.12) / 18228.3
            /\ cutOff = Some (Qmin (Qmax (inject_Z (Js.round line)) 200) 400))).
Proof.
  intros Hstatus cutOff destination d.
  split; [ | split].
  - intros H. apply (cutOff_destination_invalid _ _ _ Hstatus H).
  - intros e Hdest He. apply (cutOff_elevation_invalid _ _ _ Hstatus e Hdest He).
  - intros e glide Hvalid Hdest He Habove Hnot.
    apply (cutOff_by_glide distanceWgs84 this status e glide); assumption.
Qed.

(** The claim of C2 as it is written fails for an aircraft below the
    elevation of a destination between one and four nautical miles away:
    the arc tangent of the claim is negative, neither above three degrees
    nor 0, and the claim asks for the interpolated 333 ft two nautical
    miles out; the handler takes the glide angle 0 and returns 200 ft. *)
Lemma C2_counterexample :
  calculateAbsoluteCutOffAltitude (fun _ _ _ _ => 2)
    (sampleHandler (Some (sampleStatus 1904 true 47.5 11.55))
       (Some [1900; 2000; 2100; 2200]))
  = Some 200
  /\ extractElevation
       (sampleHandler (Some (sampleStatus 1904 true 47.5 11.55))
          (Some [1900; 2000; 2100; 2200]))
       47.5 11.55
     = Some (Js.Num 2200)
  /\ cutOffAltitude_claimed true 2200 1904 2 == 333.
Proof.
  split; [ | split].
  - rewrite (cutOff_elevation_valid (fun _ _ _ _ => 2)
               (sampleHandler (Some (sampleStatus 1904 true 47.5 11.55))
                  (Some [1900; 2000; 2100; 2200]))
               (sampleStatus 1904 true 47.5 11.55)
               eq_refl 2200 eq_refl eq_refl);
      [ | vm_compute; discriminate].
    rewrite glideRadian_not_above by (left; vm_compute; discriminate).
    rewrite Rltb_true by rlra. rewrite (Reqb_true 0 0 eq_refl), orb_true_r.
    reflexivity.
  - reflexivity.
  - unfold cutOffAltitude_claimed. cbn [negb].
    change (2200 =? 32767) with false. change (2 >? 4.0) with false.
    change (2 <=? 1.0) with false. cbv iota. cbv zeta.
    assert (Hneg : (atan (Q2R ((1904 - 2200) / (2 * 6076.12))) < 0)%R).
    { apply atan_neg. rewrite <- RMicromega.Q2R_0. apply Qlt_Rlt.
      vm_compute. reflexivity. }
    rewrite Rgtb_false by rlra. rewrite Reqb_false by rlra. cbn [orb].
    vm_compute. reflexivity.
Qed.

Lemma C2_witness :
  calculateAbsoluteCutOffAltitude (fun _ _ _ _ => 50)
    (sampleHandler (Some (sampleStatus 3000 true 47.5 11.55))
       (Some [1900; 2000; 2100; 2200]))
  = Some 400.
Proof.
  destruct (C2_cut_off_altitude (fun _ _ _ _ => 50)
              (sampleHandler (Some (sampleStatus 3000 true 47.5 11.55))
                 (Some [1900; 2000; 2100; 2200]))
              (sampleStatus 3000 true 47.5 11.55) eq_refl)
    as (_ & _ & H).
  destruct (H 2200 (atan (Q2R ((3000 - 2200) / (50 * 6076.12)))))
    as (Hfar & _).
  - reflexivity.
  - reflexivity.
  - vm_compute. discriminate.
  - intros _ _. reflexivity.
  - intros [Hc | Hc]; vm_compute in Hc; exfalso; apply Hc; reflexivity.
  - apply Hfar. vm_compute. reflexivity.
Defined.

(** C3 (amended).  With a valid destination whose elevation is a number
    other than [INVALID], and the glide angle taken as 0 for an aircraft
    that is not above the destination: at exactly 1.0 nautical mile the
    cut-off altitude is exactly 200 when the glide angle is below
    0.0523599 rad; within 4.0 nautical miles, the boundaries 1.0 and 4.0
    included, it is exactly 400 when the glide angle is at least
    0.0523599 rad; at exactly 4.0 nautical miles it is 200 when the glide
    angle is 0. *)
Theorem C3_cut_off_boundaries
    (distanceWgs84 : number -> number -> number -> number -> number)
    (this : MapHandler) (status : AircraftStatus) (e : number) (glide : R) :
  aircraftStatus this = Some status ->
  destinationDataValid status = true ->
  extractElevation this (destinationLatitude status)
    (destinationLongitude status) = Some (Js.Num e) ->
  ~ e == 32767 ->
  let cutOff := calculateAbsoluteCutOffAltitude distanceWgs84 this in
  let d :=
    distanceWgs84 (latitude status) (longitude status)
      (destinationLatitude status) (destinationLongitude status) in
  (e < altitude status -> 0 < d ->
   glide = atan (Q2R ((altitude status - e) / (d * 6076.12)))) ->
  (altitude status <= e \/ d <= 0 -> glide = 0%R) ->
  (d == 1 -> (glide < 0.0523599)%R -> cutOff = Some 200)
  /\ (d <= 4 -> (0.0523599 <= glide)%R -> cutOff = Some 400)
  /\ (d == 4 -> glide = 0%R -> cutOff = Some 200).
Proof.
  intros Hstatus Hvalid Hdest He cutOff d Habove Hnot.
  destruct (cutOff_by_glide distanceWgs84 this status e glide
              Hstatus Hvalid Hdest He Habove Hnot)
    as (_ & Hsteep & Hnear & _).
  fold cutOff d in Hsteep, Hnear.
  split; [ | split].
  - intros Hd Hg. apply Hnear; [lra | exact Hg | left; lra].
  - exact Hsteep.
  - intros Hd Hg. apply Hnear; [lra | rewrite Hg; rlra | right; exact Hg].
Qed.

(** The claim of C3 as it is written fails at exactly 4.0 nautical miles
    for an aircraft at the elevation of its destination: the glide angle
    is 0 and the handler returns 200, not 400. *)
Lemma C3_counterexample :
  calculateAbsoluteCutOffAltitude (fun _ _ _ _ => 4.0)
    (sampleHandler (Some (sampleStatus 2200 true 47.5 11.6))
       (Some [1900; 2000; 2100; 2200]))
  = Some 200
  /\ calculateAbsoluteCutOffAltitude (fun _ _ _ _ => 4.0)
       (sampleHandler (Some (sampleStatus 2200 true 47.5 11.6))
          (Some [1900; 2000; 2100; 2200]))
     <> Some 400.
Proof.
  assert (H : calculateAbsoluteCutOffAltitude (fun _ _ _ _ => 4.0)
                (sampleHandler (Some (sampleStatus 2200 true 47.5 11.6))
                   (Some [1900; 2000; 2100; 2200]))
              = Some 200).
  { rewrite (cutOff_elevation_valid (fun _ _ _ _ => 4.0)
               (sampleHandler (Some (sampleStatus 2200 true 47.5 11.6))
                  (Some [1900; 2000; 2100; 2200]))
               (sampleStatus 2200 true 47.5 11.6)
               eq_refl 2200 eq_refl eq_refl);
      [ | vm_compute; discriminate].
    rewrite glideRadian_not_above by (left; vm_compute; discriminate).
    rewrite Rltb_true by rlra. rewrite (Reqb_true 0 0 eq_refl), orb_true_r.
    reflexivity. }
  split; [exact H | rewrite H; discriminate].
Qed.

(** One nautical mile out and 6076.12 ft above the destination the
    glide angle is 45 degrees. *)
Lemma C3_witness :
  calculateAbsoluteCutOffAltitude (fun _ _ _ _ => 1)
    (sampleHandler (Some (sampleStatus 8276.12 true 47.5 11.52))
       (Some [1900; 2000; 2100; 2200]))
  = Some 400.
Proof.
  destruct (C3_cut_off_boundaries (fun _ _ _ _ => 1)
              (sampleHandler (Some (sampleStatus 8276.12 true 47.5 11.52))
                 (Some [1900; 2000; 2100; 2200]))
              (sampleStatus 8276.12 true 47.5 11.52) 2200 (PI / 4)%R)
    as (_ & Hsteep & _).
  - reflexivity.
  - reflexivity.
  - reflexivity.
  - vm_compute. discriminate.
  - intros _ _. rewrite <- atan_1. f_equal.
    rewrite <- RMicromega.Q2R_1. apply Qeq_eqR. vm_compute. reflexivity.
  - intros [Hc | Hc]; vm_compute in Hc; exfalso; apply Hc; reflexivity.
  - apply Hsteep.
    + vm_compute. discriminate.
    + pose proof PI2_1. rlra.
Defined.

(** Exactly 4.0 nautical miles out and 100 ft above the destination the
    glide is shallow and the line of the handler has come down to its
    lower end: 200 ft.  Two nautical miles out it is at 333 ft. *)
Example cutOff_four_miles_shallow :
  calculateAbsoluteCutOffAltitude (fun _ _ _ _ => 4.0)
    (sampleHandler (Some (sampleStatus 2300 true 47.5 11.6))
       (Some [1900; 2000; 2100; 2200]))
  = Some (Qmin (Qmax (inject_Z 200) 200) 400).
Proof.
  rewrite (cutOff_elevation_valid (fun _ _ _ _ => 4.0)
             (sampleHandler (Some (sampleStatus 2300 true 47.5 11.6))
                (Some [1900; 2000; 2100; 2200]))
             (sampleStatus 2300 true 47.5 11.6)
             eq_refl 2200 eq_refl eq_refl);
    [ | vm_compute; discriminate].
  rewrite glideRadian_above by (vm_compute; reflexivity).
  destruct (atan_small
              (Q2R ((altitude (sampleStatus 2300 true 47.5 11.6) - 2200)
                    / (4.0 * FeetPerNauticalMile))))
    as [Hpos Hsmall].
  { apply Q2R_small; vm_compute; [reflexivity | discriminate]. }
  rewrite Rltb_true by exact Hsmall. rewrite Reqb_false by rlra.
  reflexivity.
Qed.

Example cutOff_two_miles_shallow :
  calculateAbsoluteCutOffAltitude (fun _ _ _ _ => 2)
    (sampleHandler (Some (sampleStatus 2300 true 47.5 11.55))
       (Some [1900; 2000; 2100; 2200]))
  = Some (Qmin (Qmax (inject_Z 333) 200) 400).
Proof.
  rewrite (cutOff_elevation_valid (fun _ _ _ _ => 2)
             (sampleHandler (Some (sampleStatus 2300 true 47.5 11.55))
                (Some [1900; 2000; 2100; 2200]))
             (sampleStatus 2300 true 47.5 11.55)
             eq_refl 2200 eq_refl eq_refl);
    [ | vm_compute; discriminate].
  rewrite glideRadian_above by (vm_compute; reflexivity).
  destruct (atan_small
              (Q2R ((altitude (sampleStatus 2300 true 47.5 11.55) - 2200)
                    / (2 * FeetPerNauticalMile))))
    as [Hpos Hsmall].
  { apply Q2R_small; vm_compute; [reflexivity | discriminate]. }
  rewrite Rltb_true by exact Hsmall. rewrite Reqb_false by rlra.
  reflexivity.
Qed.

(** Whatever the state of the handler, the cut-off altitude lies between
    -500 and 400 ft: the colorizer starts its loops at a bin of the
    histogram. *)
Lemma cutOff_range
    (distanceWgs84 : number -> number -> number -> number -> number)
    (this : MapHandler) (c : number) :
  calculateAbsoluteCutOffAltitude distanceWgs84 this = Some c ->
  -500 <= c /\ c <= 400.
Proof.
  unfold calculateAbsoluteCutOffAltitude, HistogramMinimumElevation,
    RenderingCutOffAltitudeMaximum, RenderingCutOffAltitudeMinimimum.
  destruct (aircraftStatus this) as [status | ].
  - destruct (Bool.eqb _ _).
    + intros H. injection H as <-. split; vm_compute; discriminate.
    + destruct (extractElevation _ _ _) as [e | ]; [ | discriminate].
      destruct (Js.strict_neq _ _).
      * destruct (_ <=? _).
        -- destruct (Rltb _ _).
           ++ destruct (_ || _).
              ** intros H. injection H as <-. split; vm_compute; discriminate.
              ** intros H. injection H as <-. minmax_cases; lra.
           ++ intros H. injection H as <-. split; vm_compute; discriminate.
        -- intros H. injection H as <-. split; vm_compute; discriminate.
      * intros H. injection H as <-. split; vm_compute; discriminate.
  - intros H. injection H as <-. split; vm_compute; discriminate.
Qed.

(** ** The local elevation map *)



Section LocalElevationMapFacts.

Variable normalizeHeading : R -> R.
Variable projectWgs84 : R -> R -> R -> R -> R * R.
Variable rad2deg : R -> R.

Let kernel :=
  createLocalElevationMap localElevationMapConstants normalizeHeading
    projectWgs84 rad2deg.



End LocalElevationMapFacts.


Example metresPerPixel_arc_10nm : metresPerPixel sampleDisplay == 76.
Proof. reflexivity. Qed.


(** ** The side scheduler *)

Lemma lookupSide_updateSide (sides : list (string * SideState))
    (side : string) (f : SideState -> SideState) :
  lookupSide (updateSide sides side f) side
  = option_map f (lookupSide sides side).
Proof.
  induction sides as [ | [name s] sides IH]; [reflexivity | ].
  cbn. destruct (String.eqb name side) eqn:E; cbn; rewrite E.
  - reflexivity.
  - exact IH.
Qed.

Lemma lookupSide_updateSide_other (sides : list (string * SideState))
    (side other : string) (f : SideState -> SideState) :
  other <> side ->
  lookupSide (updateSide sides side f) other = lookupSide sides other.
Proof.
  intros Hne. induction sides as [ | [name s] sides IH]; [reflexivity | ].
  cbn. destruct (String.eqb_spec name side) as [-> | Hn]; cbn.
  - destruct (String.eqb_spec side other) as [-> | _]; [congruence | reflexivity].
  - rewrite IH. reflexivity.
Qed.

Lemma updateSide_updateSide (sides : list (string * SideState))
    (side : string) (f g : SideState -> SideState) :
  updateSide (updateSide sides side f) side g
  = updateSide sides side (fun s => g (f s)).
Proof.
  induction sides as [ | [name s] sides IH]; [reflexivity | ].
  cbn. destruct (String.eqb name side) eqn:E; cbn; rewrite E.
  - reflexivity.
  - rewrite IH. reflexivity.
Qed.

Lemma updateSide_at (sides : list (string * SideState)) (side : string)
    (f g : SideState -> SideState) (s : SideState) :
  lookupSide sides side = Some s -> f s = g s ->
  updateSide sides side f = updateSide sides side g.
Proof.
  intros Hs Hfg. induction sides as [ | [name s'] sides IH]; [reflexivity | ].
  cbn in *. destruct (String.eqb name side).
  - injection Hs as ->. rewrite Hfg. reflexivity.
  - rewrite IH by exact Hs. reflexivity.
Qed.

(** The test of the handler is the test of the specification. *)
Lemma startRendering_spec (lastConfig : option NavigationDisplay)
    (config' : NavigationDisplay) :
  (active config'
   && match lastConfig with Some l => negb (active l) | None => true end)
  || match lastConfig with
     | Some l => negb (range l =? range config')
                 || negb (Bool.eqb (arcMode l) (arcMode config'))
     | None => false
     end
  || match lastConfig with
     | Some l => negb (efisMode l =? efisMode config')
     | None => false
     end
  = startsRendering lastConfig config'.
Proof.
  unfold startsRendering. destruct lastConfig as [l | ].
  - rewrite !orb_assoc. reflexivity.
  - rewrite andb_true_r, !orb_false_r. reflexivity.
Qed.

Lemma stopRendering_spec (lastConfig : option NavigationDisplay)
    (config' : NavigationDisplay) :
  negb (active config')
  && match lastConfig with Some l => active l | None => false end
  = stopsRendering lastConfig config'.
Proof.
  unfold stopsRendering. destruct lastConfig as [l | ].
  - apply andb_comm.
  - apply andb_false_r.
Qed.

Section SchedulerFacts.

Variable renderNavigationDisplay : string -> bool -> M unit.
Variable this : MapHandler.
Variable display : string.
Variable config' : NavigationDisplay.
Variable s : SideState.

Hypothesis side_known :
  lookupSide (navigationDisplayRendering this) display = Some s.

Let configure :=
  configureNavigationDisplay renderNavigationDisplay display config'.

(** A chain of updates of the side is one update of the handler. *)
Lemma modifySide_withSide (f : SideState -> SideState) :
  modifySide display f this = (tt, withSide this display (f s), []).
Proof.
  unfold modifySide, withSide. do 3 f_equal.
  apply (updateSide_at _ _ _ _ s side_known). reflexivity.
Qed.

Lemma withSide_withSide (a b : SideState) :
  withSide (withSide this display a) display b = withSide this display b.
Proof.
  unfold withSide. cbn. f_equal. apply updateSide_updateSide.
Qed.

Lemma lookupSide_withSide (a : SideState) :
  lookupSide (navigationDisplayRendering (withSide this display a)) display
  = Some a.
Proof.
  unfold withSide. cbn. rewrite lookupSide_updateSide, side_known. reflexivity.
Qed.

End SchedulerFacts.

Section SchedulerReset.

Variable renderNavigationDisplay : string -> bool -> M unit.
Variable this : MapHandler.
Variable display : string.
Variable config' : NavigationDisplay.
Variable s : SideState.

Hypothesis side_known :
  lookupSide (navigationDisplayRendering this) display = Some s.

Let configure :=
  configureNavigationDisplay renderNavigationDisplay display config'.

Lemma configure_reset :
  stopsRendering (config s) config' || startsRendering (config s) config' = true ->
  configure false this
  = let reset := withSide this display (resetSide config' s) in
    let trace :=
      cancelledTimers s
      ++ [SendNavigationDisplayTerrainMapMetadata display resetMetadata] in
    if startsRendering (config s) config'
    then let '(u, this', rendered) := renderNavigationDisplay display false reset in
         (u, this', trace ++ rendered)
    else (tt, reset, trace).
Proof.
  intros Hreset. unfold configure, configureNavigationDisplay.
  unfold bind at 1. unfold getSide at 1. rewrite side_known.
  rewrite startRendering_spec, stopRendering_spec, Hreset.
  cbn [negb]. unfold cancelledTimers.
  assert (Hstate : forall f : SideState -> SideState,
            f s = resetSide config' s ->
            {| worldmap_GridData := worldmap_GridData this;
               currentGroundTruthPosition := currentGroundTruthPosition this;
               cachedElevationData := cachedElevationData this;
               worldMapMetadata := worldMapMetadata this;
               aircraftStatus := aircraftStatus this;
               navigationDisplayRendering :=
                 updateSide (navigationDisplayRendering this) display f |}
            = withSide this display (resetSide config' s)).
  { intros f Hf. unfold withSide. f_equal.
    apply (updateSide_at _ _ _ _ s side_known). exact Hf. }
  destruct (startsRendering (config s) config');
    destruct (durationInterval s) as [ti | ] eqn:Hti;
    destruct (timeout s) as [tt' | ] eqn:Htt;
    unfold bind, modifySide, emit, ret, resetFrameData, modifySide,
      startNavigationDisplayRenderingCycle, bind, getSide;
    cbn -[updateSide lookupSide];
    rewrite ?updateSide_updateSide, ?lookupSide_updateSide, ?side_known;
    cbn -[updateSide lookupSide]; rewrite ?Hti, ?Htt;
    cbn -[updateSide lookupSide];
    rewrite ?updateSide_updateSide;
    (erewrite Hstate;
     [ | unfold resetSide; cbn; rewrite ?Hti, ?Htt; reflexivity ]);
    try (destruct (renderNavigationDisplay display false
                     (withSide this display (resetSide config' s)))
           as [[u this'] rendered]);
    reflexivity.
Qed.

Lemma configure_startup :
  configure true this = (tt, withSide this display (setConfig (Some config') s), []).
Proof.
  unfold configure, configureNavigationDisplay.
  unfold bind at 1. unfold getSide at 1. rewrite side_known.
  cbn [negb]. unfold bind, ret.
  rewrite (modifySide_withSide this display s side_known). reflexivity.
Qed.

Lemma configure_unchanged :
  stopsRendering (config s) config' || startsRendering (config s) config' = false ->
  configure false this = (tt, withSide this display (setConfig (Some config') s), []).
Proof.
  intros Hsame. unfold configure, configureNavigationDisplay.
  unfold bind at 1. unfold getSide at 1. rewrite side_known.
  rewrite startRendering_spec, stopRendering_spec, Hsame.
  apply orb_false_elim in Hsame. destruct Hsame as [_ Hstart]. rewrite Hstart.
  cbn [negb]. unfold bind, ret.
  rewrite (modifySide_withSide this display s side_known). reflexivity.
Qed.

End SchedulerReset.

Lemma configure_not_a_side
    (renderNavigationDisplay : string -> bool -> M unit) (this : MapHandler)
    (display : string) (config' : NavigationDisplay) (startup : bool) :
  lookupSide (navigationDisplayRendering this) display = None ->
  configureNavigationDisplay renderNavigationDisplay display config' startup this
  = (tt, this, []).
Proof.
  intros H. unfold configureNavigationDisplay, bind, getSide. rewrite H.
  reflexivity.
Qed.

(** C10.  Outside startup, a configuration that stops or starts the
    rendering of a side cancels the pending sweep ticker and update
    timeout of the side, sets [resetRenderingData], clears the last frame
    and the transition data, and sends the reset metadata
    ([MinimumElevation = -1], [MaximumElevation = -1], both modes
    [PeaksMode], [FirstFrame = true], [DisplayRange = 0], [DisplayMode =
    0], [FrameByteCount = 0]) before the new rendering cycle, if any,
    starts; the other sides are untouched.  A plain activation (active
    from inactive or from no configuration) is such a configuration. *)
Theorem C10_reconfiguration_resets
    (renderNavigationDisplay : string -> bool -> M unit) (this : MapHandler)
    (display : string) (config' : NavigationDisplay) (s : SideState) :
  lookupSide (navigationDisplayRendering this) display = Some s ->
  let reset := withSide this display (resetSide config' s) in
  let trace :=
    cancelledTimers s
    ++ [SendNavigationDisplayTerrainMapMetadata display
          {| MinimumElevation := -1; MinimumElevationMode := PeaksMode;
             MaximumElevation := -1; MaximumElevationMode := PeaksMode;
             FirstFrame := true; DisplayRange := 0; DisplayMode := 0;
             FrameByteCount := 0 |}] in
  (stopsRendering (config s) config' || startsRendering (config s) config' = true ->
   lookupSide (navigationDisplayRendering reset) display
   = Some {| config := Some config'; timeout := None; durationInterval := None;
             resetRenderingData := true;
             startupTimestamp := startupTimestamp s; lastFrame := None;
             lastTransitionData :=
               {| timestamp := 0; thresholds := None; frames := [] |} |}
   /\ (forall other, other <> display ->
       lookupSide (navigationDisplayRendering reset) other
       = lookupSide (navigationDisplayRendering this) other)
   /\ configureNavigationDisplay renderNavigationDisplay display config' false this
      = if startsRendering (config s) config'
        then let '(u, this', rendered) :=
               renderNavigationDisplay display false reset in
             (u, this', trace ++ rendered)
        else (tt, reset, trace))
  /\ (active config' = true ->
      match config s with Some l => active l = false | None => True end ->
      startsRendering (config s) config' = true).
Proof.
  intros Hside reset trace. split.
  - intros Hreset. split; [ | split].
    + subst reset. rewrite (lookupSide_withSide this display s Hside).
      reflexivity.
    + intros other Hother. subst reset. unfold withSide. cbn.
      apply lookupSide_updateSide_other. exact Hother.
    + apply (configure_reset renderNavigationDisplay this display config' s
               Hside Hreset).
  - intros Hactive Hlast. unfold startsRendering.
    destruct (config s) as [l | ]; [ | exact Hactive].
    rewrite Hactive, Hlast. reflexivity.
Qed.

(** The first officer's side has no configuration yet and is
    activated. *)
Lemma C10_witness :
  configureNavigationDisplay (fun _ _ => ret tt) "R" sampleDisplay false
    sampleScheduler
  = (tt, withSide sampleScheduler "R" (resetSide sampleDisplay (idleSide 0)),
     [SendNavigationDisplayTerrainMapMetadata "R" resetMetadata]).
Proof.
  destruct (C10_reconfiguration_resets (fun _ _ => ret tt) sampleScheduler "R"
              sampleDisplay (idleSide 0) eq_refl) as [Hreset _].
  destruct Hreset as (_ & _ & H); [reflexivity | ].
  rewrite H. reflexivity.
Defined.

(** A range change on the captain's side, which waits for its next
    frame: the timeout is cancelled and the reset metadata is sent before
    the next render pass. *)
Example configure_range_change :
  configureNavigationDisplay (fun _ _ => ret tt) "L"
    {| range := 20; arcMode := true; active := true; efisMode := 0;
       mapOffsetX := 6; mapWidth := 756; mapHeight := 492 |}
    false sampleScheduler
  = (tt,
     withSide sampleScheduler "L"
       (resetSide
          {| range := 20; arcMode := true; active := true; efisMode := 0;
             mapOffsetX := 6; mapWidth := 756; mapHeight := 492 |}
          (waitingSide 1500)),
     [ClearTimeout 7%nat;
      SendNavigationDisplayTerrainMapMetadata "L" resetMetadata]).
Proof. reflexivity. Qed.

(** * Part III. Further properties of the code *)

Lemma binRange_fold_invariant {A : Type} (step : A -> Z -> A)
    (P : Z -> A -> Prop) (lowest : Z) :
  (forall bin acc, (lowest <= bin)%Z -> P bin acc -> P (bin + 1)%Z (step acc bin)) ->
  forall (count : nat) (first : Z) (acc : A),
    (lowest <= first)%Z -> P first acc ->
    P (first + Z.of_nat count)%Z
      (fold_left step (binRange first (first + Z.of_nat count)) acc).
Proof.
  intros Hstep. induction count as [ | count IH]; intros first acc Hfirst Hacc.
  - rewrite binRange_nil by lia. cbn [fold_left].
    replace (first + Z.of_nat 0)%Z with first by lia. exact Hacc.
  - rewrite binRange_cons by lia. cbn [fold_left].
    replace (first + Z.of_nat (S count))%Z
      with (first + 1 + Z.of_nat count)%Z by lia.
    apply IH; [lia | ]. apply Hstep; assumption.
Qed.

(** The loop of the kernel, from the bin of the cut-off altitude to the
    end of the histogram, keeps an invariant that holds at its start. *)
Lemma statisticsLoop_invariant (histogram : list number) (total : number)
    (P : Z -> Percentiles -> Prop) (first : Z) :
  (first <= HistogramBinCount)%Z ->
  (forall bin acc, (first <= bin)%Z -> P bin acc ->
     P (bin + 1)%Z (percentileStep navigationDisplayConstants histogram total acc bin)) ->
  P first initialPercentiles ->
  P HistogramBinCount
    (fold_left (percentileStep navigationDisplayConstants histogram total)
       (binRange first HistogramBinCount) initialPercentiles).
Proof.
  intros Hle Hstep Hinit.
  pose proof (binRange_fold_invariant _ P first Hstep
                (Z.to_nat (HistogramBinCount - first)) first initialPercentiles
                (Z.le_refl _) Hinit) as H.
  replace (first + Z.of_nat (Z.to_nat (HistogramBinCount - first)))%Z
    with HistogramBinCount in H by lia.
  exact H.
Qed.

Lemma percentileStep_bins (histogram : list number) (total : number)
    (acc : Percentiles) (bin : Z) :
  let acc' := percentileStep navigationDisplayConstants histogram total acc bin in
  (0 < histogramAt histogram bin ->
     minElevationBin acc' = (if (minElevationBin acc <? 0)%Z then bin
                             else minElevationBin acc)
     /\ maxElevationBin acc' = bin)
  /\ (histogramAt histogram bin <= 0 ->
        minElevationBin acc' = minElevationBin acc
        /\ maxElevationBin acc' = maxElevationBin acc).
Proof.
  unfold percentileStep.
  split; intros Hh.
  - apply gtb_spec in Hh. rewrite Hh.
    destruct (total >? 0); cbn [minElevationBin maxElevationBin]; split; reflexivity.
  - apply gtb_false in Hh. rewrite Hh.
    destruct (total >? 0); cbn [minElevationBin maxElevationBin]; split; reflexivity.
Qed.

Lemma percentileStep_terrainBins (histogram : list number) (total : number)
    (first bin : Z) (acc : Percentiles) :
  (0 <= first <= bin)%Z ->
  terrainBinsInvariant histogram first bin acc ->
  terrainBinsInvariant histogram first (bin + 1)
    (percentileStep navigationDisplayConstants histogram total acc bin).
Proof.
  intros Hbin Hinv.
  pose proof (percentileStep_bins histogram total acc bin) as [Hpos Hneg].
  set (acc' := percentileStep _ _ _ _ _) in *.
  unfold terrainBinsInvariant in *.
  destruct (Qlt_le_dec 0 (histogramAt histogram bin)) as [Hh | Hh].
  - destruct (Hpos Hh) as [Hmin Hmax]. right. rewrite Hmin, Hmax.
    destruct Hinv as [(Hm & HM & Hnone) | (H1 & H2 & H3 & H4 & H5 & Hall)].
    + rewrite Hm. change (-1 <? 0)%Z with true. cbv iota.
      split; [lia | split; [lia | split; [lia | split; [exact Hh | split;
        [exact Hh | ]]]]].
      intros b Hb Hterrain.
      destruct (Z.eq_dec b bin) as [-> | Hne]; [lia | ].
      exfalso. assert (Hb' : (first <= b < bin)%Z) by lia.
      specialize (Hnone b Hb'). lra.
    + destruct (Z.ltb_spec (minElevationBin acc) 0) as [Hlt | Hge]; [lia | ].
      split; [lia | split; [lia | split; [lia | split; [exact H4 | split;
        [exact Hh | ]]]]].
      intros b Hb Hterrain.
      destruct (Z.eq_dec b bin) as [-> | Hne]; [lia | ].
      assert (Hb' : (first <= b < bin)%Z) by lia.
      specialize (Hall b Hb' Hterrain). lia.
  - destruct (Hneg Hh) as [Hmin Hmax]. rewrite Hmin, Hmax.
    destruct Hinv as [(Hm & HM & Hnone) | (H1 & H2 & H3 & H4 & H5 & Hall)].
    + left. split; [exact Hm | split; [exact HM | ]].
      intros b Hb. destruct (Z.eq_dec b bin) as [-> | Hne]; [exact Hh | ].
      apply Hnone. lia.
    + right.
      split; [lia | split; [lia | split; [lia | split; [exact H4 | split;
        [exact H5 | ]]]]].
      intros b Hb Hterrain.
      destruct (Z.eq_dec b bin) as [-> | Hne]; [lra | ].
      apply Hall; [lia | exact Hterrain].
Qed.

Lemma percentileStep_percentileOrder (histogram : list number)
    (total : number) (bin : Z) (acc : Percentiles) :
  (0 <= bin)%Z ->
  percentileOrderInvariant total bin acc ->
  percentileOrderInvariant total (bin + 1)
    (percentileStep navigationDisplayConstants histogram total acc bin).
Proof.
  intros Hbin (Hupper & Hlower & Hcp).
  unfold percentileOrderInvariant, percentileStep.
  cbn [lowerPercentile upperPercentile navigationDisplayConstants].
  unfold RenderingLowerPercentile, RenderingUpperPercentile.
  set (h := histogramAt histogram bin).
  destruct (total >? 0) eqn:Htotal;
    [apply gtb_spec in Htotal | apply gtb_false in Htotal].
  - set (cp := currentPercentile acc + h / total).
    destruct (h >? 0);
      cbn [lowerBin upperBin maxElevationBin currentPercentile];
      destruct (Z.eqb_spec (lowerBin acc) (-1)) as [Hl | Hl];
      destruct (Z.eqb_spec (upperBin acc) (-1)) as [Hu | Hu];
      destruct (cp >=? 0.85) eqn:H85;
      destruct (cp >=? 0.95) eqn:H95;
      cbn [andb];
      try apply geb_spec in H85; try apply geb_false in H85;
      try apply geb_spec in H95; try apply geb_false in H95;
      try (exfalso; lra);
      (split; [ | split]);
      try (intros _ Hb; first [exact H85 | exfalso; lia]);
      try lia;
      try (destruct Hupper as [Hupper | Hupper]; [lia | ]);
      try (destruct Hlower as [Hlower | Hlower]; [lia | ]);
      try lia.
  - destruct (h >? 0);
      cbn [lowerBin upperBin maxElevationBin currentPercentile];
      (split; [ | split]);
      try (intros Hpos; lra);
      try (destruct Hupper as [Hupper | Hupper]; [left; exact Hupper | right; lia]);
      try (destruct Hlower as [Hlower | Hlower]; [left; exact Hlower | right; lia]).
Qed.

(** Both invariants hold when the loop of the kernel ends. *)
Lemma statisticsLoop_facts (histogram : list number) (total : number)
    (first : Z) :
  (0 <= first)%Z ->
  let loop :=
    fold_left (percentileStep navigationDisplayConstants histogram total)
      (binRange first HistogramBinCount) initialPercentiles in
  terrainBinsInvariant histogram first HistogramBinCount loop
  /\ percentileOrderInvariant total HistogramBinCount loop.
Proof.
  intros Hfirst loop.
  destruct (Z_le_gt_dec first HistogramBinCount) as [Hle | Hgt].
  - split.
    + apply (statisticsLoop_invariant histogram total
               (terrainBinsInvariant histogram first) first Hle).
      * intros bin acc Hbin. apply percentileStep_terrainBins. lia.
      * left. split; [reflexivity | split; [reflexivity | ]]. intros b Hb. lia.
    + apply (statisticsLoop_invariant histogram total
               (percentileOrderInvariant total) first Hle).
      * intros bin acc Hbin. apply percentileStep_percentileOrder. lia.
      * split; [left; reflexivity | split; [left; reflexivity | ]].
        intros _ _. reflexivity.
  - subst loop. rewrite binRange_nil by lia. cbn [fold_left]. split.
    + left. split; [reflexivity | split; [reflexivity | ]]. intros b Hb. lia.
    + split; [left; reflexivity | split; [left; reflexivity | ]].
      intros _ _. reflexivity.
Qed.

(** X1.  For a cut-off altitude of at least -500 ft the colorizer's
    percentile elevations are ordered and stay on the histogram's scale:
    [-600 <= lowerPercentileElevation <= upperPercentileElevation <=
    29000], whatever the histogram holds. *)
Theorem statistics_percentiles_ordered (histogram : list number)
    (altitude' verticalSpeed' cutOffAltitude : number) :
  -500 <= cutOffAltitude ->
  let s := statistics navigationDisplayConstants histogram altitude'
             verticalSpeed' cutOffAltitude in
  -600 <= lowerPercentileElevation s
  /\ lowerPercentileElevation s <= upperPercentileElevation s
  /\ upperPercentileElevation s <= 29000.
Proof.
  intros Hcut. unfold statistics.
  cbn [histogramMinElevation histogramBinRange histogramBinCount
       navigationDisplayConstants].
  set (first := Js.floor ((cutOffAltitude - HistogramMinimumElevation)
                          / HistogramBinRange)).
  assert (Hfirst : (0 <= first)%Z) by (apply cutOffAltitudeBin_nonneg, Hcut).
  set (total := fold_left _ (binRange first HistogramBinCount) 0).
  pose proof (statisticsLoop_facts histogram total first Hfirst) as [_ Hinv].
  fold initialPercentiles.
  set (loop := fold_left (percentileStep _ _ _) _ _) in *.
  cbv zeta. cbn [lowerPercentileElevation upperPercentileElevation].
  destruct Hinv as (Hupper & Hlower & _).
  change HistogramBinCount with 296%Z in *.
  set (lower := if (lowerBin loop >? 296)%Z then (296 - 1)%Z else lowerBin loop).
  set (upper := if (upperBin loop <? 0)%Z then (296 - 1)%Z else upperBin loop).
  assert (H : (-1 <= lower <= upper)%Z /\ (upper <= 295)%Z).
  { subst lower upper.
    destruct (Z.gtb_spec (lowerBin loop) 296);
      destruct (Z.ltb_spec (upperBin loop) 0); lia. }
  destruct H as [[H1 H2] H3].
  rewrite Zle_Qle in H1, H2, H3.
  unfold HistogramBinRange, HistogramMinimumElevation.
  change (inject_Z (-1)) with (-1) in H1.
  change (inject_Z 295) with 295 in H3.
  repeat split; lra.
Qed.

(** X2.  For a cut-off altitude of at least -500 ft the colorizer's
    [minElevation] and [maxElevation] bracket the terrain of the histogram
    from the bin of the cut-off altitude on: without a bin that holds
    terrain they are -1 and 0 (and [flatEarth] is 99); otherwise
    [minElevation] is the lower edge of the lowest and [maxElevation] the
    upper edge of the highest bin with terrain, so [flatEarth] is at most
    0. *)
Theorem statistics_terrain_bracket (histogram : list number)
    (altitude' verticalSpeed' cutOffAltitude : number) :
  -500 <= cutOffAltitude ->
  let s := statistics navigationDisplayConstants histogram altitude'
             verticalSpeed' cutOffAltitude in
  let first := cutOffAltitudeBin cutOffAltitude in
  ((forall b, (first <= b < HistogramBinCount)%Z -> histogramAt histogram b <= 0)
   /\ minElevation s == -1 /\ maxElevation s == 0 /\ flatEarth s == 99)
  \/ (exists lowest highest : Z,
        (first <= lowest <= highest)%Z /\ (highest < HistogramBinCount)%Z
        /\ 0 < histogramAt histogram lowest
        /\ 0 < histogramAt histogram highest
        /\ (forall b, (first <= b < HistogramBinCount)%Z ->
                      0 < histogramAt histogram b -> (lowest <= b <= highest)%Z)
        /\ minElevation s == binElevation lowest
        /\ maxElevation s == binElevation (highest + 1)
        /\ flatEarth s <= 0).
Proof.
  intros Hcut. unfold statistics, cutOffAltitudeBin.
  cbn [histogramMinElevation histogramBinRange histogramBinCount
       flatEarthThreshold navigationDisplayConstants].
  set (first := Js.floor ((cutOffAltitude - HistogramMinimumElevation)
                          / HistogramBinRange)).
  assert (Hfirst : (0 <= first)%Z) by (apply cutOffAltitudeBin_nonneg, Hcut).
  set (total := fold_left _ (binRange first HistogramBinCount) 0).
  pose proof (statisticsLoop_facts histogram total first Hfirst) as [Hinv _].
  fold initialPercentiles.
  set (loop := fold_left (percentileStep _ _ _) _ _) in *.
  cbv zeta. cbn [minElevation maxElevation flatEarth].
  destruct Hinv as [(Hm & HM & Hnone) | (H1 & H2 & H3 & H4 & H5 & Hall)].
  - left. rewrite Hm, HM. change (-1 >=? 0)%Z with false. cbv iota.
    split; [exact Hnone | ].
    unfold RenderingFlatEarthThreshold. repeat split; lra.
  - right. exists (minElevationBin loop), (maxElevationBin loop).
    destruct (Z.geb_spec (minElevationBin loop) 0) as [_ | ?]; [ | lia].
    destruct (Z.geb_spec (maxElevationBin loop) 0) as [_ | ?]; [ | lia].
    split; [lia | split; [exact H3 | split; [exact H4 | split; [exact H5 | ]]]].
    split; [exact Hall | ].
    unfold binElevation, RenderingFlatEarthThreshold, HistogramBinRange,
      HistogramMinimumElevation.
    split; [reflexivity | split; [reflexivity | ]].
    rewrite Zle_Qle in H2. rewrite inject_Z_plus. change (inject_Z 1) with 1.
    lra.
Qed.

Lemma statistics_percentiles_ordered_witness :
  -500 <= 200
  /\ lowerPercentileElevation
       (statistics navigationDisplayConstants
          (histogramOf [(5%nat, 10); (20%nat, 80); (30%nat, 6); (34%nat, 4)]
             296 0) 3000 0 200)
     <= upperPercentileElevation
          (statistics navigationDisplayConstants
             (histogramOf [(5%nat, 10); (20%nat, 80); (30%nat, 6); (34%nat, 4)]
                296 0) 3000 0 200).
Proof.
  split; [lra | ].
  apply (statistics_percentiles_ordered
           (histogramOf [(5%nat, 10); (20%nat, 80); (30%nat, 6); (34%nat, 4)]
              296 0) 3000 0 200).
  lra.
Defined.

Lemma statistics_terrain_bracket_witness :
  -500 <= 200
  /\ flatEarth
       (statistics navigationDisplayConstants
          (histogramOf [(5%nat, 10); (20%nat, 80); (30%nat, 6); (34%nat, 4)]
             296 0) 3000 0 200) <= 99.
Proof.
  split; [lra | ].
  destruct (statistics_terrain_bracket
              (histogramOf [(5%nat, 10); (20%nat, 80); (30%nat, 6); (34%nat, 4)]
                 296 0) 3000 0 200)
    as [(_ & _ & _ & H) | (lowest & highest & _ & _ & _ & _ & _ & _ & _ & H)].
  - lra.
  - rewrite H. lra.
  - lra.
Defined.

(** ** The cut-off altitude and the histogram *)

Lemma cutOffAltitudeBin_lowest (c : number) :
  c == -500 -> cutOffAltitudeBin c = 0%Z.
Proof.
  intros H. unfold cutOffAltitudeBin, Js.floor.
  rewrite H. reflexivity.
Qed.

Lemma cutOffAltitudeBin_airport (c : number) :
  200 <= c <= 400 -> (7 <= cutOffAltitudeBin c <= 9)%Z.
Proof.
  intros [Hlow Hhigh]. unfold cutOffAltitudeBin, Js.floor.
  unfold HistogramMinimumElevation, HistogramBinRange.
  split.
  - change 7%Z with (Qfloor 7). apply Qfloor_resp_le.
    apply Qle_shift_div_l; lra.
  - change 9%Z with (Qfloor 9). apply Qfloor_resp_le.
    apply Qle_shift_div_r; lra.
Qed.

(** X3.  Whatever the state of the handler, the cut-off altitude it
    answers is a whole number of feet: either -500, which starts the
    colorizer's statistics at the lowest bin of the histogram, or a value
    from 200 to 400, which starts them at bin 7, 8 or 9. *)
Theorem cutOff_values
    (distanceWgs84 : number -> number -> number -> number -> number)
    (this : MapHandler) (c : number) :
  calculateAbsoluteCutOffAltitude distanceWgs84 this = Some c ->
  exists z : Z,
    c == inject_Z z
    /\ ((z = (-500)%Z /\ cutOffAltitudeBin c = 0%Z)
        \/ ((200 <= z <= 400)%Z /\ (7 <= cutOffAltitudeBin c <= 9)%Z)).
Proof.
  assert (Hlowest : forall c', c' = HistogramMinimumElevation ->
            exists z : Z,
              c' == inject_Z z
              /\ ((z = (-500)%Z /\ cutOffAltitudeBin c' = 0%Z)
                  \/ ((200 <= z <= 400)%Z /\ (7 <= cutOffAltitudeBin c' <= 9)%Z))).
  { intros c' ->. exists (-500)%Z. split; [reflexivity | left].
    split; reflexivity. }
  assert (Hairport : forall c' (z : Z), c' == inject_Z z -> (200 <= z <= 400)%Z ->
            exists z : Z,
              c' == inject_Z z
              /\ ((z = (-500)%Z /\ cutOffAltitudeBin c' = 0%Z)
                  \/ ((200 <= z <= 400)%Z /\ (7 <= cutOffAltitudeBin c' <= 9)%Z))).
  { intros c' z Hz Hrange. exists z. split; [exact Hz | right].
    split; [exact Hrange | ]. apply cutOffAltitudeBin_airport.
    rewrite Hz. rewrite (Zle_Qle 200 z), (Zle_Qle z 400) in Hrange.
    exact Hrange. }
  unfold calculateAbsoluteCutOffAltitude.
  destruct (aircraftStatus this) as [status | ].
  - destruct (Bool.eqb _ _).
    + intros H. injection H as <-. apply Hlowest. reflexivity.
    + destruct (extractElevation _ _ _) as [e | ]; [ | discriminate].
      destruct (Js.strict_neq _ _).
      * destruct (_ <=? _).
        -- destruct (Rltb _ _).
           ++ destruct (_ || _).
              ** intros H. injection H as <-.
                 apply (Hairport _ 200%Z); [reflexivity | lia].
              ** intros H. injection H as <-.
                 set (r := Js.round _).
                 apply (Hairport _ (Z.min (Z.max r 200) 400)); [ | lia].
                 unfold RenderingCutOffAltitudeMinimimum,
                   RenderingCutOffAltitudeMaximum.
                 destruct (Z_le_gt_dec r 200) as [Hr | Hr];
                   [ | destruct (Z_le_gt_dec r 400) as [Hr' | Hr']].
                 --- rewrite Z.max_r, Z.min_l by lia.
                     rewrite Zle_Qle in Hr. change (inject_Z 200) with 200 in *.
                     rewrite Q.max_r by exact Hr. rewrite Q.min_l by lra.
                     reflexivity.
                 --- rewrite Z.max_l, Z.min_l by lia.
                     assert (H1 : (200 <= r)%Z) by lia.
                     rewrite Zle_Qle in H1, Hr'.
                     change (inject_Z 200) with 200 in *.
                     change (inject_Z 400) with 400 in *.
                     rewrite Q.max_l by exact H1. rewrite Q.min_l by exact Hr'.
                     reflexivity.
                 --- rewrite Z.max_l, Z.min_r by lia.
                     assert (H1 : (200 <= r)%Z) by lia.
                     assert (H2 : (400 <= r)%Z) by lia.
                     rewrite Zle_Qle in H1, H2.
                     change (inject_Z 200) with 200 in *.
                     change (inject_Z 400) with 400 in *.
                     rewrite Q.max_l by exact H1. rewrite Q.min_r by exact H2.
                     reflexivity.
           ++ intros H. injection H as <-.
              apply (Hairport _ 400%Z); [reflexivity | lia].
        -- intros H. injection H as <-.
           apply (Hairport _ 400%Z); [reflexivity | lia].
      * intros H. injection H as <-. apply Hlowest. reflexivity.
  - intros H. injection H as <-. apply Hlowest. reflexivity.
Qed.

Lemma cutOff_values_witness :
  exists z : Z,
    Qmin (Qmax (inject_Z 333) 200) 400 == inject_Z z
    /\ ((z = (-500)%Z
         /\ cutOffAltitudeBin (Qmin (Qmax (inject_Z 333) 200) 400) = 0%Z)
        \/ ((200 <= z <= 400)%Z
            /\ (7 <= cutOffAltitudeBin (Qmin (Qmax (inject_Z 333) 200) 400)
                <= 9)%Z)).
Proof.
  apply (cutOff_values (fun _ _ _ _ => 2)
           (sampleHandler (Some (sampleStatus 2300 true 47.5 11.55))
              (Some [1900; 2000; 2100; 2200]))).
  apply cutOff_two_miles_shallow.
Defined.

(** ** The colour bands of the normal mode *)

Section NormalModeBands.

Variable drawHigh drawLow : Color -> Z -> Z -> number -> Color.
Variable drawWater : Color -> Z -> Z -> number -> number -> Color.
Variable thread : Thread.
Variables (pixelX pixelY : Z).
Variables elevation height' centre ref m M fe off lp half cutOff : number.

Let K := navigationDisplayConstants.
Let T := normalModeThresholds K ref m fe lp half off.
Let pixel :=
  a32nxRenderNormalMode K drawHigh drawLow drawWater thread elevation
    pixelX pixelY height' centre ref m M fe off lp half cutOff.

(** X4.  A map pixel of the normal mode whose elevation is a terrain
    value (not invalid, unknown or water) is transparent below the
    cut-off altitude; at or above it, with the five thresholds in
    ascending order, the elevation axis is cut into six bands without a
    gap: transparent below [lowDensityGreen], low-density green up to
    [highDensityGreen], high-density green up to [lowDensityYellow],
    low-density yellow up to [highDensityYellow], high-density yellow up
    to [highDensityRed], high-density red from there on. *)
Theorem normalMode_bands :
  inject_Z (thread_y thread) < height' ->
  ~ elevation == InvalidElevation ->
  ~ elevation == UnknownElevation ->
  ~ elevation == WaterElevation ->
  lowDensityGreen T <= highDensityGreen T ->
  highDensityGreen T <= lowDensityYellow T ->
  lowDensityYellow T <= highDensityYellow T ->
  highDensityYellow T <= highDensityRed T ->
  (elevation < cutOff -> pixel = (0, 0, 0, 0))
  /\ (cutOff <= elevation ->
      (elevation < lowDensityGreen T -> pixel = (0, 0, 0, 0))
      /\ (lowDensityGreen T <= elevation < highDensityGreen T ->
          pixel = drawLow (0, 255, 0, 255) pixelX pixelY centre)
      /\ (highDensityGreen T <= elevation < lowDensityYellow T ->
          pixel = drawHigh (0, 255, 0, 255) pixelX pixelY centre)
      /\ (lowDensityYellow T <= elevation < highDensityYellow T ->
          pixel = drawLow (255, 255, 50, 255) pixelX pixelY centre)
      /\ (highDensityYellow T <= elevation < highDensityRed T ->
          pixel = drawHigh (255, 255, 50, 255) pixelX pixelY centre)
      /\ (highDensityRed T <= elevation ->
          pixel = drawHigh (255, 0, 0, 255) pixelX pixelY centre)).
Proof.
  intros Hrow Hinvalid Hunknown Hwater.
  subst pixel T. unfold a32nxRenderNormalMode, normalModeThresholds.
  destruct (a32nxCalculateNormalModeWarningThresholds K ref m off)
    as [[ldy hdy] hdr].
  destruct (a32nxCalculateNormalModeGreenThresholds K ref m fe lp half)
    as [ldg hdg].
  cbn [lowDensityGreen highDensityGreen lowDensityYellow highDensityYellow
       highDensityRed].
  cbn [invalidElevation unknownElevation waterElevation K
       navigationDisplayConstants].
  intros H1 H2 H3 H4.
  apply geb_false in Hrow. rewrite Hrow.
  apply eqb_false in Hinvalid, Hunknown, Hwater.
  rewrite Hinvalid, Hunknown, Hwater. cbn [negb andb].
  split.
  - intros Hbelow. apply geb_false in Hbelow. rewrite Hbelow. reflexivity.
  - intros Habove. apply geb_spec in Habove. rewrite Habove.
    repeat split; intros Hband; js_cases; try reflexivity; exfalso; lra.
Qed.

End NormalModeBands.

Lemma normalMode_bands_witness :
  a32nxRenderNormalMode navigationDisplayConstants
    (fun c _ _ _ => c) (fun c _ _ _ => c) (fun c _ _ _ _ => c)
    {| thread_x := 40; thread_y := 10 |} 2500 10 10 492 378 3000 0 3100
    (-2900) 250 2400 1500 200
  = (0, 255, 0, 255).
Proof.
  destruct (normalMode_bands
              (fun c _ _ _ => c) (fun c _ _ _ => c) (fun c _ _ _ _ => c)
              {| thread_x := 40; thread_y := 10 |} 10 10 2500 492 378 3000 0
              3100 (-2900) 250 2400 1500 200)
    as [_ H].
  - reflexivity.
  - vm_compute. discriminate.
  - vm_compute. discriminate.
  - vm_compute. discriminate.
  - vm_compute. discriminate.
  - vm_compute. discriminate.
  - vm_compute. discriminate.
  - vm_compute. discriminate.
  - destruct H as (_ & _ & H & _); [vm_compute; discriminate | ].
    apply H. split; [vm_compute; discriminate | reflexivity].
Defined.

Lemma stopSide_spec (this : MapHandler) (side : string) (s : SideState) :
  lookupSide (navigationDisplayRendering this) side = Some s ->
  stopSide side this
  = (tt,
     withStatus (withSide this side (stoppedSide s))
       (match config s with
        | Some _ => option_map (deactivateDisplay side) (aircraftStatus this)
        | None => aircraftStatus this
        end),
     cancelledTimers s).
Proof.
  intros Hs. unfold stopSide. unfold bind at 1. unfold getSide at 1.
  rewrite Hs. unfold cancelledTimers.
  assert (Hstate : forall (f : SideState -> SideState) status,
            f s = stoppedSide s ->
            {| worldmap_GridData := worldmap_GridData this;
               currentGroundTruthPosition := currentGroundTruthPosition this;
               cachedElevationData := cachedElevationData this;
               worldMapMetadata := worldMapMetadata this;
               aircraftStatus := status;
               navigationDisplayRendering :=
                 updateSide (navigationDisplayRendering this) side f |}
            = withStatus (withSide this side (stoppedSide s)) status).
  { intros f status Hf. unfold withStatus, withSide. cbn. f_equal.
    apply (updateSide_at _ _ _ _ s Hs). exact Hf. }
  destruct (config s) as [c | ] eqn:Hc;
    destruct (durationInterval s) as [ti | ] eqn:Hti;
    destruct (timeout s) as [tt' | ] eqn:Htt;
    unfold bind, modifySide, modifyStatus, withStatus, emit, ret;
    cbn -[updateSide lookupSide];
    rewrite ?updateSide_updateSide;
    (erewrite Hstate;
     [ | unfold stoppedSide, setLastFrame, setDurationInterval, setTimeout,
           setConfig; cbn; rewrite ?Hc, ?Hti, ?Htt; cbn; reflexivity ]);
    reflexivity.
Qed.

Lemma updateSide_same (sides : list (string * SideState)) (side : string)
    (s : SideState) :
  lookupSide sides side = Some s ->
  updateSide sides side (fun _ => s) = sides.
Proof.
  induction sides as [ | [name s'] sides IH]; [reflexivity | ].
  cbn. destruct (String.eqb name side).
  - intros H. injection H as ->. reflexivity.
  - intros H. rewrite IH by exact H. reflexivity.
Qed.

Lemma cancelledTimers_stoppedSide (s : SideState) :
  cancelledTimers (stoppedSide s) = [].
Proof. reflexivity. Qed.

Lemma stoppedSide_stoppedSide (s : SideState) :
  stoppedSide (stoppedSide s) = stoppedSide s.
Proof.
  unfold stoppedSide. cbn. destruct (config s); reflexivity.
Qed.

Lemma deactivateDisplay_twice (side : string) (status : option AircraftStatus) :
  option_map (deactivateDisplay side) (option_map (deactivateDisplay side) status)
  = option_map (deactivateDisplay side) status.
Proof.
  destruct status as [status | ]; [ | reflexivity]. cbn.
  unfold deactivateDisplay. cbn.
  destruct (String.eqb side "L"), (String.eqb side "R"); reflexivity.
Qed.

(** The handler after [stopRendering], for sides [l] and [r] before. *)
Lemma stopRendering_spec_both (this : MapHandler) (l r : SideState) :
  bothSides this l r ->
  stopRendering this
  = (tt,
     withStatus
       (withSide (withSide this "L" (stoppedSide l)) "R" (stoppedSide r))
       (match config r with
        | Some _ => option_map (deactivateDisplay "R")
        | None => fun status => status
        end
          (match config l with
           | Some _ => option_map (deactivateDisplay "L") (aircraftStatus this)
           | None => aircraftStatus this
           end)),
     cancelledTimers l ++ cancelledTimers r).
Proof.
  intros [Hl Hr]. unfold stopRendering, bind.
  rewrite (stopSide_spec this "L" l Hl).
  rewrite (stopSide_spec _ "R" r).
  - cbn [aircraftStatus withStatus]. f_equal. f_equal.
    destruct (config r); reflexivity.
  - cbn. rewrite lookupSide_updateSide_other by discriminate. exact Hr.
Qed.

Lemma bothSides_stopped (this : MapHandler) (l r l' r' : SideState)
    (status : option AircraftStatus) :
  bothSides this l r ->
  bothSides (withStatus (withSide (withSide this "L" l') "R" r') status) l' r'.
Proof.
  intros [Hl Hr]. split; cbn.
  - rewrite lookupSide_updateSide_other by discriminate.
    rewrite lookupSide_updateSide, Hl. reflexivity.
  - rewrite lookupSide_updateSide.
    rewrite lookupSide_updateSide_other by discriminate.
    rewrite Hr. reflexivity.
Qed.

(** X5.  With both sides there, [stopRendering] cancels the pending
    sweep ticker and update timeout of the side L and then of the side R
    and nothing else; afterwards neither side has a timer or a last
    frame, their configurations are inactive, and the transition data,
    the reset flags and the cached world map are as before. *)
Theorem stopRendering_quiescent (this : MapHandler) (l r : SideState) :
  bothSides this l r ->
  exists this',
    stopRendering this = (tt, this', cancelledTimers l ++ cancelledTimers r)
    /\ bothSides this' (stoppedSide l) (stoppedSide r)
    /\ cachedElevationData this' = cachedElevationData this
    /\ worldMapMetadata this' = worldMapMetadata this
    /\ currentGroundTruthPosition this' = currentGroundTruthPosition this.
Proof.
  intros Hsides. eexists. split; [apply stopRendering_spec_both, Hsides | ].
  split; [apply (bothSides_stopped this l r), Hsides | ].
  repeat split; reflexivity.
Qed.

(** X6.  [stopRendering] is idempotent: run a second time it cancels
    nothing and leaves the handler as it is. *)
Theorem stopRendering_idempotent (this : MapHandler) (l r : SideState) :
  bothSides this l r ->
  let '(_, this', _) := stopRendering this in
  stopRendering this' = (tt, this', []).
Proof.
  intros Hsides.
  rewrite (stopRendering_spec_both this l r Hsides).
  set (status' := match config r with Some _ => _ | None => _ end _).
  pose proof (bothSides_stopped this l r (stoppedSide l) (stoppedSide r)
                status' Hsides) as Hsides'.
  rewrite (stopRendering_spec_both _ _ _ Hsides').
  rewrite !cancelledTimers_stoppedSide, !stoppedSide_stoppedSide.
  cbn [app]. f_equal. f_equal.
  destruct Hsides as [Hl Hr].
  unfold withStatus, withSide. cbn. f_equal.
  - subst status'. unfold stoppedSide. cbn [config].
    destruct (config r), (config l); cbn [option_map];
      rewrite ?deactivateDisplay_twice; try reflexivity.
    destruct (aircraftStatus this) as [status | ]; [ | reflexivity].
    cbn. unfold deactivateDisplay. cbn. reflexivity.
  - set (sides := updateSide (updateSide (navigationDisplayRendering this) "L" _)
                   "R" _).
    assert (HL : lookupSide sides "L" = Some (stoppedSide l)).
    { subst sides. rewrite lookupSide_updateSide_other by discriminate.
      rewrite lookupSide_updateSide, Hl. reflexivity. }
    assert (HR : lookupSide sides "R" = Some (stoppedSide r)).
    { subst sides. rewrite lookupSide_updateSide.
      rewrite lookupSide_updateSide_other by discriminate.
      rewrite Hr. reflexivity. }
    rewrite (updateSide_same sides "L" _ HL).
    apply (updateSide_same sides "R" _ HR).
Qed.

(** The handler after [cleanupMemory], for sides [l] and [r] before. *)
Lemma cleanupMemory_spec (this : MapHandler) (l r : SideState) :
  bothSides this l r ->
  exists this',
    cleanupMemory this = (tt, this', cancelledTimers l ++ cancelledTimers r)
    /\ bothSides this' (forgottenSide l) (forgottenSide r)
    /\ cachedElevationData this'
       = {| gpuData := None; cpuData := None; cachedTiles := 0 |}
    /\ worldMapMetadata this' = worldMapMetadata this
    /\ currentGroundTruthPosition this' = currentGroundTruthPosition this.
Proof.
  intros Hsides. unfold cleanupMemory. unfold bind at 1.
  rewrite (stopRendering_spec_both this l r Hsides).
  destruct Hsides as [Hl Hr].
  unfold bind, clearCachedElevationData, resetFrameData, modifySide.
  cbn -[updateSide lookupSide]. rewrite !app_nil_r.
  eexists. split; [reflexivity | ].
  split; [ | repeat split; reflexivity].
  split; cbn -[updateSide lookupSide].
  - rewrite lookupSide_updateSide_other by discriminate.
    rewrite lookupSide_updateSide.
    rewrite lookupSide_updateSide_other by discriminate.
    rewrite lookupSide_updateSide, Hl. reflexivity.
  - rewrite lookupSide_updateSide.
    rewrite lookupSide_updateSide_other by discriminate.
    rewrite lookupSide_updateSide.
    rewrite lookupSide_updateSide_other by discriminate.
    rewrite Hr. reflexivity.
Qed.

(** Without cached elevations every position reads as [INVALID], and
    the cut-off altitude is the lowest elevation of the histogram. *)
Lemma extractElevation_forgotten (this : MapHandler) (lat lon : number) :
  cpuData (cachedElevationData this) = None ->
  extractElevation this lat lon = Some (Js.Num InvalidElevation).
Proof.
  intros H. unfold extractElevation. rewrite H. reflexivity.
Qed.

Lemma cutOff_forgotten
    (distanceWgs84 : number -> number -> number -> number -> number)
    (this : MapHandler) :
  cpuData (cachedElevationData this) = None ->
  calculateAbsoluteCutOffAltitude distanceWgs84 this
  = Some HistogramMinimumElevation.
Proof.
  intros H. unfold calculateAbsoluteCutOffAltitude.
  destruct (aircraftStatus this) as [status | ]; [ | reflexivity].
  destruct (Bool.eqb _ _); [reflexivity | ].
  rewrite extractElevation_forgotten by exact H. reflexivity.
Qed.

(** X7.  After a lost connection ([onConnectionLost], that is
    [cleanupMemory]) the handler has forgotten the world map: every
    position reads as [INVALID], the cut-off altitude is -500 ft whatever
    the aircraft status says, [createLocalElevationMap] returns [null],
    and a frame-data request for either side returns no frames, no
    thresholds and the timestamp 0.  The timers it cancelled are those of
    [stopRendering]. *)
Theorem onConnectionLost_forgets
    (distanceWgs84 : number -> number -> number -> number -> number)
    (normalizeHeading : R -> R) (projectWgs84 : R -> R -> R -> R -> R * R)
    (rad2deg : R -> R)
    (this : MapHandler) (l r : SideState) :
  bothSides this l r ->
  let '(_, this', trace) := onConnectionLost this in
  trace = cancelledTimers l ++ cancelledTimers r
  /\ (forall lat lon,
        extractElevation this' lat lon = Some (Js.Num InvalidElevation))
  /\ calculateAbsoluteCutOffAltitude distanceWgs84 this'
     = Some HistogramMinimumElevation
  /\ (forall config',
        MapHandler_createLocalElevationMap normalizeHeading projectWgs84
          rad2deg this' config' = Some None)
  /\ (forall side, side = "L"%string \/ side = "R"%string ->
        frameData this' side
        = {| response_side := side; response_timestamp := 0;
             response_thresholds := None; response_frames := [] |}).
Proof.
  intros Hsides. unfold onConnectionLost.
  destruct (cleanupMemory_spec this l r Hsides)
    as (this' & -> & [Hl Hr] & Hcache & _).
  split; [reflexivity | ].
  assert (Hcpu : cpuData (cachedElevationData this') = None)
    by (rewrite Hcache; reflexivity).
  split; [intros lat lon; apply extractElevation_forgotten, Hcpu | ].
  split; [apply cutOff_forgotten, Hcpu | ].
  split.
  - intros config'. unfold MapHandler_createLocalElevationMap.
    rewrite Hcache. reflexivity.
  - intros side [-> | ->]; unfold frameData.
    + rewrite Hl. reflexivity.
    + rewrite Hr. reflexivity.
Qed.

(** A stopped side starts rendering with the next active
    configuration. *)
Lemma startsRendering_stopped (s : SideState) (config' : NavigationDisplay) :
  active config' = true ->
  startsRendering (config (stoppedSide s)) config' = true.
Proof.
  intros H. unfold startsRendering, stoppedSide. cbn [config].
  destruct (config s) as [c | ]; cbn; rewrite H; reflexivity.
Qed.

(** X8.  After [stopRendering], the next active configuration of a side
    outside startup resets the side, sends the reset metadata and starts
    a render pass on the reset side; no timer is left for it to cancel,
    so the trace is the timers [stopRendering] cancelled, the reset
    metadata, and what the render pass does. *)
Theorem configure_after_stop
    (renderNavigationDisplay : string -> bool -> M unit)
    (this : MapHandler) (l r : SideState) (display : string)
    (config' : NavigationDisplay) :
  bothSides this l r ->
  display = "L"%string \/ display = "R"%string ->
  active config' = true ->
  let s := if String.eqb display "L" then l else r in
  exists stopped,
    stopRendering this = (tt, stopped, cancelledTimers l ++ cancelledTimers r)
    /\ (stopRendering ;;
        configureNavigationDisplay renderNavigationDisplay display config' false)
         this
       = let reset :=
           withSide stopped display (resetSide config' (stoppedSide s)) in
         let '(u, this', rendered) :=
           renderNavigationDisplay display false reset in
         (u, this',
          (cancelledTimers l ++ cancelledTimers r)
          ++ [SendNavigationDisplayTerrainMapMetadata display resetMetadata]
          ++ rendered).
Proof.
  intros Hsides Hdisplay Hactive s.
  pose proof (stopRendering_spec_both this l r Hsides) as Hstop.
  set (status' := match config r with Some _ => _ | None => _ end _) in Hstop.
  destruct (bothSides_stopped this l r (stoppedSide l) (stoppedSide r) status'
              Hsides) as [Hl Hr].
  set (stopped := withStatus _ status') in *.
  exists stopped. split; [exact Hstop | ].
  assert (Hside : lookupSide (navigationDisplayRendering stopped) display
                  = Some (stoppedSide s)).
  { subst s. destruct Hdisplay as [-> | ->]; assumption. }
  unfold bind at 1. rewrite Hstop.
  rewrite (configure_reset renderNavigationDisplay stopped display config'
             _ Hside).
  - rewrite (startsRendering_stopped _ config' Hactive).
    rewrite cancelledTimers_stoppedSide. cbv zeta. cbn [app].
    destruct (renderNavigationDisplay display false _) as [[u this'] rendered].
    reflexivity.
  - rewrite (startsRendering_stopped _ config' Hactive). apply orb_true_r.
Qed.

(** A configuration that repeats the one of the side neither stops nor
    starts the rendering. *)
Lemma sameDisplay_unchanged (last config' : NavigationDisplay) :
  sameDisplay last config' ->
  stopsRendering (Some last) config' || startsRendering (Some last) config'
  = false.
Proof.
  intros (Hactive & Hrange & Harc & Hefis).
  unfold stopsRendering, startsRendering.
  rewrite Hactive, Harc.
  apply eqb_spec in Hrange, Hefis. rewrite Hrange, Hefis.
  rewrite Bool.eqb_reflx. cbn [negb].
  destruct (active config'); reflexivity.
Qed.

(** X9.  A configuration that repeats the range, the arc mode, the EFIS
    mode and the activity of the one the side holds changes nothing but
    the stored configuration: no timer is cancelled, no metadata is sent
    and no render pass starts, in startup or not. *)
Theorem configure_repeated
    (renderNavigationDisplay : string -> bool -> M unit)
    (this : MapHandler) (display : string) (config' last : NavigationDisplay)
    (s : SideState) (startup : bool) :
  lookupSide (navigationDisplayRendering this) display = Some s ->
  config s = Some last ->
  sameDisplay last config' ->
  configureNavigationDisplay renderNavigationDisplay display config' startup this
  = (tt, withSide this display (setConfig (Some config') s), []).
Proof.
  intros Hs Hlast Hsame.
  destruct startup.
  - apply configure_startup. exact Hs.
  - apply configure_unchanged; [exact Hs | ].
    rewrite Hlast. apply sameDisplay_unchanged, Hsame.
Qed.

(** X10.  An aircraft status whose two displays repeat the
    configurations of the sides is stored without any effect: it cancels
    no timer, sends nothing and starts no render pass, so the rendering
    cycles of both sides run on undisturbed. *)
Theorem onAircraftStatusUpdate_steady
    (renderNavigationDisplay : string -> bool -> M unit)
    (this : MapHandler) (l r : SideState) (lastCapt lastFO : NavigationDisplay)
    (data : AircraftStatus) (startup : bool) :
  bothSides this l r ->
  config l = Some lastCapt -> config r = Some lastFO ->
  sameDisplay lastCapt (navigationDisplayCapt data) ->
  sameDisplay lastFO (navigationDisplayFO data) ->
  onAircraftStatusUpdate renderNavigationDisplay data startup this
  = (tt,
     withSide
       (withSide (withStatus this (Some data)) "L"
          (setConfig (Some (navigationDisplayCapt data)) l))
       "R" (setConfig (Some (navigationDisplayFO data)) r),
     []).
Proof.
  intros [Hl Hr] HlastL HlastR HsameL HsameR.
  unfold onAircraftStatusUpdate, setStatus. unfold bind at 1.
  unfold bind at 1.
  assert (Hr' : lookupSide
                  (navigationDisplayRendering
                     (withSide (withStatus this (Some data)) "L"
                        (setConfig (Some (navigationDisplayCapt data)) l)))
                  "R" = Some r).
  { cbn. rewrite lookupSide_updateSide_other by discriminate. exact Hr. }
  apply sameDisplay_unchanged in HsameL, HsameR.
  rewrite <- HlastL in HsameL. rewrite <- HlastR in HsameR.
  destruct startup.
  - rewrite (configure_startup renderNavigationDisplay
               (withStatus this (Some data)) "L" (navigationDisplayCapt data)
               l Hl).
    rewrite (configure_startup renderNavigationDisplay _ "R"
               (navigationDisplayFO data) r Hr').
    reflexivity.
  - rewrite (configure_unchanged renderNavigationDisplay
               (withStatus this (Some data)) "L" (navigationDisplayCapt data)
               l Hl HsameL).
    rewrite (configure_unchanged renderNavigationDisplay _ "R"
               (navigationDisplayFO data) r Hr' HsameR).
    reflexivity.
Qed.

Lemma stopRendering_quiescent_witness :
  exists this',
    stopRendering sampleScheduler
    = (tt, this',
       cancelledTimers (waitingSide 1500) ++ cancelledTimers (idleSide 0))
    /\ bothSides this' (stoppedSide (waitingSide 1500)) (stoppedSide (idleSide 0))
    /\ cachedElevationData this' = cachedElevationData sampleScheduler
    /\ worldMapMetadata this' = worldMapMetadata sampleScheduler
    /\ currentGroundTruthPosition this'
       = currentGroundTruthPosition sampleScheduler.
Proof.
  apply (stopRendering_quiescent sampleScheduler (waitingSide 1500) (idleSide 0)).
  split; reflexivity.
Defined.

Lemma stopRendering_idempotent_witness :
  let '(_, this', _) := stopRendering sampleScheduler in
  stopRendering this' = (tt, this', []).
Proof.
  apply (stopRendering_idempotent sampleScheduler (waitingSide 1500)
           (idleSide 0)).
  split; reflexivity.
Defined.

Lemma onConnectionLost_forgets_witness :
  let '(_, this', trace) := onConnectionLost sampleScheduler in
  trace = [ClearTimeout 7%nat]
  /\ (forall lat lon,
        extractElevation this' lat lon = Some (Js.Num InvalidElevation))
  /\ calculateAbsoluteCutOffAltitude (fun _ _ _ _ => 2) this'
     = Some HistogramMinimumElevation
  /\ (forall config',
        MapHandler_createLocalElevationMap (fun x => x)
          (fun _ _ _ _ => (0, 0)%R) (fun x => x) this' config' = Some None)
  /\ (forall side, side = "L"%string \/ side = "R"%string ->
        frameData this' side
        = {| response_side := side; response_timestamp := 0;
             response_thresholds := None; response_frames := [] |}).
Proof.
  apply (onConnectionLost_forgets (fun _ _ _ _ => 2) (fun x => x)
           (fun _ _ _ _ => (0, 0)%R) (fun x => x) sampleScheduler
           (waitingSide 1500) (idleSide 0)).
  split; reflexivity.
Defined.

Lemma configure_after_stop_witness :
  exists stopped,
    stopRendering sampleScheduler = (tt, stopped, [ClearTimeout 7%nat])
    /\ (stopRendering ;;
        configureNavigationDisplay (fun _ _ => ret tt) "L" sampleDisplay false)
         sampleScheduler
       = (tt,
          withSide stopped "L"
            (resetSide sampleDisplay (stoppedSide (waitingSide 1500))),
          [ClearTimeout 7%nat;
           SendNavigationDisplayTerrainMapMetadata "L" resetMetadata]).
Proof.
  apply (configure_after_stop (fun _ _ => ret tt) sampleScheduler
           (waitingSide 1500) (idleSide 0) "L" sampleDisplay).
  - split; reflexivity.
  - left. reflexivity.
  - reflexivity.
Defined.

Lemma configure_repeated_witness :
  configureNavigationDisplay (fun _ _ => ret tt) "L"
    {| range := 10; arcMode := true; active := true; efisMode := 0;
       mapOffsetX := 0; mapWidth := 768; mapHeight := 492 |}
    false sampleScheduler
  = (tt,
     withSide sampleScheduler "L"
       (setConfig
          (Some {| range := 10; arcMode := true; active := true; efisMode := 0;
                   mapOffsetX := 0; mapWidth := 768; mapHeight := 492 |})
          (waitingSide 1500)),
     []).
Proof.
  apply (configure_repeated (fun _ _ => ret tt) sampleScheduler "L" _
           sampleDisplay (waitingSide 1500) false).
  - reflexivity.
  - reflexivity.
  - repeat split; reflexivity.
Defined.

Lemma onAircraftStatusUpdate_steady_witness :
  onAircraftStatusUpdate (fun _ _ => ret tt)
    (sampleStatus 3000 true 47.5 11.55) false
    (withSide sampleScheduler "R" (waitingSide 0))
  = (tt,
     withSide
       (withSide
          (withStatus (withSide sampleScheduler "R" (waitingSide 0))
             (Some (sampleStatus 3000 true 47.5 11.55)))
          "L" (setConfig (Some sampleDisplay) (waitingSide 1500)))
       "R" (setConfig (Some sampleDisplay) (waitingSide 0)),
     []).
Proof.
  apply (onAircraftStatusUpdate_steady (fun _ _ => ret tt)
           (withSide sampleScheduler "R" (waitingSide 0))
           (waitingSide 1500) (waitingSide 0) sampleDisplay sampleDisplay
           (sampleStatus 3000 true 47.5 11.55) false).
  - split; reflexivity.
  - reflexivity.
  - reflexivity.
  - repeat split; reflexivity.
  - repeat split; reflexivity.
Defined.

(** ** The vertical display *)

Lemma channel_of_pixel (pixelX : Z) (c : Z) :
  (0 <= c < 4)%Z ->
  ((4 * pixelX + c) / 4 = pixelX)%Z /\ ((4 * pixelX + c) mod 4 = c)%Z.
Proof.
  intros Hc. split.
  - rewrite Z.mul_comm, Z.div_add_l by lia. rewrite Z.div_small by lia. lia.
  - rewrite Z.mul_comm, Z.add_comm, Z.mod_add by lia. apply Z.mod_small, Hc.
Qed.

(** The colour a thread takes its channel from. *)
Lemma renderVerticalDisplay_thread (this : VerticalDisplayConstants)
    (elevationProfile : Z -> number) (minimumAltitude maximumAltitude : number)
    (pixelX y c : Z) :
  (0 <= c < 4)%Z ->
  renderVerticalDisplay this {| thread_x := 4 * pixelX + c; thread_y := y |}
    elevationProfile minimumAltitude maximumAltitude
  = channel
      (if (pixelX >=? elevationProfileEntryCount this)%Z then (4, 4, 5, 255)
       else
         let elevation := elevationProfile pixelX in
         if (elevation =? verticalInvalidElevation this)
            || (elevation =? verticalUnknownElevation this)
         then (255, 148, 255, 255)
         else
           let altitude :=
             (verticalMaxImageHeight this - inject_Z y)
             * ((maximumAltitude - minimumAltitude) / verticalMaxImageHeight this)
             + minimumAltitude in
           if altitude >? elevation then (4, 4, 5, 255)
           else if elevation =? verticalWaterElevation this then
             if altitude <=? 0 then (0, 255, 255, 255) else (4, 4, 5, 255)
           else (59, 21, 0, 255))
      c.
Proof.
  intros Hc. unfold renderVerticalDisplay. cbn [thread_x thread_y].
  destruct (channel_of_pixel pixelX c Hc) as [-> ->]. cbv zeta.
  destruct (pixelX >=? _)%Z; [reflexivity | ].
  destruct (_ || _); [reflexivity | ].
  destruct (_ >? _); [reflexivity | ].
  destruct (_ =? _); [ | reflexivity].
  destruct (_ <=? _); reflexivity.
Qed.

(** The colour of a pixel, decided once for its four threads. *)
Lemma renderVerticalDisplay_pixel (this : VerticalDisplayConstants)
    (elevationProfile : Z -> number) (minimumAltitude maximumAltitude : number)
    (pixelX y : Z) :
  pixelOf (fun thread => renderVerticalDisplay this thread elevationProfile
                           minimumAltitude maximumAltitude) pixelX y
  = if (pixelX >=? elevationProfileEntryCount this)%Z then (4, 4, 5, 255)
    else
      let elevation := elevationProfile pixelX in
      if (elevation =? verticalInvalidElevation this)
         || (elevation =? verticalUnknownElevation this) then (255, 148, 255, 255)
      else
        let altitude :=
          (verticalMaxImageHeight this - inject_Z y)
          * ((maximumAltitude - minimumAltitude) / verticalMaxImageHeight this)
          + minimumAltitude in
        if altitude >? elevation then (4, 4, 5, 255)
        else if elevation =? verticalWaterElevation this then
          if altitude <=? 0 then (0, 255, 255, 255) else (4, 4, 5, 255)
        else (59, 21, 0, 255).
Proof.
  unfold pixelOf.
  rewrite !renderVerticalDisplay_thread by lia.
  replace (4 * pixelX)%Z with (4 * pixelX + 0)%Z by lia.
  rewrite renderVerticalDisplay_thread by lia.
  match goal with
  | |- (channel ?c _, _, _, _) = _ => destruct c as [[[r g] b] a]
  end.
  reflexivity.
Qed.

Section VerticalDisplayFacts.

Variable this : VerticalDisplayConstants.
Variable elevationProfile : Z -> number.
Variables minimumAltitude maximumAltitude : number.

Let pixel :=
  pixelOf (fun thread => renderVerticalDisplay this thread elevationProfile
                           minimumAltitude maximumAltitude).

(** X11.  The vertical display draws one of four opaque colours:
    background, the colour of missing data, water or obstacle. *)
Theorem renderVerticalDisplay_colours (pixelX y : Z) :
  (0 <= pixelX)%Z -> (0 <= y)%Z ->
  pixel pixelX y = (4, 4, 5, 255)
  \/ pixel pixelX y = (255, 148, 255, 255)
  \/ pixel pixelX y = (0, 255, 255, 255)
  \/ pixel pixelX y = (59, 21, 0, 255).
Proof.
  intros _ _.
  subst pixel. rewrite renderVerticalDisplay_pixel. cbv zeta.
  destruct (pixelX >=? _)%Z; [auto | ].
  destruct (_ || _); [auto | ].
  destruct (_ >? _); [auto | ].
  destruct (_ =? _); [ | auto].
  destruct (_ <=? _); auto.
Qed.

(** X12.  With a positive image height and
    [minimumAltitude <= maximumAltitude], terrain is drawn solid: below
    an obstacle pixel of a column every pixel is an obstacle pixel. *)
Theorem renderVerticalDisplay_solid (pixelX y y' : Z) :
  0 < verticalMaxImageHeight this ->
  minimumAltitude <= maximumAltitude ->
  (0 <= pixelX)%Z -> (0 <= y <= y')%Z ->
  pixel pixelX y = (59, 21, 0, 255) ->
  pixel pixelX y' = (59, 21, 0, 255).
Proof.
  intros Hheight Hrange _ [_ Hy]. subst pixel.
  rewrite !renderVerticalDisplay_pixel. cbv zeta.
  destruct (pixelX >=? _)%Z; [discriminate | ].
  destruct (_ || _); [discriminate | ].
  set (H := verticalMaxImageHeight this) in *.
  set (step := (maximumAltitude - minimumAltitude) / H).
  set (e := elevationProfile pixelX).
  assert (Hstep : 0 <= step).
  { subst step. apply Qle_shift_div_l; [exact Hheight | lra]. }
  assert (Hdown : (H - inject_Z y') * step <= (H - inject_Z y) * step).
  { apply Qmult_le_compat_r; [ | exact Hstep].
    rewrite Zle_Qle in Hy. lra. }
  destruct ((H - inject_Z y) * step + minimumAltitude >? e) eqn:Habove;
    [discriminate | ].
  apply gtb_false in Habove.
  destruct (e =? verticalWaterElevation this).
  - destruct (_ <=? 0); discriminate.
  - intros _.
    assert (Hbelow : (H - inject_Z y') * step + minimumAltitude <= e) by lra.
    apply gtb_false in Hbelow. rewrite Hbelow. reflexivity.
Qed.

End VerticalDisplayFacts.

Lemma renderVerticalDisplay_colours_witness :
  let pixel :=
    pixelOf (fun thread =>
               renderVerticalDisplay sampleVerticalDisplay thread
                 (fun _ => 1000) 0 2000) 1 60 in
  pixel = (4, 4, 5, 255) \/ pixel = (255, 148, 255, 255)
  \/ pixel = (0, 255, 255, 255) \/ pixel = (59, 21, 0, 255).
Proof.
  apply (renderVerticalDisplay_colours sampleVerticalDisplay (fun _ => 1000)
           0 2000 1 60); lia.
Defined.

Lemma renderVerticalDisplay_solid_witness :
  pixelOf (fun thread =>
             renderVerticalDisplay sampleVerticalDisplay thread
               (fun _ => 1000) 0 2000) 1 80
  = (59, 21, 0, 255).
Proof.
  apply (renderVerticalDisplay_solid sampleVerticalDisplay (fun _ => 1000)
           0 2000 1 60 80).
  - reflexivity.
  - vm_compute. discriminate.
  - lia.
  - lia.
  - vm_compute. reflexivity.
Defined.

(** ** Loops over a counter *)

Lemma fold_seq_invariant {S : Type} (body : S -> nat -> S)
    (P : nat -> S -> Prop) (n : nat) :
  (forall k s, (k < n)%nat -> P k s -> P (Datatypes.S k) (body s k)) ->
  forall s, P O s -> P n (fold_left body (seq 0 n) s).
Proof.
  induction n as [ | n IH]; intros Hstep s Hs; [exact Hs | ].
  rewrite seq_S, fold_left_app. cbn [fold_left Nat.add].
  apply Hstep; [lia | ].
  apply IH; [ | exact Hs].
  intros k s' Hk. apply Hstep. lia.
Qed.

Lemma nested_fold_invariant {S : Type} (body : nat -> nat -> S -> S)
    (P : nat -> S -> Prop) (rows columns : nat) :
  (forall y x s, (y < rows)%nat -> (x < columns)%nat ->
     P (y * columns + x)%nat s ->
     P (Datatypes.S (y * columns + x)) (body y x s)) ->
  forall s, P O s ->
  P (rows * columns)%nat
    (fold_left (fun s y => fold_left (fun s x => body y x s) (seq 0 columns) s)
       (seq 0 rows) s).
Proof.
  intros Hstep s Hs.
  apply (fold_seq_invariant _ (fun y s => P (y * columns)%nat s) rows);
    [ | exact Hs].
  intros y s' Hy Hs'.
  replace (Datatypes.S y * columns)%nat with (y * columns + columns)%nat by lia.
  apply (fold_seq_invariant _ (fun x s => P (y * columns + x)%nat s) columns).
  - intros x s'' Hx Hs''.
    replace (y * columns + Datatypes.S x)%nat
      with (Datatypes.S (y * columns + x)) by lia.
    apply Hstep; assumption.
  - rewrite Nat.add_0_r. exact Hs'.
Qed.

(** ** Typed arrays *)

Lemma uint32Set_length (a : Uint32Array) (i : nat) (v : Z) :
  List.length (uint32Set a i v) = List.length a.
Proof.
  unfold uint32Set. destruct (Nat.ltb_spec i (List.length a)); [ | reflexivity].
  rewrite length_app. cbn [List.length]. rewrite length_firstn, length_skipn. lia.
Qed.

Lemma uint32Get_uint32Set (a : Uint32Array) (i j : nat) (v : Z) :
  (j < List.length a)%nat ->
  uint32Get (uint32Set a i v) j = if (j =? i)%nat then v else uint32Get a j.
Proof.
  intros Hj. unfold uint32Set, uint32Get.
  destruct (Nat.ltb_spec i (List.length a)) as [Hi | Hi].
  - destruct (Nat.eqb_spec j i) as [-> | Hne].
    + rewrite app_nth2; rewrite length_firstn; [ | lia].
      replace (i - Nat.min i (List.length a))%nat with O by lia. reflexivity.
    + destruct (Nat.lt_ge_cases j i) as [Hlt | Hge].
      * rewrite app_nth1 by (rewrite length_firstn; lia).
        rewrite <- (firstn_skipn i a) at 2.
        rewrite app_nth1 by (rewrite length_firstn; lia). reflexivity.
      * rewrite app_nth2; rewrite length_firstn; [ | lia].
        replace (Nat.min i (List.length a)) with i by lia.
        replace (j - i)%nat with (Datatypes.S (j - Datatypes.S i)) by lia.
        cbn [nth].
        rewrite <- (firstn_skipn (Datatypes.S i) a) at 2.
        rewrite app_nth2; rewrite length_firstn; [ | lia].
        replace (Nat.min (Datatypes.S i) (List.length a))
          with (Datatypes.S i) by lia.
        reflexivity.
  - destruct (Nat.eqb_spec j i) as [-> | Hne]; [lia | reflexivity].
Qed.

Lemma uint32Get_background (n j : nat) :
  (j < n)%nat -> uint32Get (repeat 4278518788%Z n) j = 4278518788%Z.
Proof.
  intros Hj. unfold uint32Get. apply nth_repeat_lt. exact Hj.
Qed.

(** ** Frames at screen resolution *)

Lemma frameWidth_value : frameWidth = 768%nat.
Proof. reflexivity. Qed.

Lemma firstMapWord_value : firstMapWord = (128 * frameWidth)%nat.
Proof.
  unfold firstMapWord, frameWidth, RenderingMapStartOffsetY,
    RenderingMaxPixelWidth. lia.
Qed.

Lemma frameWords_value : frameWords = (768 * frameWidth)%nat.
Proof.
  unfold frameWords, frameWidth, RenderingScreenPixelHeight,
    RenderingMaxPixelWidth. lia.
Qed.

(** The words of the frame, one by one: the image of the GPU starts at
    the first word of row 128. *)
Lemma createScreenResolutionFrame_words (config : NavigationDisplay)
    (gpuData : Uint32Array) :
  let frame := createScreenResolutionFrame config gpuData in
  let rows := Z.to_nat (Qceiling (mapHeight config)) in
  List.length frame = frameWords
  /\ forall j, (j < frameWords)%nat ->
       uint32Get frame j
       = if (firstMapWord <=? j)%nat && (j <? firstMapWord + rows * frameWidth)%nat
         then uint32Get gpuData (j - firstMapWord)
         else 4278518788%Z.
Proof.
  unfold createScreenResolutionFrame, countBelow.
  set (rows := Z.to_nat (Qceiling (mapHeight config))).
  generalize frameWords firstMapWord frameWidth. intros N base W.
  set (body := fun (y x : nat) (state : Uint32Array * nat * nat) =>
                 let '(destination, sourceIndex, destinationIndex) := state in
                 (uint32Set destination destinationIndex
                    (uint32Get gpuData sourceIndex),
                  S sourceIndex, S destinationIndex)).
  set (Inv := fun (k : nat) (state : Uint32Array * nat * nat) =>
                let '(destination, sourceIndex, destinationIndex) := state in
                sourceIndex = k /\ destinationIndex = (base + k)%nat
                /\ List.length destination = N
                /\ forall j, (j < N)%nat ->
                     uint32Get destination j
                     = if (base <=? j)%nat && (j <? base + k)%nat
                       then uint32Get gpuData (j - base)
                       else 4278518788%Z).
  set (loop := fold_left _ (seq 0 rows) _).
  assert (Hloop : Inv (rows * W)%nat loop).
  { refine (nested_fold_invariant body Inv rows W _
              (repeat 4278518788%Z N, O, base) _).
    - intros y x [[destination sourceIndex] destinationIndex] Hy Hx.
      unfold Inv, body. intros (-> & -> & Hlen & Hget).
      split; [reflexivity | split; [lia | split]].
      + rewrite uint32Set_length. exact Hlen.
      + intros j Hj. rewrite uint32Get_uint32Set by lia.
        destruct (Nat.eqb_spec j (base + (y * W + x))) as [-> | Hne].
        * destruct (Nat.leb_spec base (base + (y * W + x))); [ | lia].
          destruct (Nat.ltb_spec (base + (y * W + x))
                      (base + S (y * W + x))); [ | lia].
          cbn [andb]. f_equal. lia.
        * rewrite Hget by exact Hj.
          destruct (Nat.leb_spec base j); cbn [andb]; [ | reflexivity].
          destruct (Nat.ltb_spec j (base + (y * W + x)));
            destruct (Nat.ltb_spec j (base + S (y * W + x)));
            try reflexivity; lia.
    - unfold Inv. split; [reflexivity | split; [lia | split]].
      + apply repeat_length.
      + intros j Hj. rewrite uint32Get_background by exact Hj.
        destruct (Nat.leb_spec base j); cbn [andb]; [ | reflexivity].
        destruct (Nat.ltb_spec j (base + 0)); [lia | reflexivity]. }
  destruct loop as [[destination sourceIndex] destinationIndex].
  unfold Inv in Hloop. destruct Hloop as (_ & _ & Hlen & Hget).
  cbv zeta. split; [exact Hlen | exact Hget].
Qed.

(** A counter is below a bound when it is below its ceiling. *)
Lemma countBelow_spec (bound : number) (n : nat) :
  (n < Z.to_nat (Qceiling bound))%nat <-> inject_Z (Z.of_nat n) < bound.
Proof.
  split.
  - intros H. assert (Hz : (Z.of_nat n <= Qceiling bound - 1)%Z) by lia.
    rewrite Zle_Qle in Hz.
    eapply Qle_lt_trans; [exact Hz | apply Qceiling_lt].
  - intros H. pose proof (Qle_ceiling bound) as Hc.
    assert (Hz : inject_Z (Z.of_nat n) < inject_Z (Qceiling bound))
      by (eapply Qlt_le_trans; eassumption).
    rewrite <- Zlt_Qlt in Hz. lia.
Qed.

Lemma pixel_of_word (j : nat) :
  j = (pixelRow j * frameWidth + pixelColumn j)%nat
  /\ (pixelColumn j < frameWidth)%nat.
Proof.
  unfold pixelRow, pixelColumn. split.
  - rewrite Nat.mul_comm. apply Nat.div_mod_eq.
  - apply Nat.mod_upper_bound. rewrite frameWidth_value. discriminate.
Qed.

Lemma inMapRows_words (config : NavigationDisplay) (j : nat) :
  inMapRows config j
  <-> (firstMapWord <= j
       /\ j < firstMapWord + Z.to_nat (Qceiling (mapHeight config)) * frameWidth)%nat.
Proof.
  unfold inMapRows. rewrite firstMapWord_value.
  destruct (pixel_of_word j) as [Hj Hcolumn].
  set (row := pixelRow j) in *. set (column := pixelColumn j) in *.
  change (Z.to_nat RenderingMapStartOffsetY) with 128%nat.
  change (inject_Z RenderingMapStartOffsetY) with (inject_Z 128).
  rewrite frameWidth_value in *.
  split.
  - intros [Hrow Hheight].
    assert (Hbelow : (row - 128 < Z.to_nat (Qceiling (mapHeight config)))%nat).
    { apply countBelow_spec. rewrite Nat2Z.inj_sub by exact Hrow.
      unfold Zminus. rewrite inject_Z_plus, inject_Z_opp.
      change (inject_Z (Z.of_nat 128)) with (inject_Z 128). lra. }
    lia.
  - intros [Hlow Hhigh].
    assert (Hrow : (128 <= row)%nat) by lia.
    split; [exact Hrow | ].
    assert (Hbelow : (row - 128 < Z.to_nat (Qceiling (mapHeight config)))%nat)
      by nia.
    apply countBelow_spec in Hbelow.
    rewrite Nat2Z.inj_sub in Hbelow by exact Hrow.
    unfold Zminus in Hbelow. rewrite inject_Z_plus, inject_Z_opp in Hbelow.
    change (inject_Z (Z.of_nat 128)) with (inject_Z 128) in Hbelow. lra.
Qed.

(** X13.  The frame at screen resolution has 768 x 768 words; the image
    of the GPU fills the rows of the map, from row 128 on, word by word
    (0 where the image has ended), and every other word is the
    background. *)
Theorem createScreenResolutionFrame_placement (config : NavigationDisplay)
    (gpuData : Uint32Array) (j : nat) :
  (j < frameWords)%nat ->
  let frame := createScreenResolutionFrame config gpuData in
  List.length frame = frameWords
  /\ (inMapRows config j ->
      uint32Get frame j = uint32Get gpuData (j - firstMapWord))
  /\ (~ inMapRows config j -> uint32Get frame j = 4278518788%Z).
Proof.
  intros Hj frame.
  destruct (createScreenResolutionFrame_words config gpuData) as [Hlen Hget].
  fold frame in Hlen, Hget. cbv zeta in Hget.
  split; [exact Hlen | ].
  rewrite (inMapRows_words config j). rewrite (Hget j Hj).
  destruct (Nat.leb_spec firstMapWord j);
    destruct (Nat.ltb_spec j
                (firstMapWord
                 + Z.to_nat (Qceiling (mapHeight config)) * frameWidth));
    cbn [andb]; split; intros; try reflexivity; exfalso; lia.
Qed.

(** ** The frames of the sweep *)

Lemma Rleb_true (a b : R) : (a <= b)%R -> Rleb a b = true.
Proof. intros H. unfold Rleb. destruct (Rle_dec a b); [reflexivity | contradiction]. Qed.

(** The word the sweep puts at a place of the map. *)
Lemma arcModeTransitionFrame_words (config : NavigationDisplay)
    (oldFrame : option Uint32Array) (newFrame : Uint32Array)
    (startAngle endAngle : number) :
  let frame :=
    arcModeTransitionFrame config oldFrame newFrame startAngle endAngle in
  let rows := Z.to_nat (Qceiling (mapHeight config)) in
  List.length frame = frameWords
  /\ forall j, (j < frameWords)%nat ->
       uint32Get frame j
       = if (firstMapWord <=? j)%nat && (j <? firstMapWord + rows * frameWidth)%nat
         then
           let x := ((j - firstMapWord) mod frameWidth)%nat in
           let y := ((j - firstMapWord) / frameWidth)%nat in
           if (inject_Z (Z.of_nat x) >=? mapOffsetX config)
              && (inject_Z (Z.of_nat x) <? mapOffsetX config + mapWidth config)
           then
             if Rleb (Q2R startAngle) (sweepAngle config x y)
                && Rleb (sweepAngle config x y) (Q2R endAngle)
             then uint32Get newFrame j
             else match oldFrame with
                  | Some oldSource => uint32Get oldSource j
                  | None => 4278518788%Z
                  end
           else 4278518788%Z
         else 4278518788%Z.
Proof.
  unfold arcModeTransitionFrame, countBelow.
  set (rows := Z.to_nat (Qceiling (mapHeight config))).
  pose proof frameWidth_value as HW.
  assert (HWpos : (0 < frameWidth)%nat) by (rewrite HW; lia).
  revert HWpos. clear HW.
  generalize frameWords firstMapWord frameWidth. intros N base W HW.
  set (word := fun (x y j : nat) =>
                 if (inject_Z (Z.of_nat x) >=? mapOffsetX config)
                    && (inject_Z (Z.of_nat x) <? mapOffsetX config + mapWidth config)
                 then
                   if Rleb (Q2R startAngle) (sweepAngle config x y)
                      && Rleb (sweepAngle config x y) (Q2R endAngle)
                   then uint32Get newFrame j
                   else match oldFrame with
                        | Some oldSource => uint32Get oldSource j
                        | None => 4278518788%Z
                        end
                 else 4278518788%Z).
  set (Inv := fun (k : nat) (state : Uint32Array * nat) =>
                let '(destination, arrayIndex) := state in
                arrayIndex = (base + k)%nat
                /\ List.length destination = N
                /\ forall j, (j < N)%nat ->
                     uint32Get destination j
                     = if (base <=? j)%nat && (j <? base + k)%nat
                       then word ((j - base) mod W)%nat ((j - base) / W)%nat j
                       else 4278518788%Z).
  set (loop := fold_left _ (seq 0 rows) _).
  assert (Hloop : Inv (rows * W)%nat loop).
  { refine (nested_fold_invariant
              (fun (y x : nat) (state : Uint32Array * nat) =>
                 let '(destination, arrayIndex) := state in
                 (if (inject_Z (Z.of_nat x) >=? mapOffsetX config)
                     && (inject_Z (Z.of_nat x) <? mapOffsetX config + mapWidth config)
                  then
                    if Rleb (Q2R startAngle) (sweepAngle config x y)
                       && Rleb (sweepAngle config x y) (Q2R endAngle)
                    then uint32Set destination arrayIndex
                           (uint32Get newFrame arrayIndex)
                    else
                      match oldFrame with
                      | Some oldSource =>
                        uint32Set destination arrayIndex
                          (uint32Get oldSource arrayIndex)
                      | None => destination
                      end
                  else destination,
                  S arrayIndex))
              Inv rows W _ (repeat 4278518788%Z N, base) _).
    - intros y x [destination arrayIndex] Hy Hx.
      unfold Inv. intros (-> & Hlen & Hget).
      assert (Hx' : ((base + (y * W + x) - base) mod W = x)%nat).
      { replace (base + (y * W + x) - base)%nat with (x + y * W)%nat by lia.
        rewrite Nat.Div0.mod_add. apply Nat.mod_small, Hx. }
      assert (Hy' : ((base + (y * W + x) - base) / W = y)%nat).
      { replace (base + (y * W + x) - base)%nat with (x + y * W)%nat by lia.
        rewrite Nat.div_add by lia. rewrite Nat.div_small by exact Hx. lia. }
      split; [lia | split].
      + destruct (_ && _); [ | exact Hlen].
        destruct (_ && _); [rewrite uint32Set_length; exact Hlen | ].
        destruct oldFrame; [rewrite uint32Set_length; exact Hlen | exact Hlen].
      + intros j Hj.
        set (index := (base + (y * W + x))%nat) in *.
        assert (Hkeep : j = index -> uint32Get destination j = 4278518788%Z).
        { intros ->. rewrite Hget by exact Hj.
          destruct (Nat.ltb_spec index index) as [Hlt | _]; [lia | ].
          rewrite andb_false_r. reflexivity. }
        assert (Hstep :
          uint32Get
            (if (inject_Z (Z.of_nat x) >=? mapOffsetX config)
                && (inject_Z (Z.of_nat x) <? mapOffsetX config + mapWidth config)
             then
               if Rleb (Q2R startAngle) (sweepAngle config x y)
                  && Rleb (sweepAngle config x y) (Q2R endAngle)
               then uint32Set destination index (uint32Get newFrame index)
               else
                 match oldFrame with
                 | Some oldSource =>
                   uint32Set destination index (uint32Get oldSource index)
                 | None => destination
                 end
             else destination) j
          = if (j =? index)%nat then word x y index
            else uint32Get destination j).
        { unfold word.
          destruct (_ && _);
            [destruct (_ && _); [ | destruct oldFrame as [oldSource | ]] | ];
            rewrite ?uint32Get_uint32Set by lia; try reflexivity;
            (destruct (Nat.eqb_spec j index) as [Heq | _];
             [apply Hkeep, Heq | reflexivity]). }
        rewrite Hstep.
        destruct (Nat.eqb_spec j index) as [-> | Hne].
        * destruct (Nat.leb_spec base index); [ | subst index; lia].
          destruct (Nat.ltb_spec index (base + S (y * W + x)));
            [ | subst index; lia].
          cbn [andb]. rewrite Hx', Hy'. reflexivity.
        * rewrite Hget by exact Hj.
          destruct (Nat.leb_spec base j); cbn [andb]; [ | reflexivity].
          destruct (Nat.ltb_spec j index);
            destruct (Nat.ltb_spec j (base + S (y * W + x)));
            try reflexivity; subst index; lia.
    - unfold Inv. split; [lia | split].
      + apply repeat_length.
      + intros j Hj. rewrite uint32Get_background by exact Hj.
        destruct (Nat.leb_spec base j); cbn [andb]; [ | reflexivity].
        destruct (Nat.ltb_spec j (base + 0)); [lia | reflexivity]. }
  destruct loop as [destination arrayIndex].
  unfold Inv in Hloop. destruct Hloop as (_ & Hlen & Hget).
  cbv zeta. split; [exact Hlen | exact Hget].
Qed.

Lemma acos_quarter_turn (t : R) : (0 <= t <= 1)%R -> (0 <= acos t <= PI / 2)%R.
Proof.
  intros [H0 H1].
  assert (Hrange : (-1 <= t <= 1)%R) by rlra.
  pose proof (acos_bound t) as [Hlow Hhigh].
  split; [exact Hlow | ].
  destruct (Rle_lt_dec (acos t) (PI / 2)) as [Hle | Hgt]; [exact Hle | exfalso].
  assert (Hcos : (cos (acos t) < 0)%R).
  { apply cos_lt_0; [exact Hgt | ]. pose proof PI_RGT_0. rlra. }
  rewrite cos_acos in Hcos by exact Hrange. rlra.
Qed.

(** Above the aircraft the angle of a pixel lies in the quarter turn the
    sweep runs through. *)
Lemma sweepAngle_range (config : NavigationDisplay) (x y : nat) :
  inject_Z (Z.of_nat y) < mapHeight config ->
  (0 <= sweepAngle config x y <= 90)%R.
Proof.
  intros Hy. unfold sweepAngle.
  set (dy := (Q2R (mapHeight config) - INR y)%R).
  set (dx := (INR x - IZR RenderingMaxPixelWidth / 2)%R).
  assert (Hdy : (0 < dy)%R).
  { subst dy. apply Qlt_Rlt in Hy. rewrite INR_IZR_INZ.
    unfold Q2R in Hy at 1. cbn in Hy. rlra. }
  assert (Hdist : (dy <= sqrt (dx ^ 2 + dy ^ 2))%R).
  { rewrite <- (sqrt_pow2 dy) at 1 by rlra.
    apply sqrt_le_1_alt. pose proof (pow2_ge_0 dx). rlra. }
  assert (Hpos : (0 < sqrt (dx ^ 2 + dy ^ 2))%R) by rlra.
  assert (Ht : (0 <= dy / sqrt (dx ^ 2 + dy ^ 2) <= 1)%R).
  { split.
    - apply Rmult_le_pos; [rlra | ]. apply Rlt_le, Rinv_0_lt_compat, Hpos.
    - apply (Rmult_le_reg_r (sqrt (dx ^ 2 + dy ^ 2))); [exact Hpos | ].
      unfold Rdiv. rewrite Rmult_assoc, Rinv_l by rlra. rlra. }
  destruct (acos_quarter_turn _ Ht) as [Hlow Hhigh].
  pose proof PI_RGT_0 as Hpi.
  assert (Hscale : (0 < 180 / PI)%R).
  { apply Rmult_lt_0_compat; [rlra | apply Rinv_0_lt_compat, Hpi]. }
  split.
  - apply Rmult_le_pos; [exact Hlow | rlra].
  - replace 90%R with (PI / 2 * (180 / PI))%R by (field; rlra).
    apply Rmult_le_compat_r; [rlra | exact Hhigh].
Qed.

Lemma pixel_in_map (j : nat) :
  (firstMapWord <= j)%nat ->
  ((j - firstMapWord) mod frameWidth = pixelColumn j
   /\ (j - firstMapWord) / frameWidth = pixelRow j - 128)%nat.
Proof.
  intros Hj. unfold pixelColumn, pixelRow.
  rewrite firstMapWord_value in *.
  pose proof frameWidth_value as HW.
  assert (Hj' : j = ((j - 128 * frameWidth) + 128 * frameWidth)%nat) by lia.
  split.
  - rewrite Hj' at 2. rewrite Nat.Div0.mod_add. reflexivity.
  - rewrite Hj' at 2. rewrite Nat.div_add by lia. lia.
Qed.

Section TransitionFrameFacts.

Variable config : NavigationDisplay.
Variable oldFrame : option Uint32Array.
Variable newFrame : Uint32Array.
Variables startAngle endAngle : number.

Let frame :=
  arcModeTransitionFrame config oldFrame newFrame startAngle endAngle.

(** The word of the frame at a place inside the rows of the map. *)
Lemma arcModeTransitionFrame_inside (j : nat) :
  (j < frameWords)%nat -> inMapRows config j ->
  uint32Get frame j
  = if (inject_Z (Z.of_nat (pixelColumn j)) >=? mapOffsetX config)
       && (inject_Z (Z.of_nat (pixelColumn j))
           <? mapOffsetX config + mapWidth config)
    then
      if Rleb (Q2R startAngle) (sweepAngle config (pixelColumn j) (pixelRow j - 128))
         && Rleb (sweepAngle config (pixelColumn j) (pixelRow j - 128))
              (Q2R endAngle)
      then uint32Get newFrame j
      else match oldFrame with
           | Some oldSource => uint32Get oldSource j
           | None => 4278518788%Z
           end
    else 4278518788%Z.
Proof.
  intros Hj Hrows.
  destruct (arcModeTransitionFrame_words config oldFrame newFrame startAngle
              endAngle) as [_ Hget].
  fold frame in Hget. cbv zeta in Hget. rewrite (Hget j Hj).
  apply inMapRows_words in Hrows. destruct Hrows as [Hlow Hhigh].
  destruct (Nat.leb_spec firstMapWord j); [ | lia].
  destruct (Nat.ltb_spec j
              (firstMapWord
               + Z.to_nat (Qceiling (mapHeight config)) * frameWidth)); [ | lia].
  cbn [andb]. destruct (pixel_in_map j Hlow) as [-> ->]. reflexivity.
Qed.

Lemma arcModeTransitionFrame_above_or_below (j : nat) :
  (j < frameWords)%nat -> ~ inMapRows config j ->
  uint32Get frame j = 4278518788%Z.
Proof.
  intros Hj Hrows.
  destruct (arcModeTransitionFrame_words config oldFrame newFrame startAngle
              endAngle) as [_ Hget].
  fold frame in Hget. cbv zeta in Hget. rewrite (Hget j Hj).
  rewrite inMapRows_words in Hrows.
  destruct (Nat.leb_spec firstMapWord j); cbn [andb]; [ | reflexivity].
  destruct (Nat.ltb_spec j
              (firstMapWord
               + Z.to_nat (Qceiling (mapHeight config)) * frameWidth));
    [exfalso; apply Hrows; split; assumption | reflexivity].
Qed.

(** X14.  A frame of the sweep has 768 x 768 words, and every word
    outside the rows or outside the columns of the map is the
    background, whatever the two frames hold there. *)
Theorem arcModeTransitionFrame_outside (j : nat) :
  (j < frameWords)%nat ->
  ~ (inMapRows config j /\ inMapColumns config j) ->
  List.length frame = frameWords /\ uint32Get frame j = 4278518788%Z.
Proof.
  intros Hj Houtside. split.
  - apply (arcModeTransitionFrame_words config oldFrame newFrame startAngle
             endAngle).
  - destruct (Qlt_le_dec
                (inject_Z (Z.of_nat (pixelRow j)) - inject_Z RenderingMapStartOffsetY)
                (mapHeight config)) as [Hheight | Hheight].
    + destruct (le_lt_dec (Z.to_nat RenderingMapStartOffsetY) (pixelRow j))
        as [Hrow | Hrow].
      * assert (Hrows : inMapRows config j) by (split; assumption).
        rewrite (arcModeTransitionFrame_inside j Hj Hrows).
        destruct (_ >=? _) eqn:Hleft; [ | reflexivity].
        destruct (_ <? _) eqn:Hright; [ | reflexivity].
        exfalso. apply Houtside. split; [exact Hrows | ].
        apply geb_spec in Hleft. apply ltb_spec in Hright.
        split; assumption.
      * apply arcModeTransitionFrame_above_or_below; [exact Hj | ].
        intros [Hrow' _]. lia.
    + apply arcModeTransitionFrame_above_or_below; [exact Hj | ].
      intros [_ Hheight']. lra.
Qed.

(** X15.  With the sweep open from 0 to 90 degrees or wider, every word
    inside the map is the word of the new frame: the last frame of a
    transition shows the new map and nothing of the old one. *)
Theorem arcModeTransitionFrame_full_sweep (j : nat) :
  (j < frameWords)%nat ->
  inMapRows config j -> inMapColumns config j ->
  startAngle <= 0 -> 90 <= endAngle ->
  uint32Get frame j = uint32Get newFrame j.
Proof.
  intros Hj Hrows [Hleft Hright] Hstart Hend.
  rewrite (arcModeTransitionFrame_inside j Hj Hrows).
  apply geb_spec in Hleft. apply ltb_spec in Hright.
  rewrite Hleft, Hright. cbn [andb].
  destruct Hrows as [Hrow Hheight].
  destruct (sweepAngle_range config (pixelColumn j) (pixelRow j - 128))
    as [Hlow Hhigh].
  { change (Z.to_nat RenderingMapStartOffsetY) with 128%nat in Hrow.
    rewrite Nat2Z.inj_sub by exact Hrow.
    unfold Zminus. rewrite inject_Z_plus, inject_Z_opp.
    change (inject_Z (Z.of_nat 128)) with (inject_Z RenderingMapStartOffsetY).
    lra. }
  apply Qle_Rle in Hstart, Hend.
  replace (Q2R 0) with 0%R in Hstart by (unfold Q2R; cbn; rlra).
  replace (Q2R 90) with 90%R in Hend by (unfold Q2R; cbn; rlra).
  rewrite !Rleb_true by rlra. reflexivity.
Qed.

(** X16.  The sweep moves no word: a word of the frame is the
    background, or the word of the new frame, or the word of the old
    frame at the same place. *)
Theorem arcModeTransitionFrame_in_place (j : nat) :
  (j < frameWords)%nat ->
  uint32Get frame j = 4278518788%Z
  \/ uint32Get frame j = uint32Get newFrame j
  \/ (exists oldSource,
        oldFrame = Some oldSource
        /\ uint32Get frame j = uint32Get oldSource j).
Proof.
  intros Hj.
  destruct (arcModeTransitionFrame_words config oldFrame newFrame startAngle
              endAngle) as [_ Hget].
  fold frame in Hget. cbv zeta in Hget. rewrite (Hget j Hj).
  destruct (_ && _); [ | left; reflexivity].
  destruct (_ && _); [ | left; reflexivity].
  destruct (_ && _); [right; left; reflexivity | ].
  destruct oldFrame as [oldSource | ]; [ | left; reflexivity].
  right. right. exists oldSource. split; reflexivity.
Qed.

End TransitionFrameFacts.

(** A word of the tenth column of the first row of the map. *)
Lemma sampleWord_rows : inMapRows sampleDisplay (firstMapWord + 10).
Proof.
  apply inMapRows_words.
  unfold firstMapWord, frameWidth, RenderingMapStartOffsetY,
    RenderingMaxPixelWidth, sampleDisplay.
  cbn [mapHeight]. change (Qceiling 492) with 492%Z. lia.
Qed.

Lemma sampleWord_columns : inMapColumns sampleDisplay (firstMapWord + 10).
Proof.
  unfold inMapColumns.
  destruct (pixel_in_map (firstMapWord + 10)) as [H _]; [lia | ].
  rewrite <- H.
  replace (firstMapWord + 10 - firstMapWord)%nat with 10%nat by lia.
  vm_compute. split; [discriminate | reflexivity].
Qed.

Lemma sampleWord_frame : (firstMapWord + 10 < frameWords)%nat.
Proof.
  unfold firstMapWord, frameWords, RenderingMapStartOffsetY,
    RenderingScreenPixelHeight, RenderingMaxPixelWidth. lia.
Qed.

Lemma createScreenResolutionFrame_placement_witness :
  let frame := createScreenResolutionFrame sampleDisplay [7; 8; 9]%Z in
  List.length frame = frameWords
  /\ (inMapRows sampleDisplay (firstMapWord + 10) ->
      uint32Get frame (firstMapWord + 10)
      = uint32Get [7; 8; 9]%Z (firstMapWord + 10 - firstMapWord))
  /\ (~ inMapRows sampleDisplay (firstMapWord + 10) ->
      uint32Get frame (firstMapWord + 10) = 4278518788%Z).
Proof.
  apply (createScreenResolutionFrame_placement sampleDisplay [7; 8; 9]%Z
           (firstMapWord + 10)).
  apply sampleWord_frame.
Defined.

Lemma arcModeTransitionFrame_outside_witness :
  List.length (arcModeTransitionFrame sampleDisplay None [7; 8; 9]%Z 0 45)
  = frameWords
  /\ uint32Get (arcModeTransitionFrame sampleDisplay None [7; 8; 9]%Z 0 45) 5
     = 4278518788%Z.
Proof.
  apply (arcModeTransitionFrame_outside sampleDisplay None [7; 8; 9]%Z 0 45 5).
  - unfold frameWords, RenderingScreenPixelHeight, RenderingMaxPixelWidth. lia.
  - intros [[Hrow _] _]. vm_compute in Hrow. lia.
Defined.

Lemma arcModeTransitionFrame_full_sweep_witness :
  uint32Get (arcModeTransitionFrame sampleDisplay (Some [1; 2; 3]%Z)
               [7; 8; 9]%Z 0 90) (firstMapWord + 10)
  = uint32Get [7; 8; 9]%Z (firstMapWord + 10).
Proof.
  apply (arcModeTransitionFrame_full_sweep sampleDisplay (Some [1; 2; 3]%Z)
           [7; 8; 9]%Z 0 90 (firstMapWord + 10)).
  - apply sampleWord_frame.
  - apply sampleWord_rows.
  - apply sampleWord_columns.
  - vm_compute. discriminate.
  - vm_compute. discriminate.
Defined.

Lemma arcModeTransitionFrame_in_place_witness :
  let frame :=
    arcModeTransitionFrame sampleDisplay (Some [1; 2; 3]%Z) [7; 8; 9]%Z 0 45 in
  uint32Get frame 5 = 4278518788%Z
  \/ uint32Get frame 5 = uint32Get [7; 8; 9]%Z 5
  \/ (exists oldSource,
        Some [1; 2; 3]%Z = Some oldSource
        /\ uint32Get frame 5 = uint32Get oldSource 5).
Proof.
  apply (arcModeTransitionFrame_in_place sampleDisplay (Some [1; 2; 3]%Z)
           [7; 8; 9]%Z 0 45 5).
  unfold frameWords, RenderingScreenPixelHeight, RenderingMaxPixelWidth. lia.
Defined.

(** ** Flattening an array of arrays *)

Lemma fold_seq_from_invariant {S : Type} (body : S -> nat -> S)
    (P : nat -> S -> Prop) (start n : nat) :
  (forall k s, (k < n)%nat -> P k s -> P (Datatypes.S k) (body s (start + k)%nat)) ->
  forall s, P O s -> P n (fold_left body (seq start n) s).
Proof.
  induction n as [ | n IH]; intros Hstep s Hs; [exact Hs | ].
  rewrite seq_S, fold_left_app. cbn [fold_left].
  apply Hstep; [lia | ].
  apply IH; [ | exact Hs].
  intros k s' Hk. apply Hstep. lia.
Qed.

Lemma arrayStore_length {T : Type} (a : list (option T)) (i : nat)
    (v : option T) :
  (i < List.length a)%nat -> List.length (arrayStore a i v) = List.length a.
Proof.
  intros Hi. unfold arrayStore.
  destruct (Nat.ltb_spec i (List.length a)); [ | lia].
  rewrite length_app. cbn [List.length]. rewrite length_firstn, length_skipn. lia.
Qed.

Lemma arrayGet_arrayStore {T : Type} (a : list (option T)) (i j : nat)
    (v : option T) :
  (i < List.length a)%nat ->
  arrayGet (arrayStore a i v) j = if (j =? i)%nat then v else arrayGet a j.
Proof.
  intros Hi. unfold arrayStore, arrayGet.
  destruct (Nat.ltb_spec i (List.length a)); [ | lia].
  destruct (Nat.eqb_spec j i) as [-> | Hne].
  - rewrite app_nth2; rewrite length_firstn; [ | lia].
    replace (i - Nat.min i (List.length a))%nat with O by lia. reflexivity.
  - destruct (Nat.lt_ge_cases j i) as [Hlt | Hge].
    + rewrite app_nth1 by (rewrite length_firstn; lia).
      rewrite <- (firstn_skipn i a) at 2.
      rewrite app_nth1 by (rewrite length_firstn; lia). reflexivity.
    + rewrite app_nth2; rewrite length_firstn; [ | lia].
      replace (Nat.min i (List.length a)) with i by lia.
      replace (j - i)%nat with (Datatypes.S (j - Datatypes.S i)) by lia.
      cbn [nth].
      rewrite <- (firstn_skipn (Datatypes.S i) a) at 2.
      rewrite app_nth2; rewrite length_firstn; [ | lia].
      replace (Nat.min (Datatypes.S i) (List.length a))
        with (Datatypes.S i) by lia.
      reflexivity.
Qed.

(** A store right behind the elements stored so far. *)
Lemma arrayStore_next {T : Type} (stored : list T) (x : T) (holes : nat) :
  arrayStore (map Some stored ++ repeat None (S holes)) (List.length stored)
    (Some x)
  = map Some (stored ++ [x]) ++ repeat None holes.
Proof.
  unfold arrayStore. rewrite length_app, length_map, repeat_length.
  destruct (Nat.ltb_spec (List.length stored) (List.length stored + S holes));
    [ | lia].
  rewrite <- (length_map Some stored) at 1.
  rewrite firstn_app, firstn_all, Nat.sub_diag, firstn_O, app_nil_r.
  replace (S (List.length stored))
    with (List.length (map (@Some T) stored) + 1)%nat
    by (rewrite length_map; lia).
  rewrite skipn_app, Nat.add_comm, Nat.add_sub.
  rewrite (skipn_all2 (map Some stored)) by lia.
  cbn [repeat skipn app]. rewrite map_app, <- app_assoc. reflexivity.
Qed.

Lemma concat_firstn_S {T : Type} (arr : list (list T)) (i : nat) (row : list T) :
  nth_error arr i = Some row ->
  List.concat (firstn (S i) arr) = List.concat (firstn i arr) ++ row.
Proof.
  revert i. induction arr as [ | first arr IH]; intros i Hrow.
  - destruct i; discriminate.
  - destruct i as [ | i].
    + injection Hrow as ->. cbn. rewrite app_nil_r. reflexivity.
    + cbn [firstn List.concat]. rewrite <- app_assoc. f_equal. apply IH. exact Hrow.
Qed.

Lemma firstn_S_nth_error {T : Type} (row : list T) (j : nat) (x : T) :
  nth_error row j = Some x -> firstn (S j) row = firstn j row ++ [x].
Proof.
  revert j. induction row as [ | first row IH]; intros j Hx.
  - destruct j; discriminate.
  - destruct j as [ | j].
    + injection Hx as ->. reflexivity.
    + cbn [firstn app]. f_equal. apply IH. exact Hx.
Qed.

Lemma concat_firstn_length_le {T : Type} (arr : list (list T)) (i : nat) :
  (List.length (List.concat (firstn i arr)) <= List.length (List.concat arr))%nat.
Proof.
  rewrite <- (firstn_skipn i arr) at 2.
  rewrite concat_app, length_app. lia.
Qed.

Section FastFlattenFacts.

Variable T : Type.
Variable arr : list (list T).

Let prefix (i : nat) : nat := List.length (List.concat (firstn i arr)).

(** The first loop fills the array of the row offsets. *)
Lemma fastFlatten_offsets :
  (0 < List.length arr)%nat ->
  let numElementsUptoIndex :=
    fold_left
      (fun numElementsUptoIndex i =>
         arrayStore numElementsUptoIndex i
           (match arrayGet numElementsUptoIndex (i - 1),
                  nth_error arr (i - 1) with
            | Some n, Some row => Some (n + List.length row)%nat
            | _, _ => None
            end))
      (seq 1 (List.length arr - 1))
      (arrayStore (repeat None (List.length arr)) 0 (Some O)) in
  forall i, (i < List.length arr)%nat ->
    arrayGet numElementsUptoIndex i = Some (prefix i).
Proof.
  intros Hn numElementsUptoIndex. subst numElementsUptoIndex.
  set (n := List.length arr) in *.
  set (body := fun (acc : list (option nat)) (i : nat) => arrayStore acc i _).
  assert (Hinv :
    (fun (k : nat) (acc : list (option nat)) =>
       List.length acc = n
       /\ forall i, (i <= k)%nat -> arrayGet acc i = Some (prefix i))
      (n - 1)%nat
      (fold_left body (seq 1 (n - 1))
         (arrayStore (repeat None n) 0 (Some O)))).
  { apply fold_seq_from_invariant.
    - intros k acc Hk [Hlen Hget]. subst body. cbv beta.
      replace (1 + k - 1)%nat with k by lia.
      rewrite (Hget k) by lia.
      destruct (nth_error arr k) as [row | ] eqn:Hrow.
      + split.
        * rewrite arrayStore_length by lia. exact Hlen.
        * intros i Hi. rewrite arrayGet_arrayStore by lia.
          destruct (Nat.eqb_spec i (1 + k)) as [-> | Hne].
          -- subst prefix. cbv beta. change (1 + k)%nat with (S k).
             rewrite (concat_firstn_S arr k row Hrow), length_app. reflexivity.
          -- apply Hget. lia.
      + exfalso. apply nth_error_None in Hrow. fold n in Hrow. lia.
    - split.
      + rewrite arrayStore_length by (rewrite repeat_length; lia).
        apply repeat_length.
      + intros i Hi. replace i with O by lia.
        rewrite arrayGet_arrayStore by (rewrite repeat_length; lia).
        reflexivity. }
  destruct Hinv as [_ Hget]. intros i Hi. apply Hget. lia.
Qed.

(** X17.  [fastFlatten] raises for an empty array of rows; for any other
    it returns the rows one after the other, without a hole. *)
Theorem fastFlatten_concat :
  (arr = [] -> fastFlatten arr = None)
  /\ (arr <> [] -> fastFlatten arr = Some (map Some (List.concat arr))).
Proof.
  split; [intros ->; reflexivity | ].
  intros Hne.
  assert (Hn : (0 < List.length arr)%nat).
  { destruct arr; [contradiction | cbn; lia]. }
  unfold fastFlatten.
  pose proof (fastFlatten_offsets Hn) as Hoffsets. cbv zeta in Hoffsets.
  set (numElementsUptoIndex := fold_left _ (seq 1 _) _) in *.
  destruct (List.length arr) as [ | last] eqn:Hlen; [lia | ].
  rewrite (Hoffsets last) by lia.
  destruct (nth_error arr last) as [lastRow | ] eqn:Hlast;
    [ | apply nth_error_None in Hlast; lia].
  f_equal.
  assert (Htotal : (prefix last + List.length lastRow
                    = List.length (List.concat arr))%nat).
  { subst prefix. cbv beta. rewrite <- length_app.
    rewrite <- (concat_firstn_S arr last lastRow Hlast).
    rewrite <- Hlen, firstn_all. reflexivity. }
  rewrite Htotal.
  set (total := List.length (List.concat arr)) in *.
  set (body := fun (flattened : list (option T)) (i : nat) => _).
  assert (Hinv :
    (fun (i : nat) (flattened : list (option T)) =>
       flattened
       = map Some (List.concat (firstn i arr)) ++ repeat None (total - prefix i))
      (S last)
      (fold_left body (seq 0 (S last)) (repeat None total))).
  { apply fold_seq_from_invariant.
    - intros i flattened Hi ->. subst body. cbv beta. cbn [Nat.add].
      rewrite (Hoffsets i) by lia.
      destruct (nth_error arr i) as [row | ] eqn:Hrow;
        [ | apply nth_error_None in Hrow; lia].
      assert (Hfit : (prefix i + List.length row <= total)%nat).
      { pose proof (concat_firstn_length_le arr (S i)) as Hle.
        rewrite (concat_firstn_S arr i row Hrow), length_app in Hle.
        exact Hle. }
      assert (Hrowinv :
        (fun (j : nat) (flattened : list (option T)) =>
           flattened
           = map Some (List.concat (firstn i arr) ++ firstn j row)
             ++ repeat None (total - prefix i - j))
          (List.length row)
          (fold_left
             (fun flattened j =>
                arrayStore flattened (prefix i + j) (nth_error row j))
             (seq 0 (List.length row))
             (map Some (List.concat (firstn i arr))
              ++ repeat None (total - prefix i)))).
      { apply fold_seq_from_invariant.
        - intros j flattened Hj ->. cbn [Nat.add].
          destruct (nth_error row j) as [x | ] eqn:Hx;
            [ | apply nth_error_None in Hx; lia].
          replace (total - prefix i - j)%nat
            with (S (total - prefix i - S j)) by lia.
          replace (prefix i + j)%nat
            with (List.length (List.concat (firstn i arr) ++ firstn j row)).
          + rewrite arrayStore_next.
            rewrite (firstn_S_nth_error row j x Hx), app_assoc. reflexivity.
          + rewrite length_app, length_firstn. subst prefix. cbv beta. lia.
        - cbn [firstn]. rewrite app_nil_r, Nat.sub_0_r. reflexivity. }
      cbv beta in Hrowinv. rewrite Hrowinv.
      rewrite firstn_all, (concat_firstn_S arr i row Hrow).
      f_equal. f_equal. subst prefix. cbv beta.
      rewrite (concat_firstn_S arr i row Hrow), length_app. lia.
    - cbn [firstn List.concat map app]. subst prefix. cbv beta.
      cbn [firstn List.concat List.length]. rewrite Nat.sub_0_r. reflexivity. }
  cbv beta in Hinv. rewrite Hinv.
  assert (Hall : firstn (S last) arr = arr)
    by (rewrite <- Hlen; apply firstn_all).
  subst prefix. cbv beta. rewrite Hall.
  subst total. rewrite Nat.sub_diag. cbn [repeat]. apply app_nil_r.
Qed.

End FastFlattenFacts.

Lemma fastFlatten_concat_witness :
  fastFlatten [[1; 2]; []; [3]]%Z = Some (map Some [1; 2; 3]%Z).
Proof.
  destruct (fastFlatten_concat Z [[1; 2]; []; [3]]%Z) as [_ H].
  apply H. discriminate.
Defined.

(** ** The flattened grid *)

Lemma fold_left_push {A B : Type} (f : A -> list B) (l : list A) (start : list B) :
  fold_left (fun grid a => grid ++ f a) l start = start ++ flat_map f l.
Proof.
  revert start. induction l as [ | a l IH]; intros start; cbn [fold_left flat_map].
  - symmetry. apply app_nil_r.
  - rewrite IH, app_assoc. reflexivity.
Qed.

Lemma fold_left_same {A S : Type} (f g : S -> A -> S) (l : list A) (s : S) :
  (forall s a, f s a = g s a) -> fold_left f l s = fold_left g l s.
Proof.
  intros H. revert s. induction l as [ | a l IH]; intros s; [reflexivity | ].
  cbn [fold_left]. rewrite H. apply IH.
Qed.

Lemma flat_map_flat_map {A B C : Type} (f : B -> list C) (g : A -> list B)
    (l : list A) :
  flat_map f (flat_map g l) = flat_map (fun a => flat_map f (g a)) l.
Proof.
  induction l as [ | a l IH]; [reflexivity | ].
  cbn [flat_map]. rewrite flat_map_app, IH. reflexivity.
Qed.

Lemma In_indexed {A : Type} (l : list A) (i : nat) (a : A) (start : nat) :
  In (i, a) (combine (seq start (List.length l)) l)
  <-> (start <= i)%nat /\ nth_error l (i - start) = Some a.
Proof.
  revert start. induction l as [ | first l IH]; intros start; cbn [List.length seq combine].
  - split; [intros [] | intros [_ H]; destruct (i - start)%nat; discriminate].
  - cbn [In]. rewrite IH. split.
    + intros [Heq | [Hle Hnth]].
      * injection Heq as <- <-. split; [lia | ].
        rewrite Nat.sub_diag. reflexivity.
      * split; [lia | ].
        replace (i - start)%nat with (S (i - S start)) by lia. exact Hnth.
    + intros [Hle Hnth]. destruct (Nat.eq_dec i start) as [-> | Hne].
      * rewrite Nat.sub_diag in Hnth. injection Hnth as ->. left. reflexivity.
      * right. split; [lia | ].
        replace (i - start)%nat with (S (i - S start)) in Hnth by lia.
        exact Hnth.
Qed.

(** The tiles of the grid that have a tile index, in the order
    [initialize] visits them. *)
Lemma initializeGrid_entries (tiles : list (list GridTile)) :
  exists entries : list (nat * nat * Z),
    flattenedGrid (initializeGrid tiles)
    = flat_map (fun '(row, column, index) =>
                  [Z.of_nat row; Z.of_nat column; index; -1; -1]%Z) entries
    /\ forall row column index,
         In (row, column, index) entries
         <-> exists tile, tileAt tiles row column = Some tile
                          /\ tileIndex tile = index /\ index <> (-1)%Z.
Proof.
  exists (flat_map
            (fun '(rowIndex, row) =>
               flat_map
                 (fun '(columnIndex, tile) =>
                    if negb (tileIndex tile =? -1)%Z
                    then [(rowIndex, columnIndex, tileIndex tile)] else [])
                 (combine (seq 0 (List.length row)) row))
            (combine (seq 0 (List.length tiles)) tiles)).
  split.
  - unfold initializeGrid, forEachIndexed. cbn [flattenedGrid].
    rewrite flat_map_flat_map.
    rewrite (fold_left_same
               (fun s '(index, a) =>
                  fold_left
                    (fun s0 '(index0, a0) =>
                       if negb (tileIndex a0 =? -1)%Z
                       then s0 ++ [Z.of_nat index] ++ [Z.of_nat index0]
                               ++ [tileIndex a0] ++ [InvalidDataValue]
                               ++ [InvalidDataValue]
                       else s0)
                    (combine (seq 0 (List.length a)) a) s)
               (fun s p =>
                  s ++ flat_map
                         (fun '(columnIndex, tile) =>
                            if negb (tileIndex tile =? -1)%Z
                            then [Z.of_nat (fst p); Z.of_nat columnIndex;
                                  tileIndex tile; -1; -1]%Z
                            else [])
                         (combine (seq 0 (List.length (snd p))) (snd p)))).
    + rewrite fold_left_push. cbn [app]. apply flat_map_ext.
      intros [rowIndex row]. cbn [fst snd]. rewrite flat_map_flat_map.
      apply flat_map_ext. intros [columnIndex tile].
      destruct (negb _); reflexivity.
    + intros grid [rowIndex row]. cbn [fst snd].
      rewrite <- fold_left_push. apply fold_left_same.
      intros grid' [columnIndex tile].
      destruct (negb _); [reflexivity | symmetry; apply app_nil_r].
  - intros row column index. rewrite in_flat_map. split.
    + intros [[rowIndex tilesOfRow] [Hrow Hin]]. rewrite in_flat_map in Hin.
      destruct Hin as [[columnIndex tile] [Hcolumn Hin]].
      apply In_indexed in Hrow, Hcolumn.
      rewrite Nat.sub_0_r in Hrow, Hcolumn.
      destruct (Z.eqb_spec (tileIndex tile) (-1)) as [Hnone | Hsome];
        cbn [negb] in Hin; [destruct Hin | ].
      destruct Hin as [Heq | []]. injection Heq as <- <- <-.
      exists tile. unfold tileAt. rewrite (proj2 Hrow).
      split; [exact (proj2 Hcolumn) | split; [reflexivity | exact Hsome]].
    + intros [tile (Htile & Hindex & Hsome)]. unfold tileAt in Htile.
      destruct (nth_error tiles row) as [tilesOfRow | ] eqn:Hrow;
        [ | discriminate].
      exists (row, tilesOfRow). split.
      * apply In_indexed. rewrite Nat.sub_0_r. split; [lia | exact Hrow].
      * rewrite in_flat_map. exists (column, tile). split.
        -- apply In_indexed. rewrite Nat.sub_0_r. split; [lia | exact Htile].
        -- destruct (Z.eqb_spec (tileIndex tile) (-1)) as [Hnone | _];
             [congruence | ].
           cbn [negb]. left. rewrite Hindex. reflexivity.
Qed.

(** The flattened grid, entry by entry. *)
Lemma flat_map_entries_length (entries : list (nat * nat * Z)) :
  List.length
    (flat_map (fun '(row, column, index) =>
                 [Z.of_nat row; Z.of_nat column; index; -1; -1]%Z) entries)
  = (List.length entries * 5)%nat.
Proof.
  induction entries as [ | [[row column] index] entries IH]; [reflexivity | ].
  cbn [flat_map List.length app]. rewrite IH. lia.
Qed.

Lemma flat_map_entries_skipn (entries : list (nat * nat * Z)) (i : nat) :
  skipn (i * 5)
    (flat_map (fun '(row, column, index) =>
                 [Z.of_nat row; Z.of_nat column; index; -1; -1]%Z) entries)
  = flat_map (fun '(row, column, index) =>
                [Z.of_nat row; Z.of_nat column; index; -1; -1]%Z)
      (skipn i entries).
Proof.
  revert entries. induction i as [ | i IH]; intros entries; [reflexivity | ].
  destruct entries as [ | [[row column] index] entries]; [reflexivity | ].
  cbn [flat_map skipn Nat.mul Nat.add app]. apply IH.
Qed.

Lemma flat_map_entries_at (entries : list (nat * nat * Z)) (i : nat)
    (row column : nat) (index : Z) :
  nth_error entries i = Some (row, column, index) ->
  let grid :=
    flat_map (fun '(row, column, index) =>
                [Z.of_nat row; Z.of_nat column; index; -1; -1]%Z) entries in
  firstn 5 (skipn (i * 5) grid)
  = [Z.of_nat row; Z.of_nat column; index; -1; -1]%Z
  /\ nth_error grid (i * 5 + 0) = Some (Z.of_nat row)
  /\ nth_error grid (i * 5 + 1) = Some (Z.of_nat column).
Proof.
  intros Hi grid. subst grid.
  assert (Hskip : skipn i entries
                  = (row, column, index) :: skipn (S i) entries).
  { revert entries Hi. induction i as [ | i IH]; intros entries Hi.
    - destruct entries; [discriminate | ]. injection Hi as ->. reflexivity.
    - destruct entries; [discriminate | ]. cbn [skipn]. apply IH. exact Hi. }
  rewrite <- !nth_error_skipn, flat_map_entries_skipn, Hskip.
  cbn [flat_map app firstn nth_error]. repeat split; reflexivity.
Qed.

Section FlattenedGridFacts.

Variable tiles : list (list GridTile).

Let this := initializeGrid tiles.

(** X18.  On the grid [initialize] flattens, the offset of a tile is
    found exactly for the tiles that have a tile index: for such a tile
    the result is a multiple of 5 inside the grid, and the five numbers
    there are the row, the column and the index of the tile and twice
    -1; for a place without a tile, or with a tile without an index, the
    result is -1. *)
Theorem findFlattenGridDataOffset_initialize (row column : nat) :
  let offset :=
    findFlattenGridDataOffset this (Z.of_nat row) (Z.of_nat column) in
  match tileAt tiles row column with
  | Some tile =>
    if (tileIndex tile =? -1)%Z then offset = (-1)%Z
    else exists i,
        offset = Z.of_nat (i * FlattenGridEntryCount)
        /\ (i < tileCount this)%nat
        /\ gridEntry this (i * FlattenGridEntryCount)
           = [Z.of_nat row; Z.of_nat column; tileIndex tile; -1; -1]%Z
  | None => offset = (-1)%Z
  end.
Proof.
  destruct (initializeGrid_entries tiles) as (entries & Hgrid & Hin).
  fold this in Hgrid.
  assert (Hcount : tileCount this = List.length entries).
  { subst this. unfold initializeGrid in *. cbn [tileCount flattenedGrid] in *.
    rewrite Hgrid, flat_map_entries_length.
    apply Nat.div_mul. discriminate. }
  unfold findFlattenGridDataOffset, gridEntry. rewrite Hcount, Hgrid.
  change FlattenGridEntryCount with 5%nat.
  change FlattenGridRowIndex with 0%nat.
  change FlattenGridColumnIndex with 1%nat.
  set (grid := flat_map _ entries) in *.
  set (matches := fun i : nat => match nth_error grid (i * 5 + 0) with
                                 | Some r => _
                                 | None => _
                                 end).
  assert (Hmatch : forall i, matches i = true ->
            (i < List.length entries)%nat ->
            exists index, nth_error entries i = Some (row, column, index)).
  { intros i Htrue Hi.
    destruct (nth_error entries i) as [[[row' column'] index] | ] eqn:Hentry;
      [ | apply nth_error_None in Hentry; lia].
    destruct (flat_map_entries_at entries i row' column' index Hentry)
      as (_ & Hrow & Hcolumn).
    fold grid in Hrow, Hcolumn. subst matches. cbv beta in Htrue.
    rewrite Hrow, Hcolumn in Htrue.
    apply andb_prop in Htrue. destruct Htrue as [Hr Hc].
    apply Z.eqb_eq in Hr, Hc. apply Nat2Z.inj in Hr, Hc. subst row' column'.
    exists index. reflexivity. }
  assert (Hfound : forall i index,
            nth_error entries i = Some (row, column, index) ->
            matches i = true).
  { intros i index Hentry.
    destruct (flat_map_entries_at entries i row column index Hentry)
      as (_ & Hrow & Hcolumn).
    fold grid in Hrow, Hcolumn. subst matches. cbv beta.
    rewrite Hrow, Hcolumn, !Z.eqb_refl. reflexivity. }
  assert (Hnone : (forall index, ~ In (row, column, index) entries) ->
            find matches (seq 0 (List.length entries)) = None).
  { intros Hout.
    destruct (find matches (seq 0 (List.length entries))) as [i | ] eqn:Hfind;
      [exfalso | reflexivity].
    apply find_some in Hfind. destruct Hfind as [Hi Htrue].
    apply in_seq in Hi.
    destruct (Hmatch i Htrue) as [index Hentry]; [lia | ].
    apply (Hout index). apply (nth_error_In _ _ Hentry). }
  destruct (tileAt tiles row column) as [tile | ] eqn:Htile.
  - destruct (Z.eqb_spec (tileIndex tile) (-1)) as [Hinvalid | Hvalid].
    + rewrite Hnone; [reflexivity | ].
      intros index Hentry. apply Hin in Hentry.
      destruct Hentry as (tile' & Htile' & Hindex & Hsome).
      congruence.
    + assert (Hentry : In (row, column, tileIndex tile) entries).
      { apply Hin. exists tile. repeat split; assumption. }
      apply In_nth_error in Hentry. destruct Hentry as [k Hk].
      destruct (find matches (seq 0 (List.length entries))) as [i | ] eqn:Hfind.
      * apply find_some in Hfind. destruct Hfind as [Hi Htrue].
        apply in_seq in Hi.
        destruct (Hmatch i Htrue) as [index Hentry]; [lia | ].
        assert (Hsame : index = tileIndex tile).
        { pose proof (nth_error_In _ _ Hentry) as Hmember.
          apply Hin in Hmember.
          destruct Hmember as (tile' & Htile' & Hindex & _). congruence. }
        subst index. exists i.
        split; [reflexivity | split; [lia | ]].
        apply (flat_map_entries_at entries i row column (tileIndex tile) Hentry).
      * exfalso.
        pose proof (find_none _ _ Hfind k) as Hfalse.
        rewrite (Hfound k _ Hk) in Hfalse.
        assert (Hkin : In k (seq 0 (List.length entries))).
        { apply in_seq. split; [lia | ].
          cbn. apply nth_error_Some. rewrite Hk. discriminate. }
        specialize (Hfalse Hkin). discriminate.
  - rewrite Hnone; [reflexivity | ].
    intros index Hentry. apply Hin in Hentry.
    destruct Hentry as (tile' & Htile' & _). congruence.
Qed.

End FlattenedGridFacts.

Lemma findFlattenGridDataOffset_initialize_witness :
  exists i,
    findFlattenGridDataOffset
      (initializeGrid
         [[{| tileIndex := 4 |}; {| tileIndex := -1 |}];
          [{| tileIndex := -1 |}; {| tileIndex := 7 |}]])
      (Z.of_nat 1) (Z.of_nat 1)
    = Z.of_nat (i * FlattenGridEntryCount)
    /\ (i < 2)%nat
    /\ gridEntry
         (initializeGrid
            [[{| tileIndex := 4 |}; {| tileIndex := -1 |}];
             [{| tileIndex := -1 |}; {| tileIndex := 7 |}]])
         (i * FlattenGridEntryCount)
       = [1; 1; 7; -1; -1]%Z.
Proof.
  exact (findFlattenGridDataOffset_initialize
           [[{| tileIndex := 4 |}; {| tileIndex := -1 |}];
            [{| tileIndex := -1 |}; {| tileIndex := 7 |}]] 1 1).
Defined.

(** ** The transition kernels *)

Lemma Rgeb_true (a b : R) : (b <= a)%R -> Rgeb a b = true.
Proof.
  intros H. unfold Rgeb. destruct (Rge_dec a b) as [_ | Hn]; [reflexivity | ].
  exfalso. apply Hn. apply Rle_ge. exact H.
Qed.

Section TransitionKernelFacts.

Variable rad2deg : R -> R.
Variable thread : Thread.
Variables lastImage image : Texture.
Variables width height angleThreshold : number.

(** The initial transition is the update transition from a black
    image, and the update transition shows, thread by thread, the value
    of the new image or of the last one, the new one in the metadata
    rows. *)
Theorem transition_kernels_agree :
  a32nxInitialNavigationDisplayTransition rad2deg thread image width height
    angleThreshold
  = a32nxUpdateNavigationDisplayTransition rad2deg thread (fun _ _ => 0) image
      width height angleThreshold
  /\ (let value :=
        a32nxUpdateNavigationDisplayTransition rad2deg thread lastImage image
          width height angleThreshold in
      (height <= inject_Z (thread_y thread) ->
       value = image (thread_y thread) (thread_x thread))
      /\ (value = image (thread_y thread) (thread_x thread)
          \/ value = lastImage (thread_y thread) (thread_x thread))).
Proof.
  unfold a32nxInitialNavigationDisplayTransition,
    a32nxUpdateNavigationDisplayTransition.
  split; [reflexivity | ]. cbv zeta. split.
  - intros Hrow. apply geb_spec in Hrow. rewrite Hrow. reflexivity.
  - destruct (_ >=? _); [left; reflexivity | ].
    destruct (Rgeb _ _); [left | right]; reflexivity.
Qed.

(** X19.  With [rad2deg] the conversion [r * 180 / PI], an angle
    threshold of 90 degrees or more shows the new image everywhere: the
    sweep of a transition ends on the new image. *)
Theorem transition_complete :
  (forall r, rad2deg r = (r * 180 / PI)%R) ->
  90 <= angleThreshold ->
  a32nxUpdateNavigationDisplayTransition rad2deg thread lastImage image
    width height angleThreshold
  = image (thread_y thread) (thread_x thread)
  /\ a32nxInitialNavigationDisplayTransition rad2deg thread image width height
       angleThreshold
     = image (thread_y thread) (thread_x thread).
Proof.
  intros Hdeg Hthreshold.
  unfold a32nxInitialNavigationDisplayTransition,
    a32nxUpdateNavigationDisplayTransition.
  destruct (inject_Z (thread_y thread) >=? height) eqn:Hrow;
    [split; reflexivity | ].
  apply geb_false in Hrow. cbv zeta.
  assert (Hangle : (transitionAngle rad2deg thread width height <= 90)%R).
  { unfold transitionAngle. rewrite Hdeg.
    set (dy := Q2R (height - inject_Z (thread_y thread))).
    set (dx := Q2R (inject_Z (thread_x thread / 3) - width / 2.0)).
    assert (Hdy : (0 < dy)%R).
    { subst dy. replace 0%R with (Q2R 0) by (unfold Q2R; cbn; rlra).
      apply Qlt_Rlt. lra. }
    assert (Hdist : (dy <= sqrt (dx ^ 2 + dy ^ 2))%R).
    { rewrite <- (sqrt_pow2 dy) at 1 by rlra.
      apply sqrt_le_1_alt. pose proof (pow2_ge_0 dx). rlra. }
    assert (Hpos : (0 < sqrt (dx ^ 2 + dy ^ 2))%R) by rlra.
    assert (Ht : (0 <= dy / sqrt (dx ^ 2 + dy ^ 2) <= 1)%R).
    { split.
      - apply Rmult_le_pos; [rlra | ]. apply Rlt_le, Rinv_0_lt_compat, Hpos.
      - apply (Rmult_le_reg_r (sqrt (dx ^ 2 + dy ^ 2))); [exact Hpos | ].
        unfold Rdiv. rewrite Rmult_assoc, Rinv_l by rlra. rlra. }
    destruct (acos_quarter_turn _ Ht) as [Hlow Hhigh].
    pose proof PI_RGT_0 as Hpi.
    replace 90%R with (PI / 2 * 180 / PI)%R by (field; rlra).
    unfold Rdiv at 2 4. apply Rmult_le_compat_r.
    - apply Rlt_le, Rinv_0_lt_compat, Hpi.
    - rlra. }
  assert (Hshown : Rgeb (Q2R angleThreshold)
                     (transitionAngle rad2deg thread width height) = true).
  { apply Rgeb_true. apply Qle_Rle in Hthreshold.
    replace (Q2R 90) with 90%R in Hthreshold by (unfold Q2R; cbn; rlra).
    rlra. }
  rewrite Hshown. split; reflexivity.
Qed.

End TransitionKernelFacts.

Lemma transition_complete_witness :
  a32nxUpdateNavigationDisplayTransition (fun r => (r * 180 / PI)%R)
    {| thread_x := 30; thread_y := 10 |} (fun _ _ => 1) (fun _ _ => 2)
    756 492 90
  = 2
  /\ a32nxInitialNavigationDisplayTransition (fun r => (r * 180 / PI)%R)
       {| thread_x := 30; thread_y := 10 |} (fun _ _ => 2) 756 492 90
     = 2.
Proof.
  apply (transition_complete (fun r => (r * 180 / PI)%R)
           {| thread_x := 30; thread_y := 10 |} (fun _ _ => 1) (fun _ _ => 2)
           756 492 90).
  - intros r. reflexivity.
  - vm_compute. discriminate.
Defined.

(** ** The size of the tiles of the cached world map *)

Lemma fold_left_Forall {A S : Type} (body : S -> A -> S) (P : list A -> S -> Prop)
    (l : list A) (s : S) :
  P [] s ->
  (forall seen a s, P seen s -> P (seen ++ [a]) (body s a)) ->
  P l (fold_left body l s).
Proof.
  intros Hstart Hstep.
  assert (H : forall rest seen s, P seen s ->
            P (seen ++ rest) (fold_left body rest s)).
  { induction rest as [ | a rest IH]; intros seen s' Hs.
    - rewrite app_nil_r. exact Hs.
    - cbn [fold_left].
      replace (seen ++ a :: rest) with ((seen ++ [a]) ++ rest)
        by (rewrite <- app_assoc; reflexivity).
      apply IH, Hstep, Hs. }
  apply (H l [] s Hstart).
Qed.

Section MinTileSizeFacts.

Variable cells : list (list GridCell).

(** X22.  The tile size of the cached world map is never the sentinel
    5000 and never above it, and it is at most the size of every tile
    that took part: no smaller a tile is there to read beyond.  For such
    a tile with positive sizes, every sample [y * Columns + x] the world
    map copies from it, [x] below the tile width and [y] below the tile
    height, lies inside the [Rows * Columns] samples of the tile. *)
Theorem minTileSize_bounds :
  let '(minWidthPerTile, minHeightPerTile) := minTileSize cells in
  minWidthPerTile <> 5000%Z /\ minHeightPerTile <> 5000%Z
  /\ (minWidthPerTile <= 5000)%Z /\ (minHeightPerTile <= 5000)%Z
  /\ forall row cell grid,
       In row cells -> In cell row -> loadedGrid cell = Some grid ->
       (minWidthPerTile <= Columns grid)%Z
       /\ (minHeightPerTile <= Rows grid)%Z
       /\ forall x y : Z,
            (0 < Columns grid)%Z -> (0 < Rows grid)%Z ->
            (0 <= x < minWidthPerTile)%Z -> (0 <= y < minHeightPerTile)%Z ->
            (0 <= y * Columns grid + x < Rows grid * Columns grid)%Z.
Proof.
  unfold minTileSize.
  set (inner := fun (sizes : Z * Z) (cell : GridCell) => _).
  set (outer := fun (sizes : Z * Z) (row : list GridCell) => _).
  set (fits := fun (sizes : Z * Z) (cell : GridCell) =>
                 forall grid, loadedGrid cell = Some grid ->
                   (fst sizes <= Columns grid)%Z /\ (snd sizes <= Rows grid)%Z).
  assert (Hinner : forall row sizes,
            (fst sizes <= 5000)%Z /\ (snd sizes <= 5000)%Z ->
            let sizes' := fold_left inner row sizes in
            (fst sizes' <= fst sizes)%Z /\ (snd sizes' <= snd sizes)%Z
            /\ Forall (fits sizes') row).
  { intros row sizes Hsizes.
    apply (fold_left_Forall inner
             (fun seen sizes' =>
                (fst sizes' <= fst sizes)%Z /\ (snd sizes' <= snd sizes)%Z
                /\ Forall (fits sizes') seen)).
    - split; [lia | split; [lia | constructor]].
    - intros seen cell [w h] (Hw & Hh & Hseen). subst inner. cbv beta.
      cbn [fst snd] in *.
      assert (Hweaker : forall w' h', (w' <= w)%Z -> (h' <= h)%Z ->
                Forall (fits (w', h')) seen).
      { intros w' h' Hw' Hh'. eapply Forall_impl; [ | exact Hseen].
        intros c Hc grid Hgrid. specialize (Hc grid Hgrid).
        cbn [fst snd] in *. lia. }
      destruct (elevationmap cell) as [grid | ] eqn:Hmap;
        [destruct (_ && _) eqn:Hcond | ];
        cbn [fst snd];
        (split; [lia | split; [lia | ]]);
        apply Forall_app; (split; [apply Hweaker; lia | ]);
        (constructor; [ | constructor]);
        intros grid' Hgrid'; unfold loadedGrid in Hgrid';
        rewrite Hmap in Hgrid'; try rewrite Hcond in Hgrid';
        try discriminate.
      injection Hgrid' as <-. cbn [fst snd]. lia. }
  assert (Houter :
    let sizes := fold_left outer cells (5000, 5000)%Z in
    (fst sizes <= 5000)%Z /\ (snd sizes <= 5000)%Z
    /\ Forall (Forall (fits sizes)) cells).
  { apply (fold_left_Forall outer
             (fun seen sizes =>
                (fst sizes <= 5000)%Z /\ (snd sizes <= 5000)%Z
                /\ Forall (Forall (fits sizes)) seen)).
    - cbn [fst snd]. split; [lia | split; [lia | constructor]].
    - intros seen row sizes (Hw & Hh & Hseen). subst outer. cbv beta.
      destruct (Hinner row sizes (conj Hw Hh)) as (Hw' & Hh' & Hrow).
      cbv zeta in Hw', Hh', Hrow.
      split; [lia | split; [lia | ]].
      apply Forall_app. split; [ | constructor; [exact Hrow | constructor]].
      eapply Forall_impl; [ | exact Hseen].
      intros r Hr. eapply Forall_impl; [ | exact Hr].
      intros c Hc grid Hgrid. specialize (Hc grid Hgrid). lia. }
  cbv zeta in Houter.
  destruct (fold_left outer cells (5000, 5000)%Z) as [w h].
  cbn [fst snd] in Houter. destruct Houter as (Hw & Hh & Hfits).
  unfold DefaultTileSize.
  assert (Hall : forall row cell grid,
            In row cells -> In cell row -> loadedGrid cell = Some grid ->
            (w <= Columns grid)%Z /\ (h <= Rows grid)%Z).
  { intros row cell grid Hrow Hcell Hgrid.
    rewrite Forall_forall in Hfits. specialize (Hfits row Hrow).
    rewrite Forall_forall in Hfits. apply (Hfits cell Hcell grid Hgrid). }
  split; [destruct (Z.eqb_spec w 5000); lia | ].
  split; [destruct (Z.eqb_spec h 5000); lia | ].
  split; [destruct (Z.eqb_spec w 5000); lia | ].
  split; [destruct (Z.eqb_spec h 5000); lia | ].
  intros row cell grid Hrow Hcell Hgrid.
  destruct (Hall row cell grid Hrow Hcell Hgrid) as [Hcolumns Hrows].
  assert (Hw' : ((if (w =? 5000)%Z then 300 else w) <= Columns grid)%Z)
    by (destruct (Z.eqb_spec w 5000); lia).
  assert (Hh' : ((if (h =? 5000)%Z then 300 else h) <= Rows grid)%Z)
    by (destruct (Z.eqb_spec h 5000); lia).
  split; [exact Hw' | split; [exact Hh' | ]].
  intros x y Hc Hr Hx Hy. nia.
Qed.

End MinTileSizeFacts.

(** ** The tile loader *)

Lemma Qceiling_unique (x : Q) (c : Z) :
  inject_Z c - 1 < x -> x <= inject_Z c -> Qceiling x = c.
Proof.
  intros Hlow Hhigh.
  pose proof (Qle_ceiling x) as Hc. pose proof (Qceiling_lt x) as Hc'.
  unfold Zminus in Hc'. rewrite inject_Z_plus, inject_Z_opp in Hc'.
  change (inject_Z 1) with 1 in Hc'.
  assert (H1 : inject_Z c < inject_Z (Qceiling x) + 1) by lra.
  assert (H2 : inject_Z (Qceiling x) < inject_Z c + 1) by lra.
  change 1 with (inject_Z 1) in H1, H2.
  rewrite <- inject_Z_plus, <- Zlt_Qlt in H1, H2. lia.
Qed.

Section TileLoaderFacts.

Variable worldMapIndices : number -> number -> option TileIndex.
Variable validTile : TileIndex -> bool.
Variable step : number.

Let loop := findTileIndicesLoop worldMapIndices validTile step.

(** The indices the loop has collected are those of valid tiles at the
    longitudes it has visited. *)
Let collected (latitude longitude0 longitude1 : number) (index : TileIndex)
    : Prop :=
  validTile index = true
  /\ exists k : nat,
       longitude0 + inject_Z (Z.of_nat k) * step < longitude1
       /\ exists lon, lon == longitude0 + inject_Z (Z.of_nat k) * step
                      /\ worldMapIndices latitude lon = Some index.

Lemma longitudeSteps_next (longitude0 longitude1 : number) :
  0 < step -> longitude0 < longitude1 ->
  longitudeSteps step longitude0 longitude1
  = S (longitudeSteps step (longitude0 + step) longitude1).
Proof.
  intros Hstep Hlon. unfold longitudeSteps.
  assert (Heq : (longitude1 - longitude0) / step
                == (longitude1 - (longitude0 + step)) / step + 1).
  { field. lra. }
  rewrite Heq.
  assert (Hceil : Qceiling ((longitude1 - (longitude0 + step)) / step + 1)
                  = (Qceiling ((longitude1 - (longitude0 + step)) / step) + 1)%Z).
  { pose proof (Qle_ceiling ((longitude1 - (longitude0 + step)) / step)) as Hc.
    pose proof (Qceiling_lt ((longitude1 - (longitude0 + step)) / step)) as Hc'.
    unfold Zminus in Hc'. rewrite inject_Z_plus, inject_Z_opp in Hc'.
  change (inject_Z 1) with 1 in Hc'.
    apply Qceiling_unique; rewrite inject_Z_plus; change (inject_Z 1) with 1;
      lra. }
  rewrite Hceil.
  assert (Hpos : (0 <= Qceiling ((longitude1 - (longitude0 + step)) / step))%Z).
  { assert (H : -1 < (longitude1 - (longitude0 + step)) / step).
    { apply Qlt_shift_div_l; [exact Hstep | lra]. }
    pose proof (Qle_ceiling ((longitude1 - (longitude0 + step)) / step)) as Hc.
    assert (Hz : inject_Z (-1)
                 < inject_Z (Qceiling ((longitude1 - (longitude0 + step)) / step))).
    { change (inject_Z (-1)) with (-1). lra. }
    rewrite <- Zlt_Qlt in Hz. lia. }
  lia.
Qed.

Lemma longitudeSteps_done (longitude0 longitude1 : number) :
  0 < step -> longitude1 <= longitude0 ->
  longitudeSteps step longitude0 longitude1 = O.
Proof.
  intros Hstep Hlon. unfold longitudeSteps.
  assert (H : (longitude1 - longitude0) / step <= 0).
  { apply Qle_shift_div_r; [exact Hstep | lra]. }
  apply Qceiling_resp_le in H. change (Qceiling 0) with 0%Z in H. lia.
Qed.

(** With a positive step the loop ends after [longitudeSteps] rounds
    and one more test, whatever fuel is left. *)
Lemma findTileIndicesLoop_ends (latitude longitude1 : number) :
  0 < step ->
  forall (rounds fuel : nat) (lon : number) (indices : list TileIndex),
    longitudeSteps step lon longitude1 = rounds ->
    (rounds < fuel)%nat ->
    exists found,
      loop fuel latitude lon longitude1 indices = Some (indices ++ found)
      /\ (List.length found <= rounds)%nat
      /\ Forall (collected latitude lon longitude1) found.
Proof.
  intros Hstep. induction rounds as [ | rounds IH];
    intros fuel lon indices Hrounds Hfuel.
  - destruct fuel as [ | fuel]; [lia | ]. subst loop. cbn [findTileIndicesLoop].
    destruct (lon <? longitude1) eqn:Hlon.
    + apply ltb_spec in Hlon.
      rewrite (longitudeSteps_next lon longitude1 Hstep Hlon) in Hrounds.
      discriminate.
    + exists []. rewrite app_nil_r.
      split; [reflexivity | split; [cbn [List.length]; lia | constructor]].
  - destruct fuel as [ | fuel]; [lia | ]. subst loop. cbn [findTileIndicesLoop].
    destruct (lon <? longitude1) eqn:Hlon.
    + apply ltb_spec in Hlon.
      rewrite (longitudeSteps_next lon longitude1 Hstep Hlon) in Hrounds.
      injection Hrounds as Hrounds.
      assert (Hshift : forall index,
                collected latitude (lon + step) longitude1 index ->
                collected latitude lon longitude1 index).
      { intros index [Hvalid (k & Hk & lon' & Hlon' & Hindex)].
        split; [exact Hvalid | ]. exists (S k).
        rewrite Nat2Z.inj_succ. unfold Z.succ. rewrite inject_Z_plus.
        change (inject_Z 1) with 1.
        split; [lra | ]. exists lon'. split; [lra | exact Hindex]. }
      set (indices' := match worldMapIndices latitude lon with
                       | Some index => _
                       | None => _
                       end).
      destruct (IH fuel (lon + step) indices' Hrounds) as (found & Hloop & Hlen & Hall);
        [lia | ].
      rewrite Hloop. subst indices'.
      destruct (worldMapIndices latitude lon) as [index | ] eqn:Hindex.
      * destruct (validTile index) eqn:Hvalid; cbn [Bool.eqb].
        -- exists (index :: found). rewrite <- app_assoc.
           split; [reflexivity | split; [cbn [List.length]; lia | ]].
           constructor.
           ++ split; [exact Hvalid | ]. exists O.
              change (inject_Z (Z.of_nat 0)) with 0.
              split; [lra | ]. exists lon. split; [lra | exact Hindex].
           ++ eapply Forall_impl; [exact Hshift | exact Hall].
        -- exists found. split; [reflexivity | split; [lia | ]].
           eapply Forall_impl; [exact Hshift | exact Hall].
      * exists found. split; [reflexivity | split; [lia | ]].
        eapply Forall_impl; [exact Hshift | exact Hall].
    + apply ltb_false in Hlon.
      rewrite (longitudeSteps_done lon longitude1 Hstep Hlon) in Hrounds.
      discriminate.
Qed.

(** X20.  With a positive angular step [findTileIndices] returns: after
    [ceil((longitude1 - longitude0) / step)] rounds at most, whatever
    fuel is left, with at most one index per round, each the index of a
    valid tile at one of the longitudes [longitude0 + k * step] below
    [longitude1]. *)
Theorem findTileIndices_returns (latitude longitude0 longitude1 : number)
    (fuel : nat) :
  0 < step ->
  (longitudeSteps step longitude0 longitude1 < fuel)%nat ->
  exists indices,
    findTileIndices worldMapIndices validTile step fuel latitude longitude0
      longitude1
    = Some indices
    /\ (List.length indices <= longitudeSteps step longitude0 longitude1)%nat
    /\ Forall (fun index =>
                 validTile index = true
                 /\ exists k : nat,
                      longitude0 + inject_Z (Z.of_nat k) * step < longitude1
                      /\ exists lon,
                           lon == longitude0 + inject_Z (Z.of_nat k) * step
                           /\ worldMapIndices latitude lon = Some index)
         indices.
Proof.
  intros Hstep Hfuel. unfold findTileIndices.
  destruct (findTileIndicesLoop_ends latitude longitude1 Hstep
              (longitudeSteps step longitude0 longitude1) fuel longitude0 []
              eq_refl Hfuel)
    as (found & Hloop & Hlen & Hall).
  exists found. split; [exact Hloop | split; [exact Hlen | exact Hall]].
Qed.

(** X21.  With an angular step of zero or less and
    [longitude0 < longitude1] the loop of [findTileIndices] never ends:
    no amount of fuel gives a result. *)
Theorem findTileIndices_hangs (latitude longitude0 longitude1 : number)
    (fuel : nat) :
  step <= 0 -> longitude0 < longitude1 ->
  findTileIndices worldMapIndices validTile step fuel latitude longitude0
    longitude1
  = None.
Proof.
  intros Hstep Hlon. unfold findTileIndices.
  generalize (@nil TileIndex) as indices. revert longitude0 Hlon.
  induction fuel as [ | fuel IH]; intros lon Hlon indices; [reflexivity | ].
  cbn [findTileIndicesLoop].
  apply ltb_spec in Hlon. rewrite Hlon. apply ltb_spec in Hlon.
  apply IH. lra.
Qed.

End TileLoaderFacts.

Lemma findTileIndices_returns_witness :
  exists indices,
    findTileIndices
      (fun _ lon => Some {| tileRow := 47; tileColumn := Qfloor lon |})
      (fun index => (tileColumn index <? 12)%Z) 1 5%nat 47 10 (27 # 2)
    = Some indices
    /\ (List.length indices <= longitudeSteps 1%Q 10%Q (27 # 2)%Q)%nat
    /\ Forall (fun index =>
                 (tileColumn index <? 12)%Z = true
                 /\ exists k : nat,
                      10 + inject_Z (Z.of_nat k) * 1 < 27 # 2
                      /\ exists lon,
                           lon == 10 + inject_Z (Z.of_nat k) * 1
                           /\ Some {| tileRow := 47; tileColumn := Qfloor lon |}
                              = Some index)
         indices.
Proof.
  apply (findTileIndices_returns
           (fun _ lon => Some {| tileRow := 47; tileColumn := Qfloor lon |})
           (fun index => (tileColumn index <? 12)%Z) 1 47 10 (27 # 2) 5%nat).
  - reflexivity.
  - vm_compute. lia.
Defined.

Lemma findTileIndices_hangs_witness :
  findTileIndices
    (fun _ lon => Some {| tileRow := 47; tileColumn := Qfloor lon |})
    (fun index => (tileColumn index <? 12)%Z) 0 1000%nat 47 10 (27 # 2)
  = None.
Proof.
  apply (findTileIndices_hangs
           (fun _ lon => Some {| tileRow := 47; tileColumn := Qfloor lon |})
           (fun index => (tileColumn index <? 12)%Z) 0 47 10 (27 # 2) 1000%nat).
  - vm_compute. discriminate.
  - reflexivity.
Defined.

(** ** The sweep of a transition *)

Lemma sweepAngleAfter_value (ticks : nat) :
  sweepAngleAfter ticks == inject_Z (4 * Z.of_nat ticks).
Proof.
  induction ticks as [ | ticks IH]; [reflexivity | ].
  cbn [sweepAngleAfter]. rewrite IH.
  change RenderingMapTransitionAngularStep with (inject_Z 4).
  rewrite <- inject_Z_plus. apply inject_Z_injective. lia.
Qed.

(** The first sweep of a side starts inside the quarter turn. *)
Lemma sweepStartAngle_range (now : number) (s : SideState) :
  exists degrees : Z,
    sweepStartAngle now s = inject_Z degrees /\ (0 <= degrees <= 89)%Z.
Proof.
  unfold sweepStartAngle. destruct (lastFrame s).
  - exists 0%Z. split; [reflexivity | lia].
  - set (count := (now - startupTimestamp s) / RenderingMapFrameValidityTime).
    exists (Js.floor (90 * (count - inject_Z (Js.floor count)))).
    split; [reflexivity | ].
    pose proof (Qfloor_le count) as Hlow. pose proof (Qlt_floor count) as Hhigh.
    rewrite inject_Z_plus in Hhigh. change (inject_Z 1) with 1 in Hhigh.
    unfold Js.floor. split.
    + change 0%Z with (Qfloor 0). apply Qfloor_resp_le. lra.
    + assert (H : (Qfloor (90 * (count - inject_Z (Qfloor count))) < 90)%Z).
      { rewrite Zlt_Qlt.
        eapply Qle_lt_trans; [apply Qfloor_le | ].
        change (inject_Z 90) with 90. lra. }
      lia.
Qed.

Section SweepFacts.

Variable side : string.
Variable config' : NavigationDisplay.
Variable frameData : Uint32Array.
Variable thresholdData : NavigationDisplayData.
Variables startAngle now : number.
Variable transitionFrames : list Frame.
Variable newTimeout : Timer.
Variable this : MapHandler.
Variable s : SideState.

Hypothesis side_known :
  lookupSide (navigationDisplayRendering this) side = Some s.

Let tick := sweepTick side config' frameData thresholdData startAngle now
              transitionFrames newTimeout.

(** A tick below 90 degrees builds a frame and touches nothing. *)
Lemma sweepTick_partial (v : SweepVariables) :
  sweep_angle v + RenderingMapTransitionAngularStep < 90 ->
  let frame :=
    arcModeTransitionFrame config' (lastFrame s) frameData startAngle
      (sweep_angle v + RenderingMapTransitionAngularStep) in
  tick v this
  = (({| sweep_angle := sweep_angle v + RenderingMapTransitionAngularStep;
         sweep_lastFrame := Some frame |}, Some frame),
     this, []).
Proof.
  intros Hangle frame. subst tick. unfold sweepTick.
  unfold bind at 1. unfold getSide at 1. rewrite side_known.
  apply ltb_spec in Hangle. rewrite Hangle.
  unfold bind, ret, getSide. rewrite side_known. reflexivity.
Qed.

(** The tick that reaches 90 degrees ends a sweep that started at 0. *)
Lemma sweepTick_final (v : SweepVariables) :
  sweep_angle v < 90 ->
  90 <= sweep_angle v + RenderingMapTransitionAngularStep ->
  startAngle == 0 ->
  resetRenderingData s = false ->
  tick v this
  = (({| sweep_angle := sweep_angle v + RenderingMapTransitionAngularStep;
         sweep_lastFrame := Some frameData |}, Some frameData),
     withSide this side
       (sweptSide frameData thresholdData now transitionFrames newTimeout s),
     cancelledTimers s).
Proof.
  intros Hbefore Hreached Hstart Hreset. subst tick. unfold sweepTick.
  unfold bind at 1. unfold getSide at 1. rewrite side_known.
  apply ltb_false in Hreached. rewrite Hreached.
  assert (Hprevious : (sweep_angle v + RenderingMapTransitionAngularStep
                       - RenderingMapTransitionAngularStep <? 90) = true).
  { apply ltb_spec. lra. }
  rewrite Hprevious. apply eqb_spec in Hstart. rewrite Hstart.
  unfold cancelledTimers.
  assert (Hstate : forall f : SideState -> SideState,
            f s = sweptSide frameData thresholdData now transitionFrames
                    newTimeout s ->
            {| worldmap_GridData := worldmap_GridData this;
               currentGroundTruthPosition := currentGroundTruthPosition this;
               cachedElevationData := cachedElevationData this;
               worldMapMetadata := worldMapMetadata this;
               aircraftStatus := aircraftStatus this;
               navigationDisplayRendering :=
                 updateSide (navigationDisplayRendering this) side f |}
            = withSide this side
                (sweptSide frameData thresholdData now transitionFrames
                   newTimeout s)).
  { intros f Hf. unfold withSide. f_equal.
    apply (updateSide_at _ _ _ _ s side_known). exact Hf. }
  destruct (config s) as [c | ] eqn:Hc;
    [destruct (active c) eqn:Hactive | ];
    destruct (durationInterval s) as [ti | ] eqn:Hti;
    destruct (timeout s) as [tt' | ] eqn:Htt;
    unfold bind, modifySide, emit, ret, getSide;
    cbn -[updateSide lookupSide];
    rewrite ?updateSide_updateSide, ?lookupSide_updateSide, ?side_known;
    cbn -[updateSide lookupSide]; rewrite ?Hreset, ?Hc, ?Hti, ?Htt;
    cbn -[updateSide lookupSide]; rewrite ?Hactive;
    cbn -[updateSide lookupSide];
    rewrite ?updateSide_updateSide;
    (erewrite Hstate;
     [ | unfold sweptSide, setLastFrame, setDurationInterval, setTimeout,
           setLastTransitionData;
         cbn; rewrite ?Hreset, ?Hc, ?Hti, ?Htt; cbn; rewrite ?Hactive;
         reflexivity ]);
    reflexivity.
Qed.

(** The ticks of a sweep, one after the other. *)
Lemma sweepTicks_next (count : nat) (v : SweepVariables) (handler : MapHandler) :
  sweepTicks (S count) side config' frameData thresholdData startAngle now
    transitionFrames newTimeout v handler
  = let '(r, handler1, trace1) := tick v handler in
    let '(v1, frame) := r in
    let '(r2, handler2, trace2) :=
      sweepTicks count side config' frameData thresholdData startAngle now
        transitionFrames newTimeout v1 handler1 in
    let '(v2, handed) := r2 in
    ((v2, match frame with Some f => f :: handed | None => handed end),
     handler2, trace1 ++ trace2).
Proof.
  subst tick. cbn [sweepTicks]. unfold bind at 1.
  destruct (sweepTick _ _ _ _ _ _ _ _ _ _) as [[[v1 frame] handler1] trace1].
  unfold bind at 1.
  destruct (sweepTicks _ _ _ _ _ _ _ _ _ _ _) as [[[v2 handed] handler2] trace2].
  unfold ret. rewrite app_nil_r. reflexivity.
Qed.

Lemma sweepTicks_to_the_end (count : nat) :
  startAngle == 0 ->
  resetRenderingData s = false ->
  forall (ticks : nat) (last : option Uint32Array),
    (count + ticks = 22)%nat ->
    sweepTicks (S count) side config' frameData thresholdData startAngle now
      transitionFrames newTimeout
      {| sweep_angle := sweepAngleAfter ticks; sweep_lastFrame := last |} this
    = (({| sweep_angle := sweepAngleAfter 23;
           sweep_lastFrame := Some frameData |},
        map (fun k =>
               arcModeTransitionFrame config' (lastFrame s) frameData
                 startAngle (sweepAngleAfter k))
          (seq (S ticks) count)
        ++ [frameData]),
       withSide this side
         (sweptSide frameData thresholdData now transitionFrames newTimeout s),
       cancelledTimers s).
Proof.
  intros Hstart Hreset.
  induction count as [ | count IH]; intros ticks last Hticks.
  - cbn [Nat.add] in Hticks. subst ticks. rewrite sweepTicks_next.
    rewrite sweepTick_final;
      [ | cbn [sweep_angle]; rewrite sweepAngleAfter_value; reflexivity
        | cbn [sweep_angle];
          change (sweepAngleAfter 22 + RenderingMapTransitionAngularStep)
            with (sweepAngleAfter 23);
          rewrite sweepAngleAfter_value; vm_compute; discriminate
        | exact Hstart | exact Hreset].
    cbn [sweepTicks ret sweep_angle seq map app]. rewrite app_nil_r.
    reflexivity.
  - rewrite sweepTicks_next.
    rewrite sweepTick_partial.
    + cbn [sweep_angle].
      change (sweepAngleAfter ticks + RenderingMapTransitionAngularStep)
        with (sweepAngleAfter (S ticks)).
      rewrite (IH (S ticks)) by lia.
      cbn [seq map app]. reflexivity.
    + cbn [sweep_angle].
      change (sweepAngleAfter ticks + RenderingMapTransitionAngularStep)
        with (sweepAngleAfter (S ticks)).
      rewrite sweepAngleAfter_value.
      assert (H : (4 * Z.of_nat (S ticks) < 90)%Z) by lia.
      rewrite Zlt_Qlt in H. exact H.
Qed.

End SweepFacts.

(** X23.  A sweep from angle 0 on a side that is not being reset ends
    with its 23rd tick: the first 22 ticks hand the transition frames
    that are open to 4, 8, ..., 88 degrees to the encoder and touch
    neither the side nor a timer; the 23rd hands over the new frame
    itself, makes it the last frame of the side, cancels the ticker and
    a pending update timeout, stores the time, the thresholds and the
    encoded frames for the web UI, and sets the update timeout when the
    display is active.  The stored thresholds report a maximum elevation
    as caution exactly when they report it as warning. *)
Theorem sweep_completes (side : string) (config' : NavigationDisplay)
    (frameData : Uint32Array) (thresholdData : NavigationDisplayData)
    (startAngle now : number) (transitionFrames : list Frame)
    (newTimeout : Timer) (this : MapHandler) (s : SideState) :
  lookupSide (navigationDisplayRendering this) side = Some s ->
  startAngle == 0 ->
  resetRenderingData s = false ->
  sweepTicks 23 side config' frameData thresholdData startAngle now
    transitionFrames newTimeout
    {| sweep_angle := 0; sweep_lastFrame := None |} this
  = (({| sweep_angle := sweepAngleAfter 23; sweep_lastFrame := Some frameData |},
      map (fun k =>
             arcModeTransitionFrame config' (lastFrame s) frameData startAngle
               (sweepAngleAfter k))
        (seq 1 22)
      ++ [frameData]),
     withSide this side
       (sweptSide frameData thresholdData now transitionFrames newTimeout s),
     cancelledTimers s)
  /\ sweepAngleAfter 22 == 88 /\ sweepAngleAfter 23 == 92
  /\ dto_maxElevationIsCaution (thresholdsOf thresholdData)
     = dto_maxElevationIsWarning (thresholdsOf thresholdData).
Proof.
  intros Hside Hstart Hreset. split.
  - apply (sweepTicks_to_the_end side config' frameData thresholdData
             startAngle now transitionFrames newTimeout this s Hside 22
             Hstart Hreset O None).
    reflexivity.
  - split; [apply sweepAngleAfter_value | ].
    split; [apply sweepAngleAfter_value | reflexivity].
Qed.

(** X24.  Before the ticker is set, [arcModeTransition] cancels a ticker
    that is still running and nothing else, clears the reset flag, and
    stamps the range and the EFIS mode of the display on the threshold
    data.  The sweep starts at 0 degrees when the side has a last frame
    and is not being reset; a side that is being reset loses its last
    frame and its transition data, and its sweep starts at a whole angle
    from 0 to 89 degrees that the clock gives. *)
Theorem arcModeTransition_start (side : string) (config' : NavigationDisplay)
    (thresholdData : NavigationDisplayData) (now : number) (ticker : Timer)
    (this : MapHandler) (s : SideState) :
  lookupSide (navigationDisplayRendering this) side = Some s ->
  exists startAngle thresholdData' this' s',
    arcModeTransition side config' thresholdData now ticker this
    = ((startAngle, thresholdData'), this',
       match durationInterval s with Some t => [ClearInterval t] | None => [] end)
    /\ lookupSide (navigationDisplayRendering this') side = Some s'
    /\ durationInterval s' = Some ticker
    /\ resetRenderingData s' = false
    /\ timeout s' = timeout s /\ config s' = config s
    /\ DisplayRange thresholdData' = range config'
    /\ DisplayMode thresholdData' = efisMode config'
    /\ MinimumElevation thresholdData' = MinimumElevation thresholdData
    /\ MaximumElevation thresholdData' = MaximumElevation thresholdData
    /\ (exists degrees : Z,
          startAngle = inject_Z degrees /\ (0 <= degrees <= 89)%Z)
    /\ (resetRenderingData s = false ->
        lastFrame s' = lastFrame s
        /\ lastTransitionData s' = lastTransitionData s
        /\ (lastFrame s <> None -> startAngle = 0))
    /\ (resetRenderingData s = true ->
        lastFrame s' = None
        /\ lastTransitionData s'
           = {| timestamp := 0; thresholds := None; frames := [] |}
        /\ startAngle = sweepStartAngle now s').
Proof.
  intros Hside. unfold arcModeTransition.
  unfold bind at 1. unfold getSide at 1. rewrite Hside.
  destruct (resetRenderingData s) eqn:Hreset;
    destruct (durationInterval s) as [ti | ] eqn:Hti;
    unfold bind, modifySide, resetFrameData, modifySide, emit, ret, getSide;
    cbn -[updateSide lookupSide sweepStartAngle];
    rewrite ?updateSide_updateSide, ?lookupSide_updateSide, ?Hside;
    cbn -[updateSide lookupSide sweepStartAngle];
    do 4 eexists;
    (split; [reflexivity | ]);
    cbn -[updateSide lookupSide sweepStartAngle];
    rewrite ?updateSide_updateSide, ?lookupSide_updateSide, ?Hside;
    cbn -[updateSide lookupSide sweepStartAngle];
    (split; [reflexivity | ]);
    cbn -[sweepStartAngle];
    repeat (split; [first [reflexivity | exact Hreset] | ]);
    (split; [apply sweepStartAngle_range | ]);
    (split; [intros Hflag | intros Hflag]); try discriminate;
    repeat (split; [reflexivity | ]);
    try reflexivity;
    intros Hlast; unfold sweepStartAngle, setDurationInterval;
    cbn [lastFrame];
    (destruct (lastFrame s); [reflexivity | contradiction]).
Qed.

Lemma sweep_completes_witness :
  sweepTicks 23 "L" sampleDisplay [7; 8; 9]%Z resetMetadata 0 5000 [] 9%nat
    {| sweep_angle := 0; sweep_lastFrame := None |} sampleScheduler
  = (({| sweep_angle := sweepAngleAfter 23;
         sweep_lastFrame := Some [7; 8; 9]%Z |},
      map (fun k =>
             arcModeTransitionFrame sampleDisplay
               (lastFrame (waitingSide 1500)) [7; 8; 9]%Z 0 (sweepAngleAfter k))
        (seq 1 22)
      ++ [[7; 8; 9]%Z]),
     withSide sampleScheduler "L"
       (sweptSide [7; 8; 9]%Z resetMetadata 5000 [] 9%nat (waitingSide 1500)),
     cancelledTimers (waitingSide 1500))
  /\ sweepAngleAfter 22 == 88 /\ sweepAngleAfter 23 == 92
  /\ dto_maxElevationIsCaution (thresholdsOf resetMetadata)
     = dto_maxElevationIsWarning (thresholdsOf resetMetadata).
Proof.
  apply (sweep_completes "L" sampleDisplay [7; 8; 9]%Z resetMetadata 0 5000 []
           9%nat sampleScheduler (waitingSide 1500)); reflexivity.
Defined.

Lemma arcModeTransition_start_witness :
  exists startAngle thresholdData' this' s',
    arcModeTransition "R" sampleDisplay resetMetadata 4000 3%nat sampleScheduler
    = ((startAngle, thresholdData'), this', [])
    /\ lookupSide (navigationDisplayRendering this') "R" = Some s'
    /\ durationInterval s' = Some 3%nat
    /\ resetRenderingData s' = false
    /\ lastFrame s' = None
    /\ startAngle == 54.
Proof.
  destruct (arcModeTransition_start "R" sampleDisplay resetMetadata 4000 3%nat
              sampleScheduler (idleSide 0) eq_refl)
    as (startAngle & thresholdData' & this' & s' & Hrun & Hside & Hticker
        & Hflag & _ & _ & _ & _ & _ & _ & _ & _ & Hreset).
  destruct (Hreset eq_refl) as (Hlast & _ & Hangle).
  exists startAngle, thresholdData', this', s'.
  repeat (split; [assumption | ]).
  rewrite Hangle. unfold sweepStartAngle. rewrite Hlast.
  cbn in Hrun. injection Hrun as _ _ <-. cbn in Hside.
  injection Hside as <-. vm_compute. reflexivity.
Defined.

(** ** The map window of a render pass *)

(** X25.  The map window a render pass derives from the mode of the
    display is centred in the frame and lies inside it, below the 128
    rows above the map: in the frame at screen resolution every row of
    the image of the GPU is placed, none is cut off, and in a frame of
    the sweep the columns of the map are at the same distance from the
    vertical through the aircraft on both sides. *)
Theorem renderedConfig_window (config' : NavigationDisplay)
    (gpuData : Uint32Array) :
  let window := renderedConfig config' in
  mapOffsetX window + mapWidth window + mapOffsetX window
  == inject_Z RenderingMaxPixelWidth
  /\ 0 <= mapOffsetX window
  /\ inject_Z RenderingMapStartOffsetY + mapHeight window
     <= inject_Z RenderingScreenPixelHeight
  /\ (firstMapWord + Z.to_nat (Qceiling (mapHeight window)) * frameWidth
      <= frameWords)%nat
  /\ (forall j,
        (firstMapWord <= j
         < firstMapWord + Z.to_nat (Qceiling (mapHeight window)) * frameWidth)%nat ->
        uint32Get (createScreenResolutionFrame window gpuData) j
        = uint32Get gpuData (j - firstMapWord))
  /\ (forall j,
        inMapColumns window j <->
        mapOffsetX window <= inject_Z (Z.of_nat (pixelColumn j))
        /\ inject_Z (Z.of_nat (pixelColumn j))
           < inject_Z RenderingMaxPixelWidth - mapOffsetX window).
Proof.
  intros window.
  assert (Hwindow :
    (mapOffsetX window == 6 /\ mapWidth window == 756 /\ mapHeight window = 492)
    \/ (mapOffsetX window == 45 /\ mapWidth window == 678
        /\ mapHeight window = 250)).
  { subst window. unfold renderedConfig.
    destruct (arcMode config'); cbn [mapOffsetX mapWidth mapHeight];
      [left | right]; repeat split; reflexivity. }
  assert (Hcentre : mapOffsetX window + mapWidth window + mapOffsetX window
                    == inject_Z RenderingMaxPixelWidth).
  { change (inject_Z RenderingMaxPixelWidth) with 768.
    destruct Hwindow as [(Ho & Hw & _) | (Ho & Hw & _)]; rewrite Ho, Hw;
      reflexivity. }
  assert (Hrows : (firstMapWord
                   + Z.to_nat (Qceiling (mapHeight window)) * frameWidth
                   <= frameWords)%nat).
  { rewrite firstMapWord_value, frameWords_value, frameWidth_value.
    destruct Hwindow as [(_ & _ & ->) | (_ & _ & ->)].
    - change (Qceiling 492) with 492%Z. lia.
    - change (Qceiling 250) with 250%Z. lia. }
  split; [exact Hcentre | ].
  split; [destruct Hwindow as [(Ho & _) | (Ho & _)]; rewrite Ho; lra | ].
  split.
  { change (inject_Z RenderingMapStartOffsetY) with 128.
    change (inject_Z RenderingScreenPixelHeight) with 768.
    destruct Hwindow as [(_ & _ & ->) | (_ & _ & ->)]; lra. }
  split; [exact Hrows | ].
  split.
  - intros j Hj.
    destruct (createScreenResolutionFrame_words window gpuData) as [_ Hget].
    cbv zeta in Hget. rewrite Hget by lia.
    destruct (Nat.leb_spec firstMapWord j); [ | lia].
    destruct (Nat.ltb_spec j
                (firstMapWord
                 + Z.to_nat (Qceiling (mapHeight window)) * frameWidth));
      [reflexivity | lia].
  - intros j. unfold inMapColumns.
    split; intros [Hleft Hright]; (split; [exact Hleft | lra]).
Qed.

(** ** The cached world map *)

Lemma fold_left_indexed_invariant {A S : Type} (body : S -> A -> S)
    (P : nat -> S -> Prop) (l : list A) :
  (forall k a s, nth_error l k = Some a -> P k s ->
     P (Datatypes.S k) (body s a)) ->
  forall s, P O s -> P (List.length l) (fold_left body l s).
Proof.
  induction l as [ | a l IH] using rev_ind; intros Hstep s Hs; [exact Hs | ].
  rewrite fold_left_app, length_app. cbn [fold_left List.length].
  replace (List.length l + 1)%nat with (Datatypes.S (List.length l)) by lia.
  apply (Hstep (List.length l) a).
  - rewrite nth_error_app2 by lia. rewrite Nat.sub_diag. reflexivity.
  - apply IH; [ | exact Hs].
    intros k b s' Hk. apply Hstep.
    rewrite nth_error_app1; [exact Hk | ].
    apply nth_error_Some. congruence.
Qed.

Lemma float32Set_length (a : list Js.value) (i : nat) (v : Js.value) :
  List.length (float32Set a i v) = List.length a.
Proof.
  unfold float32Set. destruct (Nat.ltb_spec i (List.length a)); [ | reflexivity].
  rewrite length_app. cbn [List.length].
  rewrite length_firstn, length_skipn. lia.
Qed.

Lemma float32Set_same (a : list Js.value) (i : nat) (v : Js.value) :
  (i < List.length a)%nat -> nth_error (float32Set a i v) i = Some v.
Proof.
  intros Hi. unfold float32Set.
  destruct (Nat.ltb_spec i (List.length a)); [ | lia].
  rewrite nth_error_app2 by (rewrite length_firstn; lia).
  rewrite length_firstn.
  replace (i - Nat.min i (List.length a))%nat with O by lia. reflexivity.
Qed.

Lemma float32Set_other (a : list Js.value) (i j : nat) (v : Js.value) :
  j <> i -> nth_error (float32Set a i v) j = nth_error a j.
Proof.
  intros Hj. unfold float32Set.
  destruct (Nat.ltb_spec i (List.length a)) as [Hi | Hi]; [ | reflexivity].
  destruct (Nat.lt_ge_cases j i) as [Hlt | Hge].
  - rewrite nth_error_app1 by (rewrite length_firstn; lia).
    rewrite nth_error_firstn.
    destruct (Nat.ltb_spec j i); [reflexivity | lia].
  - rewrite nth_error_app2 by (rewrite length_firstn; lia).
    rewrite length_firstn.
    replace (j - Nat.min i (List.length a))%nat
      with (Datatypes.S (j - Datatypes.S i)) by lia.
    cbn [nth_error]. rewrite nth_error_skipn. f_equal. lia.
Qed.

(** The place of a sample in the world map is the place of no other
    sample. *)
Lemma quotient_remainder_unique (m a b a' b' : nat) :
  (b < m)%nat -> (b' < m)%nat -> (a * m + b = a' * m + b')%nat ->
  a = a' /\ b = b'.
Proof.
  intros Hb Hb' Heq.
  assert (Ha : a = ((a * m + b) / m)%nat)
    by (apply (Nat.div_unique _ _ _ b); lia).
  assert (Ha' : a' = ((a * m + b) / m)%nat)
    by (apply (Nat.div_unique _ _ _ b'); lia).
  assert (Hq : a = a') by congruence.
  split; [exact Hq | ]. rewrite <- Hq in Heq. lia.
Qed.

Section WorldMap.

Variable cells : list (list GridCell).
Variables w h columns : nat.

Hypothesis Hrectangular : rectangular cells columns.
Hypothesis Hsampleable : Forall (Forall sampleable) cells.

Lemma row_length (Y : nat) (row : list GridCell) :
  nth_error cells Y = Some row -> List.length row = columns.
Proof.
  intros Hrow. unfold rectangular in Hrectangular.
  rewrite Forall_forall in Hrectangular.
  apply Hrectangular. apply (nth_error_In _ _ Hrow).
Qed.

Lemma cell_sampleable (Y X : nat) (row : list GridCell) (cell : GridCell)
    (x y : nat) :
  nth_error cells Y = Some row -> nth_error row X = Some cell ->
  exists v, cellSample cell x y = Some v.
Proof.
  intros Hrow Hcell.
  rewrite Forall_forall in Hsampleable.
  pose proof (Hsampleable row (nth_error_In _ _ Hrow)) as Hcells.
  rewrite Forall_forall in Hcells.
  pose proof (Hcells cell (nth_error_In _ _ Hcell)) as Hs.
  unfold cellSample.
  destruct (Z.eqb_spec (cellTileIndex cell) (-1)); [eauto | ].
  destruct Hs as [Hs | (grid & Hgrid & Hsamples)]; [contradiction | ].
  rewrite Hgrid.
  destruct (ElevationMap grid); [eauto | contradiction | eauto].
Qed.

Lemma worldMapIndex_unique (Y y X x Y' y' X' x' : nat) :
  (y < h)%nat -> (y' < h)%nat -> (x < w)%nat -> (x' < w)%nat ->
  (X < columns)%nat -> (X' < columns)%nat ->
  worldMapIndex w h columns Y y X x = worldMapIndex w h columns Y' y' X' x' ->
  Y = Y' /\ y = y' /\ X = X' /\ x = x'.
Proof.
  unfold worldMapIndex. intros Hy Hy' Hx Hx' HX HX' Heq.
  destruct (quotient_remainder_unique (w * columns) (Y * h + y) (X * w + x)
              (Y' * h + y') (X' * w + x')) as [Hrow Hcolumn]; [nia | nia | lia | ].
  destruct (quotient_remainder_unique h Y y Y' y' Hy Hy' Hrow) as [-> ->].
  destruct (quotient_remainder_unique w X x X' x' Hx Hx' Hcolumn) as [-> ->].
  repeat split; reflexivity.
Qed.

Lemma filled_next (Y y X x : nat) (row : list GridCell) (cell : GridCell)
    (v : Js.value) (cpuData : list Js.value) :
  nth_error cells Y = Some row -> nth_error row X = Some cell ->
  (y < h)%nat -> (x < w)%nat -> cellSample cell x y = Some v ->
  filled cells w h columns (worldMapIndex w h columns Y y X x) cpuData ->
  filled cells w h columns (Datatypes.S (worldMapIndex w h columns Y y X x))
    (float32Set cpuData (worldMapIndex w h columns Y y X x) v).
Proof.
  intros Hrow Hcell Hy Hx Hv [Hlength Hfilled].
  assert (HX : (X < columns)%nat).
  { rewrite <- (row_length Y row Hrow). apply nth_error_Some. congruence. }
  assert (HY : (Y < List.length cells)%nat).
  { apply nth_error_Some. congruence. }
  assert (Hinside : (worldMapIndex w h columns Y y X x < List.length cpuData)%nat).
  { rewrite Hlength. unfold worldMapIndex.
    assert ((Y * h + y) + 1 <= h * List.length cells)%nat by nia.
    assert (X * w + x + 1 <= w * columns)%nat by nia.
    nia. }
  split; [rewrite float32Set_length; exact Hlength | ].
  intros Y' y' X' x' row' cell' Hrow' Hcell' Hy' Hx' Hbefore.
  assert (HX' : (X' < columns)%nat).
  { rewrite <- (row_length Y' row' Hrow'). apply nth_error_Some. congruence. }
  destruct (Nat.eq_dec (worldMapIndex w h columns Y' y' X' x') (worldMapIndex w h columns Y y X x))
    as [Hsame | Hother].
  - destruct (worldMapIndex_unique _ _ _ _ _ _ _ _ Hy' Hy Hx' Hx HX' HX Hsame)
      as (-> & -> & -> & ->).
    rewrite float32Set_same by exact Hinside.
    assert (row' = row) by congruence. subst row'.
    assert (cell' = cell) by congruence. subst cell'.
    symmetry. exact Hv.
  - rewrite float32Set_other by exact Hother.
    apply (Hfilled Y' y' X' x' row' cell'); try assumption. lia.
Qed.

Lemma fillCell_invariant (Y y X : nat) (row : list GridCell)
    (cell : GridCell) (yOffset xOffset worldWidth : nat)
    (cpuData : list Js.value) :
  nth_error cells Y = Some row -> nth_error row X = Some cell ->
  (y < h)%nat -> yOffset = (Y * h)%nat -> xOffset = (X * w)%nat ->
  worldWidth = (w * columns)%nat ->
  filled cells w h columns (worldMapIndex w h columns Y y X 0) cpuData ->
  exists cpuData',
    fold_left
      (fun state x =>
         match state with
         | None => None
         | Some cpuData =>
           match cellSample cell x y with
           | Some v =>
             Some (float32Set cpuData
                     ((y + yOffset) * worldWidth + xOffset + x)%nat v)
           | None => None
           end
         end)
      (seq 0 w) (Some cpuData)
    = Some cpuData'
    /\ filled cells w h columns (worldMapIndex w h columns Y y X w) cpuData'.
Proof.
  intros Hrow Hcell Hy -> -> -> Hfilled.
  refine (fold_seq_invariant _
            (fun x state =>
               exists cpuData',
                 state = Some cpuData'
                 /\ filled cells w h columns (worldMapIndex w h columns Y y X x)
                      cpuData') w _ _ _).
  - intros x state Hx (cpu & -> & Hcpu).
    destruct (cell_sampleable Y X row cell x y Hrow Hcell) as [v Hv].
    rewrite Hv.
    eexists. split; [reflexivity | ].
    replace ((y + Y * h) * (w * columns) + X * w + x)%nat
      with (worldMapIndex w h columns Y y X x)
      by (unfold worldMapIndex; lia).
    replace (worldMapIndex w h columns Y y X (Datatypes.S x))
      with (Datatypes.S (worldMapIndex w h columns Y y X x))
      by (unfold worldMapIndex; lia).
    apply (filled_next Y y X x row cell v cpu Hrow Hcell Hy Hx Hv Hcpu).
  - exists cpuData. split; [reflexivity | exact Hfilled].
Qed.

End WorldMap.

(** X26. For a grid that is not empty, whose rows have the same number
    of cells, and whose cells all have no tile index or an elevation grid
    whose [ElevationMap] is not [null], the assembly of the world map ends
    without an error; the map has one place for every sample of every
    tile, and the sample [(x, y)] of the tile in column [X] of row [Y] is
    at row [Y * h + y] and column [X * w + x]: the water elevation for a
    cell without a tile index, the unknown elevation for a tile whose
    [ElevationMap] is [undefined], and the sample [y * Columns + x] of the
    tile's own map otherwise. *)
Theorem assembleWorldMap_layout (cells : list (list GridCell))
    (w h columns : nat) :
  cells <> [] -> rectangular cells columns ->
  Forall (Forall sampleable) cells ->
  exists cpuData,
    assembleWorldMap cells w h = Some cpuData
    /\ List.length cpuData = ((w * columns) * (h * List.length cells))%nat
    /\ forall Y y X x row cell,
         nth_error cells Y = Some row -> nth_error row X = Some cell ->
         (y < h)%nat -> (x < w)%nat ->
         nth_error cpuData (((Y * h + y) * (w * columns) + X * w + x)%nat)
         = cellSample cell x y.
Proof.
  intros Hcells Hrectangular Hsampleable.
  destruct cells as [ | first rest] eqn:Hgrid; [contradiction | ].
  assert (Hfirst : List.length first = columns).
  { unfold rectangular in Hrectangular. inversion Hrectangular. assumption. }
  cbv beta iota zeta delta [assembleWorldMap]. rewrite Hfirst.
  rewrite <- Hgrid in *. clear Hgrid first rest Hfirst.
  match goal with
  | |- exists cpuData, option_map fst (fold_left ?body cells ?start) = _ /\ _ =>
    assert (Hloop : exists cpuData,
              fold_left body cells start
              = Some (cpuData, (List.length cells * h)%nat)
              /\ filled cells w h columns
                   (worldMapIndex w h columns (List.length cells) 0 0 0)
                   cpuData)
  end.
  { refine (fold_left_indexed_invariant _
              (fun Y state =>
                 exists cpuData,
                   state = Some (cpuData, (Y * h)%nat)
                   /\ filled cells w h columns
                        (worldMapIndex w h columns Y 0 0 0) cpuData)
              cells _ _ _).
    - intros Y row state Hrow (cpu1 & -> & Hcpu1).
      match goal with
      | |- exists cpuData, option_map _ (fold_left ?body _ _) = _ /\ _ =>
        assert (Hrows : exists cpuData,
                  fold_left body (seq 0 h) (Some cpu1) = Some cpuData
                  /\ filled cells w h columns
                       (worldMapIndex w h columns Y h 0 0) cpuData)
      end.
      { refine (fold_seq_invariant _
                  (fun y state =>
                     exists cpuData,
                       state = Some cpuData
                       /\ filled cells w h columns
                            (worldMapIndex w h columns Y y 0 0) cpuData)
                  h _ _ _).
        - intros y state Hy (cpu2 & -> & Hcpu2).
          match goal with
          | |- exists cpuData, option_map fst (fold_left ?body _ _) = _ /\ _ =>
            assert (Hcolumns : exists cpuData,
                      fold_left body row (Some (cpu2, O))
                      = Some (cpuData, (List.length row * w)%nat)
                      /\ filled cells w h columns
                           (worldMapIndex w h columns Y y (List.length row) 0)
                           cpuData)
          end.
          { refine (fold_left_indexed_invariant _
                      (fun X state =>
                         exists cpuData,
                           state = Some (cpuData, (X * w)%nat)
                           /\ filled cells w h columns
                                (worldMapIndex w h columns Y y X 0) cpuData)
                      row _ _ _).
            - intros X cell state Hcell (cpu3 & -> & Hcpu3).
              destruct (fillCell_invariant cells w h columns Hrectangular
                          Hsampleable Y y X row cell (Y * h)%nat (X * w)%nat
                          (w * columns)%nat cpu3 Hrow Hcell Hy eq_refl eq_refl
                          eq_refl Hcpu3) as (cpu4 & Hfold & Hcpu4).
              rewrite Hfold. cbn [option_map].
              exists cpu4. split; [do 2 f_equal; lia | ].
              replace (worldMapIndex w h columns Y y (Datatypes.S X) 0)
                with (worldMapIndex w h columns Y y X w)
                by (unfold worldMapIndex; lia).
              exact Hcpu4.
            - exists cpu2. split; [reflexivity | exact Hcpu2]. }
          destruct Hcolumns as (cpu3 & Hfold & Hcpu3).
          rewrite Hfold. cbn [option_map fst].
          exists cpu3. split; [reflexivity | ].
          rewrite (row_length cells columns Hrectangular Y row Hrow) in Hcpu3.
          replace (worldMapIndex w h columns Y (Datatypes.S y) 0 0)
            with (worldMapIndex w h columns Y y columns 0)
            by (unfold worldMapIndex; lia).
          exact Hcpu3.
        - exists cpu1. split; [reflexivity | exact Hcpu1]. }
      destruct Hrows as (cpu2 & Hfold & Hcpu2).
      rewrite Hfold. cbn [option_map].
      exists cpu2. split; [do 2 f_equal; lia | ].
      replace (worldMapIndex w h columns (Datatypes.S Y) 0 0 0)
        with (worldMapIndex w h columns Y h 0 0)
        by (unfold worldMapIndex; lia).
      exact Hcpu2.
    - eexists. split; [reflexivity | ].
      split; [rewrite repeat_length; reflexivity | ].
      unfold worldMapIndex. intros. lia. }
  destruct Hloop as (cpuData & Hfold & Hlength & Hfilled).
  rewrite Hfold. cbn [option_map fst].
  exists cpuData. split; [reflexivity | ]. split; [exact Hlength | ].
  intros Y y X x row cell Hrow Hcell Hy Hx.
  apply (Hfilled Y y X x row cell Hrow Hcell Hy Hx).
  assert (HX : (X < columns)%nat).
  { rewrite <- (row_length cells columns Hrectangular Y row Hrow).
    apply nth_error_Some. congruence. }
  assert (HY : (Y < List.length cells)%nat).
  { apply nth_error_Some. congruence. }
  unfold worldMapIndex.
  assert ((Y * h + y) + 1 <= List.length cells * h)%nat by nia.
  assert (X * w + x + 1 <= w * columns)%nat by nia.
  nia.
Qed.

Lemma assembleWorldMap_layout_witness :
  exists cpuData,
    assembleWorldMap sampleCells 2 2 = Some cpuData
    /\ List.length cpuData = ((2 * 2) * (2 * List.length sampleCells))%nat
    /\ forall Y y X x row cell,
         nth_error sampleCells Y = Some row -> nth_error row X = Some cell ->
         (y < 2)%nat -> (x < 2)%nat ->
         nth_error cpuData (((Y * 2 + y) * (2 * 2) + X * 2 + x)%nat)
         = cellSample cell x y.
Proof.
  apply (assembleWorldMap_layout sampleCells 2 2 2).
  - discriminate.
  - repeat constructor.
  - constructor; [ | constructor].
    constructor; [right; eexists; split; [reflexivity | discriminate] | ].
    constructor; [left; reflexivity | constructor].
Defined.

Lemma fold_left_fails {A S : Type} (body : option S -> A -> option S)
    (l : list A) (a : A) :
  In a l -> (forall s, body s a = None) -> (forall b, body None b = None) ->
  forall s, fold_left body l s = None.
Proof.
  intros Hin Ha Hnone.
  assert (Hstays : forall rest, fold_left body rest None = None).
  { induction rest as [ | b rest IH]; [reflexivity | ].
    cbn [fold_left]. rewrite Hnone. exact IH. }
  induction l as [ | b l IH]; intros s; [contradiction | ].
  cbn [fold_left]. destruct Hin as [-> | Hin].
  - rewrite Ha. apply Hstays.
  - apply IH. exact Hin.
Qed.

(** X27. A cell that has a tile index and no elevation grid makes the
    assembly of the world map fail with a [TypeError], whatever the
    other cells hold, as soon as the tiles have a sample to copy. *)
Theorem assembleWorldMap_throws (cells : list (list GridCell))
    (w h : nat) (row : list GridCell) (cell : GridCell) :
  In row cells -> In cell row ->
  cellTileIndex cell <> (-1)%Z -> elevationmap cell = None ->
  (0 < w)%nat -> (0 < h)%nat ->
  assembleWorldMap cells w h = None.
Proof.
  intros Hrow Hcell Hindex Hgrid Hw Hh.
  assert (Hsample : forall x y, cellSample cell x y = None).
  { intros x y. unfold cellSample.
    destruct (Z.eqb_spec (cellTileIndex cell) (-1)); [contradiction | ].
    rewrite Hgrid. reflexivity. }
  destruct cells as [ | first rest] eqn:Hcells; [contradiction | ].
  cbv beta iota zeta delta [assembleWorldMap].
  rewrite <- Hcells in *.
  rewrite (fold_left_fails _ cells row Hrow); [reflexivity | | reflexivity].
  intros [[cpu1 yOffset] | ]; [ | reflexivity].
  rewrite (fold_left_fails _ (seq 0 h) O); [reflexivity | | | reflexivity].
  - apply in_seq. lia.
  - intros [cpu2 | ]; [ | reflexivity].
    rewrite (fold_left_fails _ row cell Hcell); [reflexivity | | reflexivity].
    intros [[cpu3 xOffset] | ]; [ | reflexivity].
    rewrite (fold_left_fails _ (seq 0 w) O); [reflexivity | | | reflexivity].
    + apply in_seq. lia.
    + intros [cpu4 | ]; [ | reflexivity]. rewrite Hsample. reflexivity.
Qed.

(** A grid of one cell with a tile index and no elevation grid. *)
Lemma assembleWorldMap_throws_witness :
  assembleWorldMap [[{| cellTileIndex := 7; elevationmap := None |}]] 300 300
  = None.
Proof.
  apply (assembleWorldMap_throws _ 300 300
           [{| cellTileIndex := 7; elevationmap := None |}]
           {| cellTileIndex := 7; elevationmap := None |}).
  - left. reflexivity.
  - left. reflexivity.
  - discriminate.
  - reflexivity.
  - lia.
  - lia.
Defined.

Example assembleWorldMap_sample :
  assembleWorldMap sampleCells 2 2
  = Some [Js.Num 1900; Js.Num 2000; Js.Num WaterElevation; Js.Num WaterElevation;
          Js.Num 2100; Js.Num 2200; Js.Num WaterElevation; Js.Num WaterElevation].
Proof. reflexivity. Qed.

(** ** The colour bands of the peaks mode and the pixels without terrain *)

Section PeaksModeBands.

Variable drawHigh drawLow : Color -> Z -> Z -> number -> Color.
Variable drawWater : Color -> Z -> Z -> number -> number -> Color.
Variable thread : Thread.
Variables (pixelX pixelY : Z).
Variables elevation height' centre : number.

Section InRenderer.

Variable histogram : list number.
Variables altitude' verticalSpeed' cutOff : number.

Let K := navigationDisplayConstants.
Let s := statistics K histogram altitude' verticalSpeed' cutOff.
Let P :=
  peaksModeThresholds (lowerPercentileElevation s) (upperPercentileElevation s)
    (halfElevation s) (minElevation s) (maxElevation s).
Let pixel :=
  a32nxRenderPeaksMode K drawHigh drawLow drawWater thread elevation
    pixelX pixelY height' centre (lowerPercentileElevation s)
    (upperPercentileElevation s) (halfElevation s) (minElevation s)
    (maxElevation s).

(** X28.  With the statistics the colorizer takes from the histogram,
    whatever the histogram holds, a map pixel of the peaks mode whose
    elevation is a terrain value falls into one of four bands without a
    gap: transparent below [lowerDensity], low-density green up to
    [higherDensity], high-density green up to [solidDensity], solid green
    from there on. *)
Theorem peaksMode_bands :
  -500 <= cutOff ->
  inject_Z (thread_y thread) < height' ->
  ~ elevation == InvalidElevation ->
  ~ elevation == UnknownElevation ->
  ~ elevation == WaterElevation ->
  (elevation < lowerDensity P -> pixel = (0, 0, 0, 0))
  /\ (lowerDensity P <= elevation < higherDensity P ->
      pixel = drawLow (0, 255, 0, 255) pixelX pixelY centre)
  /\ (higherDensity P <= elevation < solidDensity P ->
      pixel = drawHigh (0, 255, 0, 255) pixelX pixelY centre)
  /\ (solidDensity P <= elevation -> pixel = (0, 255, 0, 255)).
Proof.
  intros Hcut Hrow Hinvalid Hunknown Hwater.
  pose proof (peaksMode_ordered_in_renderer histogram altitude' verticalSpeed'
                cutOff Hcut) as Horder.
  cbv zeta in Horder. fold K in Horder. fold s in Horder. fold P in Horder.
  destruct Horder as [H1 H2].
  subst pixel. unfold a32nxRenderPeaksMode.
  unfold P, peaksModeThresholds in *.
  destruct (a32nxCalculatePeaksModeThresholds _ _ _ _ _) as [[ld hd] sd].
  cbn [lowerDensity higherDensity solidDensity] in *.
  cbn [invalidElevation unknownElevation waterElevation K
       navigationDisplayConstants].
  apply geb_false in Hrow. rewrite Hrow.
  apply eqb_false in Hinvalid, Hunknown, Hwater.
  rewrite Hinvalid, Hunknown, Hwater. cbn [negb andb].
  repeat split; intros Hband; js_cases; try reflexivity; exfalso; lra.
Qed.

End InRenderer.

Variables ref m M fe off lp up half cutOff : number.

Let K := navigationDisplayConstants.
Let normal :=
  a32nxRenderNormalMode K drawHigh drawLow drawWater thread elevation
    pixelX pixelY height' centre ref m M fe off lp half cutOff.
Let peaks :=
  a32nxRenderPeaksMode K drawHigh drawLow drawWater thread elevation
    pixelX pixelY height' centre lp up half m M.

(** X29.  The two modes draw a map pixel without terrain alike, whatever
    the thresholds and the cut-off altitude: water as the water stipple
    in cyan, an unknown elevation as the high-density stipple in
    magenta, an invalid elevation transparent. *)
Theorem modes_without_terrain :
  inject_Z (thread_y thread) < height' ->
  (elevation == WaterElevation ->
   normal = drawWater (0, 255, 255, 255) pixelX pixelY height' centre
   /\ peaks = drawWater (0, 255, 255, 255) pixelX pixelY height' centre)
  /\ (elevation == UnknownElevation ->
      normal = drawHigh (255, 148, 255, 255) pixelX pixelY centre
      /\ peaks = drawHigh (255, 148, 255, 255) pixelX pixelY centre)
  /\ (elevation == InvalidElevation ->
      normal = (0, 0, 0, 0) /\ peaks = (0, 0, 0, 0)).
Proof.
  intros Hrow. apply geb_false in Hrow.
  subst normal peaks. unfold a32nxRenderNormalMode, a32nxRenderPeaksMode.
  destruct (a32nxCalculateNormalModeWarningThresholds K ref m off)
    as [[ldy hdy] hdr].
  destruct (a32nxCalculateNormalModeGreenThresholds K ref m fe lp half)
    as [ldg hdg].
  destruct (a32nxCalculatePeaksModeThresholds lp up half m M) as [[ld hd] sd].
  cbn [invalidElevation unknownElevation waterElevation K
       navigationDisplayConstants].
  rewrite Hrow.
  assert (Hvalues : forall a b : number, elevation == a -> ~ a == b ->
            (elevation =? b) = false).
  { intros a b Ha Hab. apply eqb_false. intros Hb. apply Hab.
    rewrite <- Ha. exact Hb. }
  split; [ | split]; intros Hvalue.
  - apply eqb_spec in Hvalue. rewrite Hvalue.
    rewrite !andb_false_r, ?andb_false_l. cbn [negb andb].
    split; reflexivity.
  - rewrite (Hvalues _ WaterElevation Hvalue) by (vm_compute; discriminate).
    apply eqb_spec in Hvalue. rewrite Hvalue.
    rewrite !andb_false_r, ?andb_false_l. cbn [negb andb].
    split; reflexivity.
  - rewrite (Hvalues _ WaterElevation Hvalue) by (vm_compute; discriminate).
    rewrite (Hvalues _ UnknownElevation Hvalue) by (vm_compute; discriminate).
    apply eqb_spec in Hvalue. rewrite Hvalue. cbn [negb andb].
    split; reflexivity.
Qed.

End PeaksModeBands.

(** With the thresholds 2800, 5700 and 5700, 3000 ft is low-density
    green. *)
Lemma peaksMode_bands_witness :
  a32nxRenderPeaksMode navigationDisplayConstants
    (fun c _ _ _ => c) (fun _ _ _ _ => (0, 255, 0, 128)) (fun c _ _ _ _ => c)
    {| thread_x := 40; thread_y := 10 |} 3000 10 10 492 378
    (lowerPercentileElevation peaksStatistics)
    (upperPercentileElevation peaksStatistics)
    (halfElevation peaksStatistics) (minElevation peaksStatistics)
    (maxElevation peaksStatistics)
  = (0, 255, 0, 128).
Proof.
  destruct (peaksMode_bands
              (fun c _ _ _ => c) (fun _ _ _ _ => (0, 255, 0, 128))
              (fun c _ _ _ _ => c)
              {| thread_x := 40; thread_y := 10 |} 10 10 3000 492 378
              (histogramOf [(20%nat, 10); (40%nat, 30); (60%nat, 5)] 296 0)
              20000 0 (-500))
    as (_ & H & _).
  - vm_compute. discriminate.
  - reflexivity.
  - vm_compute. discriminate.
  - vm_compute. discriminate.
  - vm_compute. discriminate.
  - apply H. split; [vm_compute; discriminate | vm_compute; reflexivity].
Defined.

(** A water pixel, far below the cut-off altitude of 400 ft. *)
Lemma modes_without_terrain_witness :
  a32nxRenderNormalMode navigationDisplayConstants
    (fun c _ _ _ => c) (fun c _ _ _ => c) (fun c _ _ _ _ => c)
    {| thread_x := 40; thread_y := 10 |} (-1) 10 10 492 378 3000 0 3100
    (-2900) 250 2400 1500 400
  = (0, 255, 255, 255)
  /\ a32nxRenderPeaksMode navigationDisplayConstants
       (fun c _ _ _ => c) (fun c _ _ _ => c) (fun c _ _ _ _ => c)
       {| thread_x := 40; thread_y := 10 |} (-1) 10 10 492 378 2400 2800 1500
       0 3100
     = (0, 255, 255, 255).
Proof.
  destruct (modes_without_terrain
              (fun c _ _ _ => c) (fun c _ _ _ => c) (fun c _ _ _ _ => c)
              {| thread_x := 40; thread_y := 10 |} 10 10 (-1) 492 378 3000 0
              3100 (-2900) 250 2400 2800 1500 400)
    as [H _].
  - reflexivity.
  - apply H. reflexivity.
Defined.
